(** * WhatsApp campaign engine: rate limiting, orchestration, metrics, persistence

    A shallow embedding of
      - src/core/delay_manager.py      (module [delay_manager])
      - src/utils/analytics_tracker.py (module [analytics_tracker])
      - src/core/campaign_manager.py   (module [campaign_manager])
      - src/models/business.py, src/core/message_composer.py (module [business])
    together with the small part of the Python runtime they rely on
    (module [py]: strings, [datetime], JSON files, the clocks, [random] and
    [time.sleep]).

    Python [int] is [Z]; [float] is modelled by exact rationals [Q] (rounding
    is not modelled); [str] is [string], read as ASCII text; [Optional[T]] is
    [option T]; a [dict] with string keys is a [gmap string _].  Logging has
    no effect on any state the program reads back and is left out.  The file
    system accepts every write (the sources catch and log an [OSError] of
    [mkdir] or [open]; then nothing is saved). *)

From Stdlib Require Import ZArith QArith Qabs Lqa List String Ascii Lia Bool DecimalString.
From stdpp Require Import base gmap strings list.

Local Open Scope string_scope.
Local Open Scope Z_scope.

(* ===================================================================== *)
(** ** The Python runtime used by the sources *)
(* ===================================================================== *)

Module py.

(** *** Strings *)

(** [str(n)] / [f"{n}"] for an [int]. *)
Definition str_of_int (z : Z) : string := NilZero.string_of_int (Z.to_int z).

(** [bool(s)] for a [str]: the empty string is falsy. *)
Definition truthy (s : string) : bool := negb (String.eqb s "").

(** [bool(o)] for an [Optional[str]]: [None] and [""] are falsy. *)
Definition opt_truthy (o : option string) : bool :=
  match o with
  | Some s => truthy s
  | None => false
  end.

(** [bool(t)] for a 2-tuple [t]: a tuple with elements is truthy, whatever
    the elements are. *)
Definition tuple_truthy {A B : Type} (t : A * B) : bool := true.

(** [Path(p) if p else None] for [p : Optional[str]]: no path and the empty
    path both give [None]. *)
Definition path_of (p : option string) : option string :=
  if opt_truthy p then p else None.

(** [int(x)] for a [float]: the fraction is dropped, towards zero. *)
Definition int_of_float (x : Q) : Z := Z.quot (Qnum x) (Z.pos (Qden x)).

(** [a < b] for two [float]s. *)
Definition float_lt (a b : Q) : bool := negb (Qle_bool b a).

(** [o or d] where [o : Optional[str]]. *)
Definition or_else (o : option string) (d : string) : string :=
  match o with
  | Some s => if truthy s then s else d
  | None => d
  end.

(** ASCII whitespace, as removed by [str.strip()]. *)
Definition is_space (c : ascii) : bool :=
  let n := nat_of_ascii c in
  ((9 <=? n)%nat && (n <=? 13)%nat) || ((28 <=? n)%nat && (n <=? 32)%nat).

Fixpoint lstrip (s : string) : string :=
  match s with
  | String c s' => if is_space c then lstrip s' else s
  | EmptyString => EmptyString
  end.

Definition str_rev (s : string) : string :=
  string_of_list_ascii (rev (list_ascii_of_string s)).

Definition strip (s : string) : string := str_rev (lstrip (str_rev (lstrip s))).

(** [s.lower()] on ASCII letters. *)
Definition lower_char (c : ascii) : ascii :=
  let n := nat_of_ascii c in
  if (65 <=? n)%nat && (n <=? 90)%nat then ascii_of_nat (n + 32) else c.

Fixpoint lower (s : string) : string :=
  match s with
  | String c s' => String (lower_char c) (lower s')
  | EmptyString => EmptyString
  end.

(** [sub in s]. *)
Fixpoint contains (sub s : string) : bool :=
  String.prefix sub s ||
  match s with
  | String _ s' => contains sub s'
  | EmptyString => false
  end.

(** [s[:n]]. *)
Definition slice_to (n : nat) (s : string) : string := substring 0 n s.

(** *** [datetime.datetime] (naive local time) *)

Record datetime : Type := mk_datetime {
  year : Z;
  month : Z;
  day : Z;
  hour : Z;
  minute : Z;
  second : Z;
  microsecond : Z
}.

Definition is_leap (y : Z) : bool :=
  ((y mod 4 =? 0) && negb (y mod 100 =? 0)) || (y mod 400 =? 0).

Definition days_in_month (y m : Z) : Z :=
  if m =? 2 then (if is_leap y then 29 else 28)
  else if (m =? 4) || (m =? 6) || (m =? 9) || (m =? 11) then 30
  else 31.

(** The range checks of the [datetime] constructor. *)
Definition valid_datetime (d : datetime) : bool :=
  (1 <=? year d) && (year d <=? 9999) &&
  (1 <=? month d) && (month d <=? 12) &&
  (1 <=? day d) && (day d <=? days_in_month (year d) (month d)) &&
  (0 <=? hour d) && (hour d <=? 23) &&
  (0 <=? minute d) && (minute d <=? 59) &&
  (0 <=? second d) && (second d <=? 59) &&
  (0 <=? microsecond d) && (microsecond d <=? 999999).

Definition digit_char (d : Z) : ascii := ascii_of_nat (48 + Z.to_nat d).

(** Decimal rendering on exactly [w] digits, zero padded (["%02d"] ...). *)
Fixpoint zfill (w : nat) (n : Z) : string :=
  match w with
  | O => EmptyString
  | S w' => String (digit_char ((n / 10 ^ Z.of_nat w') mod 10)) (zfill w' n)
  end.

(** [d.strftime("%Y-%m-%d")] (years are rendered on four digits, as they
    are for every reading of the clock). *)
Definition strftime_date (d : datetime) : string :=
  zfill 4 (year d) ++ "-" ++ zfill 2 (month d) ++ "-" ++ zfill 2 (day d).

(** [d.strftime("%Y-%m-%d %H:00")]. *)
Definition strftime_hour (d : datetime) : string :=
  strftime_date d ++ " " ++ zfill 2 (hour d) ++ ":00".

(** [d.isoformat()]: the fraction is printed only when it is not zero. *)
Definition isoformat (d : datetime) : string :=
  strftime_date d ++ "T" ++ zfill 2 (hour d) ++ ":" ++ zfill 2 (minute d)
    ++ ":" ++ zfill 2 (second d)
    ++ (if microsecond d =? 0 then "" else "." ++ zfill 6 (microsecond d)).

Definition digit_val (c : ascii) : option Z :=
  let n := nat_of_ascii c in
  if (48 <=? n)%nat && (n <=? 57)%nat then Some (Z.of_nat (n - 48)) else None.

(** Read exactly [w] decimal digits from the front of [s]. *)
Fixpoint take_digits (w : nat) (acc : Z) (s : string) : option (Z * string) :=
  match w with
  | O => Some (acc, s)
  | S w' =>
      match s with
      | String c s' =>
          match digit_val c with
          | Some d => take_digits w' (10 * acc + d) s'
          | None => None
          end
      | EmptyString => None
      end
  end.

Definition expect_char (c : ascii) (s : string) : option string :=
  match s with
  | String c' s' => if Ascii.eqb c c' then Some s' else None
  | EmptyString => None
  end.

(** [datetime.fromisoformat(s)] on the two layouts [isoformat] emits,
    [YYYY-MM-DDTHH:MM:SS] and [YYYY-MM-DDTHH:MM:SS.ffffff], which is all the
    program ever writes.  [None] says that [s] is in neither layout or names
    no valid date; Python raises [ValueError] on text that is no ISO 8601
    date-time (recent versions read further ISO layouts, which the program
    does not produce). *)
Definition fromisoformat (s : string) : option datetime :=
  '(y, s) ← take_digits 4 0 s;
  s ← expect_char "-" s;
  '(mo, s) ← take_digits 2 0 s;
  s ← expect_char "-" s;
  '(d, s) ← take_digits 2 0 s;
  s ← expect_char "T" s;
  '(h, s) ← take_digits 2 0 s;
  s ← expect_char ":" s;
  '(mi, s) ← take_digits 2 0 s;
  s ← expect_char ":" s;
  '(se, s) ← take_digits 2 0 s;
  '(us, s) ← match s with
              | EmptyString => Some (0, s)
              | _ => s ← expect_char "." s; take_digits 6 0 s
              end;
  match s with
  | EmptyString =>
      let r := mk_datetime y mo d h mi se us in
      if valid_datetime r then Some r else None
  | _ => None
  end.

(** Days since 1970-01-01 of a civil date. *)
Definition days_from_civil (y m d : Z) : Z :=
  let y' := if m <=? 2 then y - 1 else y in
  let era := y' / 400 in
  let yoe := y' - era * 400 in
  let doy := (153 * (if 2 <? m then m - 3 else m + 9) + 2) / 5 + d - 1 in
  let doe := yoe * 365 + yoe / 4 - yoe / 100 + doy in
  era * 146097 + doe - 719468.

Definition to_microseconds (d : datetime) : Z :=
  (((days_from_civil (year d) (month d) (day d) * 24 + hour d) * 60
     + minute d) * 60 + second d) * 1000000 + microsecond d.

(** [(b - a).total_seconds()]. *)
Definition total_seconds (a b : datetime) : Q :=
  Qmake (to_microseconds b - to_microseconds a) 1000000.

(** *** JSON documents and files *)

(** The JSON values the program writes: [null], integers, strings and the
    two [str -> int] history dictionaries. *)
Inductive json : Type :=
  | JNull
  | JInt (z : Z)
  | JStr (s : string)
  | JCounts (m : gmap string Z).

(** What [json.load] finds in a file: a JSON object, or text that does not
    parse (an empty or truncated file), for which it raises. *)
Inductive file_content : Type :=
  | Unparsable
  | JsonObject (o : gmap string json).

(** The file system: the files that exist, by path. *)
Abbreviation files := (gmap string file_content).

(** [open(path, 'w')] truncates the file (or creates it empty) at once. *)
Definition open_w (path : string) (fs : files) : files :=
  <[path := Unparsable]> fs.

(** [json.dump(data, f)] followed by closing the file: only now does the
    file hold the complete document. *)
Definition json_dump (path : string) (data : gmap string json) (fs : files) : files :=
  <[path := JsonObject data]> fs.

(** The steps of [with open(path, 'w') as f: json.dump(data, f)], in order. *)
Definition write_steps (path : string) (data : gmap string json) : list (files → files) :=
  [open_w path; json_dump path data].

Definition run_steps (steps : list (files → files)) (fs : files) : files :=
  fold_left (λ acc step, step acc) steps fs.

Definition write_json (path : string) (data : gmap string json) (fs : files) : files :=
  run_steps (write_steps path data) fs.

(** [o.get(key, default)] read at type [int].  [None] stands for a value of
    another type, which the typed model cannot store in an [int] field; it
    is treated like a decoding error. *)
Definition get_int (o : gmap string json) (key : string) (default : Z) : option Z :=
  match o !! key with
  | None => Some default
  | Some (JInt z) => Some z
  | Some _ => None
  end.

(** [o.get(key)] read at type [Optional[str]]. *)
Definition get_str (o : gmap string json) (key : string) : option (option string) :=
  match o !! key with
  | None | Some JNull => Some None
  | Some (JStr s) => Some (Some s)
  | Some _ => None
  end.

(** [o.get(key)] read at type [Optional[int]]. *)
Definition get_opt_int (o : gmap string json) (key : string) : option (option Z) :=
  match o !! key with
  | None | Some JNull => Some None
  | Some (JInt z) => Some (Some z)
  | Some _ => None
  end.

(** [o.get(key, {})] read at type [Dict[str, int]]. *)
Definition get_counts (o : gmap string json) (key : string) : option (gmap string Z) :=
  match o !! key with
  | None => Some ∅
  | Some (JCounts m) => Some m
  | Some _ => None
  end.

Definition json_of_time (t : option datetime) : json :=
  match t with
  | Some d => JStr (isoformat d)
  | None => JNull
  end.

Definition json_of_opt_str (o : option string) : json :=
  match o with
  | Some s => JStr s
  | None => JNull
  end.

Definition json_of_opt_int (o : option Z) : json :=
  match o with
  | Some z => JInt z
  | None => JNull
  end.

(** Run assignments in order until one raises; what was assigned before the
    exception stays assigned (a [try] block does not roll back). *)
Fixpoint try_steps {S : Type} (steps : list (S → option S)) (s : S) : S :=
  match steps with
  | [] => s
  | f :: rest =>
      match f s with
      | Some s' => try_steps rest s'
      | None => s
      end
  end.

End py.


(* ===================================================================== *)
(** ** src/models/business.py and the message-type rule of
       src/core/message_composer.py *)
(* ===================================================================== *)

Module business.

Record Business : Type := mk_business {
  business_name : string;
  phone : string;
  description : option string;
  website : option string;
  google_maps_link : option string
}.

(** [bool(self.website and self.website.strip())]. *)
Definition has_website (b : Business) : bool :=
  match website b with
  | Some w => py.truthy w && py.truthy (py.strip w)
  | None => false
  end.

(** [MessageComposer.detect_message_type]. *)
Definition detect_message_type (b : Business) : string :=
  if has_website b then "enhancement" else "creation".

End business.

(* ===================================================================== *)
(** ** The outside world: clock, random source, composer, transport, files *)
(* ===================================================================== *)

Module world.
Import py.


(** What the environment answers, indexed by the number of interactions so
    far: the readings of [datetime.now()], the time that goes by between two
    interactions outside [time.sleep], the draws of
    [random.randint(a, b)] (and [str(e)] of the [ValueError] it raises on an
    empty range, whose wording belongs to the interpreter), the outcome of [MessageComposer.compose_message]
    ([inl] the message, [inr] the text of the exception it raised) and the
    outcome of [self.whatsapp_controller.send_message(phone, message)].
    [WhatsAppController.send_message] (src/core/whatsapp_controller.py)
    returns a [Tuple[bool, str]] and catches what its retries raise; the
    call expression can still raise, for instance when the controller is
    [None]. *)
Inductive send_outcome : Type :=
  | SendReturns (ok : bool) (err : string)
      (* send_message returned the pair (ok, err): (True, "") once the
         message is out, (False, reason) when its retries are used up *)
  | SendRaises (msg : string)
      (* evaluating the call raised an exception e, msg = str(e) *).

Record Env : Type := mk_env {
  clock : nat → datetime;
  lapse : nat → Q;
  randint_draw : nat → Z → Z → Z;
  empty_range_text : Z → Z → string;
  compose_text : nat → business.Business → string + string;
  transport : nat → string → string → send_outcome
}.

(** The seconds that have gone by outside [time.sleep] when the [t]-th
    interaction takes place: the computation between the interactions and
    whatever a sleep takes beyond its request.  The [t]-th interaction
    takes [|lapse e t|] seconds, so this time never runs backwards. *)
Fixpoint busy (e : Env) (t : nat) : Q :=
  match t with
  | O => 0
  | S t' => busy e t' + Qabs (lapse e t')
  end.

(** The mutable part of the world: the interaction counter, the calls of
    [time.sleep] (their seconds, oldest first) and the files. *)
Record Sys : Type := mk_sys {
  tick : nat;
  sleeps : list Z;
  fs : files
}.

(** Computations that read the environment and update the world. *)
Definition M (A : Type) : Type := Env → Sys → A * Sys.

Definition ret {A} (a : A) : M A := λ _ s, (a, s).

Definition bind {A B} (m : M A) (k : A → M B) : M B :=
  λ e s, let '(a, s') := m e s in k a e s'.

Definition next_tick (s : Sys) : Sys := mk_sys (S (tick s)) (sleeps s) (fs s).

(** [datetime.now()]. *)
Definition now : M datetime := λ e s, (clock e (tick s), next_tick s).

(** [random.randint(a, b)]: a draw ([inl]), or the [ValueError] raised when
    [a > b] ([inr], holding [str(e)]). *)
Definition randint (a b : Z) : M (Z + string) :=
  λ e s, (if a <=? b then inl (randint_draw e (tick s) a b)
          else inr (empty_range_text e a b),
          next_tick s).

(** [time.sleep(seconds)]. *)
Definition sleep (seconds : Z) : M unit :=
  λ _ s, (tt, mk_sys (tick s) (sleeps s ++ [seconds]) (fs s)).

(** The seconds spent in [time.sleep] so far. *)
Definition slept (s : Sys) : Z := fold_right Z.add 0 (sleeps s).

(** [time.time()]: the seconds since the world began, those slept and
    those gone by otherwise.  ([datetime.now()] is read from [clock]; no
    function of the sources compares the two.) *)
Definition time_time : M Q :=
  λ e s, ((busy e (tick s) + inject_Z (slept s))%Q, next_tick s).

Definition get_files : M files := λ _ s, (fs s, s).

Definition modify_files (f : files → files) : M unit :=
  λ _ s, (tt, mk_sys (tick s) (sleeps s) (f (fs s))).


(** [self.message_composer.compose_message(business)]. *)
Definition compose (b : business.Business) : M (string + string) :=
  λ e s, (compose_text e (tick s) b, next_tick s).

(** [self.whatsapp_controller.send_message(phone, message)]. *)
Definition send (ph message : string) : M send_outcome :=
  λ e s, (transport e (tick s) ph message, next_tick s).

End world.

#[export] Instance M_ret : MRet world.M := @world.ret.
#[export] Instance M_bind : MBind world.M := λ A B k m, world.bind m k.

(* ===================================================================== *)
(** ** src/core/delay_manager.py *)
(* ===================================================================== *)

Module delay_manager.
Import py world.

Record RateLimitConfig : Type := mk_config {
  min_message_delay : Z;
  max_message_delay : Z;
  messages_per_batch : Z * Z;
  min_batch_delay : Z;
  max_batch_delay : Z;
  max_messages_per_day : Z;
  max_messages_per_hour : Z;
  enable_delays : bool;
  enable_daily_limit : bool;
  enable_hourly_limit : bool
}.

(** [RateLimitConfig()] with the dataclass defaults. *)
Definition default_config : RateLimitConfig :=
  mk_config 20 90 (10, 20) 300 900 50 15 true true true.

Record SendingStats : Type := mk_stats {
  total_sent : Z;
  sent_today : Z;
  sent_this_hour : Z;
  last_message_time : option datetime;
  last_batch_delay_time : option datetime;
  messages_since_batch_delay : Z;
  next_batch_delay_at : Z;
  current_date : option string;
  current_hour : option Z;
  hourly_counts : gmap string Z;
  daily_counts : gmap string Z
}.

(** [SendingStats()] with the dataclass defaults. *)
Definition default_stats : SendingStats :=
  mk_stats 0 0 0 None None 0 0 None None ∅ ∅.

Record DelayManager : Type := mk_delay_manager {
  config : RateLimitConfig;
  stats : SendingStats;
  stats_file : option string
}.

Definition with_stats (dm : DelayManager) (st : SendingStats) : DelayManager :=
  mk_delay_manager (config dm) st (stats_file dm).

(** Field assignments [self.stats.<field> = v]. *)
Definition set_total_sent (v : Z) (s : SendingStats) : SendingStats :=
  mk_stats v (sent_today s) (sent_this_hour s) (last_message_time s)
    (last_batch_delay_time s) (messages_since_batch_delay s)
    (next_batch_delay_at s) (current_date s) (current_hour s)
    (hourly_counts s) (daily_counts s).

Definition set_sent_today (v : Z) (s : SendingStats) : SendingStats :=
  mk_stats (total_sent s) v (sent_this_hour s) (last_message_time s)
    (last_batch_delay_time s) (messages_since_batch_delay s)
    (next_batch_delay_at s) (current_date s) (current_hour s)
    (hourly_counts s) (daily_counts s).

Definition set_sent_this_hour (v : Z) (s : SendingStats) : SendingStats :=
  mk_stats (total_sent s) (sent_today s) v (last_message_time s)
    (last_batch_delay_time s) (messages_since_batch_delay s)
    (next_batch_delay_at s) (current_date s) (current_hour s)
    (hourly_counts s) (daily_counts s).

Definition set_last_message_time (v : option datetime) (s : SendingStats) : SendingStats :=
  mk_stats (total_sent s) (sent_today s) (sent_this_hour s) v
    (last_batch_delay_time s) (messages_since_batch_delay s)
    (next_batch_delay_at s) (current_date s) (current_hour s)
    (hourly_counts s) (daily_counts s).

Definition set_last_batch_delay_time (v : option datetime) (s : SendingStats) : SendingStats :=
  mk_stats (total_sent s) (sent_today s) (sent_this_hour s) (last_message_time s)
    v (messages_since_batch_delay s)
    (next_batch_delay_at s) (current_date s) (current_hour s)
    (hourly_counts s) (daily_counts s).

Definition set_messages_since_batch_delay (v : Z) (s : SendingStats) : SendingStats :=
  mk_stats (total_sent s) (sent_today s) (sent_this_hour s) (last_message_time s)
    (last_batch_delay_time s) v
    (next_batch_delay_at s) (current_date s) (current_hour s)
    (hourly_counts s) (daily_counts s).

Definition set_next_batch_delay_at (v : Z) (s : SendingStats) : SendingStats :=
  mk_stats (total_sent s) (sent_today s) (sent_this_hour s) (last_message_time s)
    (last_batch_delay_time s) (messages_since_batch_delay s)
    v (current_date s) (current_hour s)
    (hourly_counts s) (daily_counts s).

Definition set_current_date (v : option string) (s : SendingStats) : SendingStats :=
  mk_stats (total_sent s) (sent_today s) (sent_this_hour s) (last_message_time s)
    (last_batch_delay_time s) (messages_since_batch_delay s)
    (next_batch_delay_at s) v (current_hour s)
    (hourly_counts s) (daily_counts s).

Definition set_current_hour (v : option Z) (s : SendingStats) : SendingStats :=
  mk_stats (total_sent s) (sent_today s) (sent_this_hour s) (last_message_time s)
    (last_batch_delay_time s) (messages_since_batch_delay s)
    (next_batch_delay_at s) (current_date s) v
    (hourly_counts s) (daily_counts s).

Definition set_hourly_counts (v : gmap string Z) (s : SendingStats) : SendingStats :=
  mk_stats (total_sent s) (sent_today s) (sent_this_hour s) (last_message_time s)
    (last_batch_delay_time s) (messages_since_batch_delay s)
    (next_batch_delay_at s) (current_date s) (current_hour s)
    v (daily_counts s).

Definition set_daily_counts (v : gmap string Z) (s : SendingStats) : SendingStats :=
  mk_stats (total_sent s) (sent_today s) (sent_this_hour s) (last_message_time s)
    (last_batch_delay_time s) (messages_since_batch_delay s)
    (next_batch_delay_at s) (current_date s) (current_hour s)
    (hourly_counts s) v.

(** The methods below update [self] in place and may end in an exception:
    they give the manager as the call left it, together with [Some (str e)]
    when the call raised [e] and [None] when it returned. *)

(** [_reset_batch_threshold]: draw the next threshold in [messages_per_batch]. *)
Definition _reset_batch_threshold (dm : DelayManager) : M (DelayManager * option string) :=
  let '(min_msgs, max_msgs) := messages_per_batch (config dm) in
  r ← randint min_msgs max_msgs;
  match r with
  | inl n => mret (with_stats dm (set_next_batch_delay_at n (stats dm)), None)
  | inr msg => mret (dm, Some msg)
  end.

(** The lazy roll-over of the day bucket at the head of [can_send_message]:
    [if self.stats.current_date != today: ...]. *)
Definition roll_date (today : string) (s : SendingStats) : SendingStats :=
  if bool_decide (current_date s = Some today) then s
  else set_sent_today 0 (set_current_date (Some today) s).

(** The lazy roll-over of the hour bucket:
    [if self.stats.current_hour != current_hour: ...]. *)
Definition roll_hour (h : Z) (s : SendingStats) : SendingStats :=
  if bool_decide (current_hour s = Some h) then s
  else set_sent_this_hour 0 (set_current_hour (Some h) s).

Definition daily_limit_reason (c : RateLimitConfig) : string :=
  "Daily limit reached (" ++ str_of_int (max_messages_per_day c) ++ " messages)".

Definition hourly_limit_reason (c : RateLimitConfig) : string :=
  "Hourly limit reached (" ++ str_of_int (max_messages_per_hour c) ++ " messages)".

(** The limit checks of [can_send_message], after the roll-over. *)
Definition check_limits (c : RateLimitConfig) (s : SendingStats) : bool * option string :=
  if enable_daily_limit c && (max_messages_per_day c <=? sent_today s)
  then (false, Some (daily_limit_reason c))
  else if enable_hourly_limit c && (max_messages_per_hour c <=? sent_this_hour s)
  then (false, Some (hourly_limit_reason c))
  else (true, None).

(** [can_send_message] at a given reading of the clock. *)
Definition can_send_message_at (t : datetime) (dm : DelayManager)
    : (bool * option string) * DelayManager :=
  let s := roll_hour (hour t) (roll_date (strftime_date t) (stats dm)) in
  (check_limits (config dm) s, with_stats dm s).

Definition can_send_message (dm : DelayManager) : M ((bool * option string) * DelayManager) :=
  t ← now;
  mret (can_send_message_at t dm).

(** The loop of [_sleep_with_countdown]:
    [while time.time() < end_time: remaining = int(end_time - time.time());
     if remaining <= 0: break; ...; time.sleep(1)].
    The countdown it shows is logged only.  [rounds] bounds the passes;
    every pass that goes on sleeps one second of the time left, so
    [seconds + 1] passes are all the loop can take. *)
Fixpoint countdown (rounds : nat) (end_time : Q) : M unit :=
  match rounds with
  | O => mret tt
  | S rounds' =>
      t ← time_time;
      if float_lt t end_time then
        t' ← time_time;
        let remaining := int_of_float (end_time - t')%Q in
        if remaining <=? 0 then mret tt
        else
          _ ← sleep 1;
          countdown rounds' end_time
      else mret tt
  end.

(** [_sleep_with_countdown(seconds, show_minutes)]; [show_minutes] only
    chooses the format of the logged countdown. *)
Definition _sleep_with_countdown (seconds : Z) : M unit :=
  start_time ← time_time;
  let end_time := (start_time + inject_Z seconds)%Q in
  countdown (Z.to_nat seconds + 1) end_time.

(** [_do_batch_delay]: the long rest, then the counter is reset and a new
    threshold drawn. *)
Definition _do_batch_delay (dm : DelayManager) : M (DelayManager * option string) :=
  r ← randint (min_batch_delay (config dm)) (max_batch_delay (config dm));
  match r with
  | inr msg => mret (dm, Some msg)
  | inl delay =>
      t ← now;
      let dm := with_stats dm (set_last_batch_delay_time (Some t) (stats dm)) in
      _ ← _sleep_with_countdown delay;
      let dm := with_stats dm (set_messages_since_batch_delay 0 (stats dm)) in
      _reset_batch_threshold dm
  end.

(** [wait_between_messages(force)]. *)
Definition wait_between_messages (force : bool) (dm : DelayManager)
    : M (DelayManager * option string) :=
  if negb (enable_delays (config dm)) && negb force then mret (dm, None)
  else if next_batch_delay_at (stats dm) <=? messages_since_batch_delay (stats dm)
  then _do_batch_delay dm
  else
    r ← randint (min_message_delay (config dm)) (max_message_delay (config dm));
    match r with
    | inr msg => mret (dm, Some msg)
    | inl delay =>
        _ ← _sleep_with_countdown delay;
        mret (dm, None)
    end.

(** The dictionary [_save_stats] serialises. *)
Definition stats_data (s : SendingStats) : gmap string json :=
  <["total_sent" := JInt (total_sent s)]>
  (<["sent_today" := JInt (sent_today s)]>
  (<["sent_this_hour" := JInt (sent_this_hour s)]>
  (<["last_message_time" := json_of_time (last_message_time s)]>
  (<["last_batch_delay_time" := json_of_time (last_batch_delay_time s)]>
  (<["messages_since_batch_delay" := JInt (messages_since_batch_delay s)]>
  (<["next_batch_delay_at" := JInt (next_batch_delay_at s)]>
  (<["current_date" := json_of_opt_str (current_date s)]>
  (<["current_hour" := json_of_opt_int (current_hour s)]>
  (<["hourly_counts" := JCounts (hourly_counts s)]>
  (<["daily_counts" := JCounts (daily_counts s)]> ∅)))))))))).

(** [_save_stats]: nothing without a stats file; otherwise the file is
    opened for writing and the document dumped into it. *)
Definition _save_stats (dm : DelayManager) (fs : files) : files :=
  match stats_file dm with
  | None => fs
  | Some path => write_json path (stats_data (stats dm)) fs
  end.

(** The counter updates of [record_message_sent] at a reading of the clock. *)
Definition record_message_sent_at (t : datetime) (s : SendingStats) : SendingStats :=
  let today := strftime_date t in
  let hour_key := strftime_hour t in
  let s := set_total_sent (total_sent s + 1) s in
  let s := set_sent_today (sent_today s + 1) s in
  let s := set_sent_this_hour (sent_this_hour s + 1) s in
  let s := set_messages_since_batch_delay (messages_since_batch_delay s + 1) s in
  let s := set_last_message_time (Some t) s in
  let s := set_hourly_counts (<[hour_key := sent_this_hour s]> (hourly_counts s)) s in
  set_daily_counts (<[today := sent_today s]> (daily_counts s)) s.

Definition record_message_sent (dm : DelayManager) : M DelayManager :=
  t ← now;
  let dm' := with_stats dm (record_message_sent_at t (stats dm)) in
  _ ← modify_files (_save_stats dm');
  mret dm'.

(** The dictionary [get_statistics] returns. *)
Record Statistics : Type := mk_statistics {
  st_total_sent : Z;
  st_sent_today : Z;
  st_sent_this_hour : Z;
  st_daily_limit : Z;
  st_hourly_limit : Z;
  st_messages_until_batch_delay : Z;
  st_last_message_time : option string;
  st_current_date : string;
  st_current_hour : Z;
  st_can_send_more : bool;
  st_limit_reason : option string
}.

(** [get_statistics]: the dictionary is filled from the statistics as they
    are, and only then is [can_send_message] asked, which rolls the buckets
    over. *)
Definition get_statistics (dm : DelayManager) : M (Statistics * DelayManager) :=
  t ← now;
  let st := stats dm in
  let c := config dm in
  '(verdict, dm') ← can_send_message dm;
  mret (mk_statistics (total_sent st) (sent_today st) (sent_this_hour st)
          (max_messages_per_day c) (max_messages_per_hour c)
          (next_batch_delay_at st - messages_since_batch_delay st)
          (match last_message_time st with
           | Some d => Some (isoformat d)
           | None => None
           end)
          (strftime_date t) (hour t) verdict.1 verdict.2,
        dm').

(** [reset_daily_stats]. *)
Definition reset_daily_stats (dm : DelayManager) : M DelayManager :=
  let dm := with_stats dm (set_sent_today 0 (stats dm)) in
  t ← now;
  let dm := with_stats dm (set_current_date (Some (strftime_date t)) (stats dm)) in
  _ ← modify_files (_save_stats dm);
  mret dm.

(** [reset_hourly_stats]. *)
Definition reset_hourly_stats (dm : DelayManager) : M DelayManager :=
  let dm := with_stats dm (set_sent_this_hour 0 (stats dm)) in
  t ← now;
  let dm := with_stats dm (set_current_hour (Some (hour t)) (stats dm)) in
  _ ← modify_files (_save_stats dm);
  mret dm.

(** [if data.get(key): field = datetime.fromisoformat(data[key])]. *)
Definition load_time (data : gmap string json) (key : string)
    (set : option datetime → SendingStats → SendingStats) (s : SendingStats)
    : option SendingStats :=
  o ← get_str data key;
  if opt_truthy o then
    d ← fromisoformat (or_else o "");
    Some (set (Some d) s)
  else Some s.

(** The assignments of [_load_stats], in source order. *)
Definition load_stats_steps (data : gmap string json) : list (SendingStats → option SendingStats) :=
  [ (λ s, v ← get_int data "total_sent" 0; Some (set_total_sent v s));
    (λ s, v ← get_int data "sent_today" 0; Some (set_sent_today v s));
    (λ s, v ← get_int data "sent_this_hour" 0; Some (set_sent_this_hour v s));
    load_time data "last_message_time" set_last_message_time;
    load_time data "last_batch_delay_time" set_last_batch_delay_time;
    (λ s, v ← get_int data "messages_since_batch_delay" 0;
          Some (set_messages_since_batch_delay v s));
    (λ s, v ← get_int data "next_batch_delay_at" 10; Some (set_next_batch_delay_at v s));
    (λ s, v ← get_str data "current_date"; Some (set_current_date v s));
    (λ s, v ← get_opt_int data "current_hour"; Some (set_current_hour v s));
    (λ s, v ← get_counts data "hourly_counts"; Some (set_hourly_counts v s));
    (λ s, v ← get_counts data "daily_counts"; Some (set_daily_counts v s)) ].

(** [_load_stats]: a missing file, or one [json.load] rejects, leaves the
    statistics as they are (the exception is caught and logged). *)
Definition _load_stats (fs : files) (dm : DelayManager) : DelayManager :=
  match stats_file dm with
  | None => dm
  | Some path =>
      match fs !! path with
      | None => dm
      | Some Unparsable => dm
      | Some (JsonObject data) =>
          with_stats dm (try_steps (load_stats_steps data) (stats dm))
      end
  end.

(** [DelayManager(config, stats_file)]: the new manager ([inl]), or [str(e)]
    of the exception the constructor ended in ([inr]). *)
Definition init (cfg : option RateLimitConfig) (file : option string)
    : M (DelayManager + string) :=
  let dm := mk_delay_manager (default default_config cfg) default_stats (path_of file) in
  fs ← get_files;
  '(dm, exn) ← _reset_batch_threshold (_load_stats fs dm);
  mret (match exn with
        | None => inl dm
        | Some msg => inr msg
        end).

(** [create_default_delay_manager(stats_file)]. *)
Definition create_default_delay_manager (file : string) : M (DelayManager + string) :=
  init (Some (mk_config 20 90 (10, 20) 300 900 50 15 true true true)) (Some file).

(** [create_test_delay_manager(stats_file)]. *)
Definition create_test_delay_manager (file : option string) : M (DelayManager + string) :=
  init (Some (mk_config 1 3 (3, 5) 5 10 1000 100 true false false)) file.

End delay_manager.

(* ===================================================================== *)
(** ** src/utils/analytics_tracker.py *)
(* ===================================================================== *)

Module analytics_tracker.
Import py world.

Record CampaignMetrics : Type := mk_metrics {
  total_businesses : Z;
  messages_sent : Z;
  messages_failed : Z;
  messages_skipped : Z;
  creation_messages : Z;
  enhancement_messages : Z;
  start_time : option datetime;
  end_time : option datetime;
  total_duration : Q;
  average_message_time : Q;
  success_rate : Q;
  rate_limit_hits : Z;
  batch_delays_triggered : Z
}.

(** [CampaignMetrics(total_businesses=n, start_time=t)], other fields at
    their defaults. *)
Definition new_metrics (n : Z) (t : option datetime) : CampaignMetrics :=
  mk_metrics n 0 0 0 0 0 t None 0%Q 0%Q 0%Q 0 0.

Record BusinessAnalytics : Type := mk_business_analytics {
  business_name : string;
  phone : string;
  has_website : bool;
  message_type : string;
  status : string;
  timestamp : string;
  duration : Q;
  retry_count : Z;
  error : option string
}.

Record AnalyticsTracker : Type := mk_tracker {
  current_campaign : CampaignMetrics;
  business_analytics : list BusinessAnalytics;
  hourly_stats : gmap string (gmap string Z);
  error_categories : gmap string Z
}.

(** [AnalyticsTracker()]. *)
Definition init : AnalyticsTracker := mk_tracker (new_metrics 0 None) [] ∅ ∅.

Definition with_campaign (a : AnalyticsTracker) (c : CampaignMetrics) : AnalyticsTracker :=
  mk_tracker c (business_analytics a) (hourly_stats a) (error_categories a).

(** The factory of the [hourly_stats] defaultdict. *)
Definition new_hour : gmap string Z :=
  <["sent" := 0]> (<["failed" := 0]> (<["skipped" := 0]> ∅)).

(** [self.hourly_stats[hour_key][field] += 1]. *)
Definition bump_hour (hour_key field : string) (h : gmap string (gmap string Z))
    : gmap string (gmap string Z) :=
  let row := default new_hour (h !! hour_key) in
  <[hour_key := <[field := default 0 (row !! field) + 1]> row]> h.

(** [self.error_categories[category] += 1]. *)
Definition bump_category (category : string) (m : gmap string Z) : gmap string Z :=
  <[category := default 0 (m !! category) + 1]> m.

(** [start_campaign(total_businesses)]. *)
Definition start_campaign (n : Z) (a : AnalyticsTracker) : M AnalyticsTracker :=
  t ← now;
  mret (with_campaign a (new_metrics n (Some t))).

(** [track_message_sent]. *)
Definition track_message_sent (name ph mtype : string) (web : bool) (dur : Q) (retries : Z)
    (a : AnalyticsTracker) : M AnalyticsTracker :=
  let c := current_campaign a in
  let c := mk_metrics (total_businesses c) (messages_sent c + 1) (messages_failed c)
             (messages_skipped c)
             (if String.eqb mtype "creation" then creation_messages c + 1
              else creation_messages c)
             (if String.eqb mtype "creation" then enhancement_messages c
              else enhancement_messages c + 1)
             (start_time c) (end_time c) (total_duration c) (average_message_time c)
             (success_rate c) (rate_limit_hits c) (batch_delays_triggered c) in
  t1 ← now;
  let hours := bump_hour (strftime_hour t1) "sent" (hourly_stats a) in
  t2 ← now;
  let row := mk_business_analytics name ph web mtype "success" (isoformat t2)
               dur retries None in
  mret (mk_tracker c (business_analytics a ++ [row]) hours (error_categories a)).

(** [_categorize_error]. *)
Definition _categorize_error (err : string) (m : gmap string Z) : gmap string Z :=
  let error_lower := lower err in
  if contains "network" error_lower || contains "connection" error_lower
  then bump_category "network" m
  else if contains "timeout" error_lower
  then bump_category "timeout" m
  else if contains "element" error_lower || contains "not found" error_lower
  then bump_category "element_not_found" m
  else if contains "rate limit" error_lower
  then bump_category "rate_limit" m
  else if contains "phone" error_lower || contains "number" error_lower
  then bump_category "invalid_phone" m
  else bump_category "other" m.

(** [track_message_failed]. *)
Definition track_message_failed (name ph mtype : string) (web : bool) (err : string)
    (dur : Q) (retries : Z) (a : AnalyticsTracker) : M AnalyticsTracker :=
  let c := current_campaign a in
  let c := mk_metrics (total_businesses c) (messages_sent c) (messages_failed c + 1)
             (messages_skipped c) (creation_messages c) (enhancement_messages c)
             (start_time c) (end_time c) (total_duration c) (average_message_time c)
             (success_rate c) (rate_limit_hits c) (batch_delays_triggered c) in
  t1 ← now;
  let hours := bump_hour (strftime_hour t1) "failed" (hourly_stats a) in
  let cats := _categorize_error err (error_categories a) in
  t2 ← now;
  let row := mk_business_analytics name ph web mtype "failed" (isoformat t2)
               dur retries (Some err) in
  mret (mk_tracker c (business_analytics a ++ [row]) hours cats).

(** [track_message_skipped]. *)
Definition track_message_skipped (name ph reason : string) (a : AnalyticsTracker)
    : M AnalyticsTracker :=
  let c := current_campaign a in
  let c := mk_metrics (total_businesses c) (messages_sent c) (messages_failed c)
             (messages_skipped c + 1) (creation_messages c) (enhancement_messages c)
             (start_time c) (end_time c) (total_duration c) (average_message_time c)
             (success_rate c) (rate_limit_hits c) (batch_delays_triggered c) in
  t1 ← now;
  let hours := bump_hour (strftime_hour t1) "skipped" (hourly_stats a) in
  t2 ← now;
  let row := mk_business_analytics name ph false "unknown" "skipped" (isoformat t2)
               0%Q 0 (Some reason) in
  mret (mk_tracker c (business_analytics a ++ [row]) hours (error_categories a)).

(** [track_rate_limit_hit]. *)
Definition track_rate_limit_hit (a : AnalyticsTracker) : AnalyticsTracker :=
  let c := current_campaign a in
  with_campaign a
    (mk_metrics (total_businesses c) (messages_sent c) (messages_failed c)
       (messages_skipped c) (creation_messages c) (enhancement_messages c)
       (start_time c) (end_time c) (total_duration c) (average_message_time c)
       (success_rate c) (rate_limit_hits c + 1) (batch_delays_triggered c)).

(** [track_batch_delay]. *)
Definition track_batch_delay (a : AnalyticsTracker) : AnalyticsTracker :=
  let c := current_campaign a in
  with_campaign a
    (mk_metrics (total_businesses c) (messages_sent c) (messages_failed c)
       (messages_skipped c) (creation_messages c) (enhancement_messages c)
       (start_time c) (end_time c) (total_duration c) (average_message_time c)
       (success_rate c) (rate_limit_hits c) (batch_delays_triggered c + 1)).

(** [ba.duration > 0]. *)
Definition positive (q : Q) : bool := negb (Qle_bool q 0).

(** The list comprehension of [end_campaign]:
    [[ba.duration for ba in self.business_analytics
      if ba.status == 'success' and ba.duration > 0]]. *)
Definition successful_timings (l : list BusinessAnalytics) : list Q :=
  map duration
    (List.filter (λ ba, String.eqb (status ba) "success" && positive (duration ba)) l).

(** [sum(l)] on floats. *)
Definition qsum (l : list Q) : Q := fold_right Qplus 0%Q l.

(** [end_campaign]. *)
Definition end_campaign (a : AnalyticsTracker) : M AnalyticsTracker :=
  t ← now;
  let c := current_campaign a in
  let dur :=
    match start_time c with
    | Some t0 => total_seconds t0 t
    | None => total_duration c
    end in
  let total_attempted := messages_sent c + messages_failed c in
  let rate :=
    if 0 <? total_attempted
    then (inject_Z (messages_sent c) / inject_Z total_attempted * 100)%Q
    else success_rate c in
  let timings := successful_timings (business_analytics a) in
  let avg :=
    match timings with
    | [] => average_message_time c
    | _ => (qsum timings / inject_Z (Z.of_nat (length timings)))%Q
    end in
  mret (with_campaign a
    (mk_metrics (total_businesses c) (messages_sent c) (messages_failed c)
       (messages_skipped c) (creation_messages c) (enhancement_messages c)
       (start_time c) (Some t) dur avg rate
       (rate_limit_hits c) (batch_delays_triggered c))).

End analytics_tracker.

(* ===================================================================== *)
(** ** src/core/campaign_manager.py *)
(* ===================================================================== *)

Module campaign_manager.
Import py world.
Import business (Business).

Record MessageResult : Type := mk_result {
  business_name : string;
  phone : string;
  message_type : string;
  status : string;
  error : option string;
  timestamp : string;
  message_preview : option string
}.

Record CampaignProgress : Type := mk_progress {
  total_businesses : Z;
  processed : Z;
  sent : Z;
  failed : Z;
  skipped : Z;
  start_time : option datetime;
  end_time : option datetime;
  last_processed_index : Z;
  results : list MessageResult
}.

(** [CampaignProgress()] with the dataclass defaults. *)
Definition default_progress : CampaignProgress :=
  mk_progress 0 0 0 0 0 None None (-1) [].

(** The manager.  Its Excel handler, composer, browser controller and report
    writers are outside collaborators: the business list is an argument of
    [_load_businesses], composer and transport answer through [world.Env]. *)
Record CampaignManager : Type := mk_manager {
  dry_run : bool;
  delay_manager : delay_manager.DelayManager;
  analytics_tracker : analytics_tracker.AnalyticsTracker;
  progress : CampaignProgress;
  progress_file : option string
}.

Definition with_progress (cm : CampaignManager) (p : CampaignProgress) : CampaignManager :=
  mk_manager (dry_run cm) (delay_manager cm) (analytics_tracker cm) p (progress_file cm).

Definition with_delay_manager (cm : CampaignManager) (dm : delay_manager.DelayManager)
    : CampaignManager :=
  mk_manager (dry_run cm) dm (analytics_tracker cm) (progress cm) (progress_file cm).

Definition with_tracker (cm : CampaignManager) (a : analytics_tracker.AnalyticsTracker)
    : CampaignManager :=
  mk_manager (dry_run cm) (delay_manager cm) a (progress cm) (progress_file cm).

(** Field assignments [self.progress.<field> = v]. *)
Definition set_total_businesses (v : Z) (p : CampaignProgress) : CampaignProgress :=
  mk_progress v (processed p) (sent p) (failed p) (skipped p)
    (start_time p) (end_time p) (last_processed_index p) (results p).

Definition set_processed (v : Z) (p : CampaignProgress) : CampaignProgress :=
  mk_progress (total_businesses p) v (sent p) (failed p) (skipped p)
    (start_time p) (end_time p) (last_processed_index p) (results p).

Definition set_sent (v : Z) (p : CampaignProgress) : CampaignProgress :=
  mk_progress (total_businesses p) (processed p) v (failed p) (skipped p)
    (start_time p) (end_time p) (last_processed_index p) (results p).

Definition set_failed (v : Z) (p : CampaignProgress) : CampaignProgress :=
  mk_progress (total_businesses p) (processed p) (sent p) v (skipped p)
    (start_time p) (end_time p) (last_processed_index p) (results p).

Definition set_skipped (v : Z) (p : CampaignProgress) : CampaignProgress :=
  mk_progress (total_businesses p) (processed p) (sent p) (failed p) v
    (start_time p) (end_time p) (last_processed_index p) (results p).

Definition set_start_time (v : option datetime) (p : CampaignProgress) : CampaignProgress :=
  mk_progress (total_businesses p) (processed p) (sent p) (failed p) (skipped p)
    v (end_time p) (last_processed_index p) (results p).

Definition set_end_time (v : option datetime) (p : CampaignProgress) : CampaignProgress :=
  mk_progress (total_businesses p) (processed p) (sent p) (failed p) (skipped p)
    (start_time p) v (last_processed_index p) (results p).

Definition set_last_processed_index (v : Z) (p : CampaignProgress) : CampaignProgress :=
  mk_progress (total_businesses p) (processed p) (sent p) (failed p) (skipped p)
    (start_time p) (end_time p) v (results p).

Definition set_results (v : list MessageResult) (p : CampaignProgress) : CampaignProgress :=
  mk_progress (total_businesses p) (processed p) (sent p) (failed p) (skipped p)
    (start_time p) (end_time p) (last_processed_index p) v.

(** The dictionary [_save_progress] serialises. *)
Definition progress_data (p : CampaignProgress) : gmap string json :=
  <["last_processed_index" := JInt (last_processed_index p)]>
  (<["processed" := JInt (processed p)]>
  (<["sent" := JInt (sent p)]>
  (<["failed" := JInt (failed p)]>
  (<["skipped" := JInt (skipped p)]>
  (<["start_time" := json_of_time (start_time p)]> ∅))))).

(** [_save_progress] on the file system. *)
Definition save_progress_files (cm : CampaignManager) (fs : files) : files :=
  match progress_file cm with
  | None => fs
  | Some path => write_json path (progress_data (progress cm)) fs
  end.

Definition _save_progress (cm : CampaignManager) : M unit :=
  modify_files (save_progress_files cm).

(** The assignments of [_load_progress], in source order. *)
Definition load_progress_steps (data : gmap string json)
    : list (CampaignProgress → option CampaignProgress) :=
  [ (λ p, v ← get_int data "last_processed_index" (-1);
          Some (set_last_processed_index v p));
    (λ p, v ← get_int data "processed" 0; Some (set_processed v p));
    (λ p, v ← get_int data "sent" 0; Some (set_sent v p));
    (λ p, v ← get_int data "failed" 0; Some (set_failed v p));
    (λ p, v ← get_int data "skipped" 0; Some (set_skipped v p));
    (λ p, o ← get_str data "start_time";
          if opt_truthy o then
            d ← fromisoformat (or_else o "");
            Some (set_start_time (Some d) p)
          else Some p) ].

(** [_load_progress]: a missing file, or one [json.load] rejects, leaves the
    progress as it is (the exception is caught and logged). *)
Definition _load_progress (fs : files) (cm : CampaignManager) : CampaignManager :=
  match progress_file cm with
  | None => cm
  | Some path =>
      match fs !! path with
      | None => cm
      | Some Unparsable => cm
      | Some (JsonObject data) =>
          with_progress cm
            (try_steps (load_progress_steps data) (progress cm))
      end
  end.

(** [CampaignManager(excel_file, chrome_profile, delay_manager, progress_file,
    dry_run)], given the delay manager. *)
Definition init (dm : delay_manager.DelayManager) (file : option string) (dry : bool)
    : M CampaignManager :=
  let cm := mk_manager dry dm analytics_tracker.init default_progress (path_of file) in
  fs ← get_files;
  mret (_load_progress fs cm).

(** [_load_businesses], [all] being what the Excel handler returns. *)
Definition _load_businesses (all : list Business) (cm : CampaignManager)
    : list Business * CampaignManager :=
  let k := last_processed_index (progress cm) in
  let businesses := if 0 <=? k then drop (Z.to_nat (k + 1)) all else all in
  (businesses,
   with_progress cm (set_total_businesses (Z.of_nat (length businesses)) (progress cm))).

(** The dictionary returned by [_send_single_message]; a missing key reads
    as [None] through [result.get]. *)
Record SendResult : Type := mk_send_result {
  r_status : string;
  r_error : option string;
  r_message : option string
}.

(** [_send_single_message]: everything the composer or the send call raises
    is caught here and becomes a ['failed'] result.  What the send call
    returns is tested with [if success:]. *)
Definition _send_single_message (b : Business) (cm : CampaignManager)
    : M (SendResult * CampaignManager) :=
  c ← compose b;
  match c with
  | inr e => mret (mk_send_result "failed" (Some e) None, cm)
  | inl message =>
      if dry_run cm
      then mret (mk_send_result "success" None (Some message), cm)
      else
        o ← send (business.phone b) message;
        match o with
        | SendReturns ok err =>
            (* [success = ...send_message(...)] is the pair; [if success:] *)
            if tuple_truthy (ok, err)
            then
              dm ← delay_manager.record_message_sent (delay_manager cm);
              mret (mk_send_result "success" None (Some message),
                    with_delay_manager cm dm)
            else
              mret (mk_send_result "failed" (Some "Send operation failed")
                      (Some message), cm)
        | SendRaises e => mret (mk_send_result "failed" (Some e) None, cm)
        end
  end.

(** [message[:80] if message else None]. *)
Definition preview (message : option string) : option string :=
  if opt_truthy message then Some (slice_to 80 (or_else message "")) else None.

(** [_record_result(business, status, error, message)], with the default
    [duration=0.0] and [retry_count=0] every caller uses. *)
Definition _record_result (b : Business) (st : string) (err message : option string)
    (cm : CampaignManager) : M CampaignManager :=
  let mtype := business.detect_message_type b in
  t ← now;
  let result := mk_result (business.business_name b) (business.phone b) mtype st err
                  (isoformat t) (preview message) in
  let p := progress cm in
  let p := set_results (results p ++ [result]) p in
  if String.eqb st "success" then
    a ← analytics_tracker.track_message_sent (business.business_name b)
          (business.phone b) mtype (business.has_website b) 0%Q 0 (analytics_tracker cm);
    mret (with_tracker (with_progress cm (set_sent (sent p + 1) p)) a)
  else if String.eqb st "failed" then
    a ← analytics_tracker.track_message_failed (business.business_name b)
          (business.phone b) mtype (business.has_website b)
          (or_else err "Unknown error") 0%Q 0 (analytics_tracker cm);
    mret (with_tracker (with_progress cm (set_failed (failed p + 1) p)) a)
  else if String.eqb st "skipped" then
    a ← analytics_tracker.track_message_skipped (business.business_name b)
          (business.phone b) (or_else err "Unknown reason") (analytics_tracker cm);
    mret (with_tracker (with_progress cm (set_skipped (skipped p + 1) p)) a)
  else mret (with_progress cm p).

(** One pass through the body of the [for i, business in
    enumerate(businesses)] loop of [_send_messages]; [n] is
    [len(businesses)].  The flag says whether the loop goes on: [false] is
    the [break] taken when the rate limit refuses.  What the composer or the
    send call raises is caught inside [_send_single_message]; the one
    exception that reaches the [except Exception] arm of the loop is the
    [ValueError] of an empty delay range in [wait_between_messages], after
    which the same business gets a second, ['failed'] result and the loop
    goes on.  [KeyboardInterrupt] is not modelled. *)
Definition send_iteration (n i : Z) (b : Business) (cm : CampaignManager)
    : M (bool * CampaignManager) :=
  '(verdict, dm) ← delay_manager.can_send_message (delay_manager cm);
  let cm := with_delay_manager cm dm in
  if negb verdict.1
  then
    cm ← _record_result b "skipped" verdict.2 None cm;
    mret (false, cm)
  else
    '(result, cm) ← _send_single_message b cm;
    cm ← _record_result b (r_status result) (r_error result) (r_message result) cm;
    let p := progress cm in
    let p := set_processed (processed p + 1) p in
    let p := set_last_processed_index i p in
    let cm := with_progress cm p in
    _ ← (if processed p mod 5 =? 0 then _save_progress cm else mret tt);
    '(cm, exn) ← (if (i <? n - 1) && String.eqb (r_status result) "success"
                  then '(dm, exn) ← delay_manager.wait_between_messages false
                                      (delay_manager cm);
                       mret (with_delay_manager cm dm, exn)
                  else mret (cm, None));
    match exn with
    | None => mret (true, cm)
    | Some msg =>
        (* except Exception as e: self._record_result(business, 'failed', str(e)) *)
        cm ← _record_result b "failed" (Some msg) None cm;
        mret (true, cm)
    end.

(** The loop itself, from position [i] on. *)
Fixpoint send_loop (n i : Z) (bs : list Business) (cm : CampaignManager)
    : M CampaignManager :=
  match bs with
  | [] => mret cm
  | b :: rest =>
      '(go_on, cm) ← send_iteration n i b cm;
      if (go_on : bool) then send_loop n (i + 1) rest cm else mret cm
  end.

(** [_send_messages(businesses)]. *)
Definition _send_messages (businesses : list Business) (cm : CampaignManager)
    : M CampaignManager :=
  t0 ← now;
  let cm := with_progress cm (set_start_time (Some t0) (progress cm)) in
  cm ← send_loop (Z.of_nat (length businesses)) 0 businesses cm;
  t1 ← now;
  let cm := with_progress cm (set_end_time (Some t1) (progress cm)) in
  _ ← _save_progress cm;
  mret cm.

(** The success rate [_generate_report] prints:
    [(sent / processed) * 100] when [processed > 0]. *)
Definition report_success_rate (p : CampaignProgress) : option Q :=
  if 0 <? processed p
  then Some (inject_Z (sent p) / inject_Z (processed p) * 100)%Q
  else None.

End campaign_manager.


(* ===================================================================== *)
(** ** Runs: sequences of calls the statements below talk about *)
(* ===================================================================== *)

Module runs.
Import py world.

(** [for i in range(n): manager.record_message_sent()]. *)
Fixpoint record_many (n : nat) (dm : delay_manager.DelayManager)
    : M delay_manager.DelayManager :=
  match n with
  | O => mret dm
  | S n' => dm ← delay_manager.record_message_sent dm; record_many n' dm
  end.

(** The body of [test_daily_limit] and [test_hitting_hourly_limit_before_daily]
    (tests/test_delay_manager.py): a new manager, [n] recorded sends, then
    the question whether one may send. *)
Definition sends_then_ask (cfg : delay_manager.RateLimitConfig) (file : option string)
    (n : nat) : M ((bool * option string) + string) :=
  r ← delay_manager.init (Some cfg) file;
  match r with
  | inr msg => mret (inr msg)
  | inl dm =>
      dm ← record_many n dm;
      '(verdict, _) ← delay_manager.can_send_message dm;
      mret (inl verdict)
  end.

(** One call of [_record_result]: business, status, error, message. *)
Record RecordCall : Type := mk_call {
  call_business : business.Business;
  call_status : string;
  call_error : option string;
  call_message : option string
}.

Definition valid_status (st : string) : bool :=
  String.eqb st "success" || String.eqb st "failed" || String.eqb st "skipped".

(** A sequence of [_record_result] calls. *)
Fixpoint record_all (calls : list RecordCall) (cm : campaign_manager.CampaignManager)
    : M campaign_manager.CampaignManager :=
  match calls with
  | [] => mret cm
  | c :: rest =>
      cm ← campaign_manager._record_result (call_business c) (call_status c)
             (call_error c) (call_message c) cm;
      record_all rest cm
  end.

(** The equality between the three outcome counters and the result list. *)
Definition counters_match_results (p : campaign_manager.CampaignProgress) : Prop :=
  campaign_manager.sent p + campaign_manager.failed p + campaign_manager.skipped p
  = Z.of_nat (length (campaign_manager.results p)).

(** The result a call appends when the clock is read at [t]. *)
Definition call_result (c : RecordCall) (t : datetime) : campaign_manager.MessageResult :=
  campaign_manager.mk_result (business.business_name (call_business c))
    (business.phone (call_business c)) (business.detect_message_type (call_business c))
    (call_status c) (call_error c) (isoformat t) (campaign_manager.preview (call_message c)).

(** One result per call, in the order of the calls; from one call to the
    next the world has answered three times (the clock for the result, and
    twice for the tracker). *)
Fixpoint call_results (e : Env) (t : nat) (calls : list RecordCall)
    : list campaign_manager.MessageResult :=
  match calls with
  | [] => []
  | c :: rest => call_result c (clock e t) :: call_results e (t + 3) rest
  end.

(** The number of calls made with the status [st]. *)
Fixpoint count_calls (st : string) (calls : list RecordCall) : Z :=
  match calls with
  | [] => 0
  | c :: rest => (if String.eqb (call_status c) st then 1 else 0) + count_calls st rest
  end.

(** One call on the analytics tracker. *)
Inductive TrackCall : Type :=
  | TrackSent (name ph mtype : string) (web : bool) (dur : Q) (retries : Z)
  | TrackFailed (name ph mtype : string) (web : bool) (err : string) (dur : Q) (retries : Z)
  | TrackSkipped (name ph reason : string).

Definition track (c : TrackCall) (a : analytics_tracker.AnalyticsTracker)
    : M analytics_tracker.AnalyticsTracker :=
  match c with
  | TrackSent name ph mtype web dur retries =>
      analytics_tracker.track_message_sent name ph mtype web dur retries a
  | TrackFailed name ph mtype web err dur retries =>
      analytics_tracker.track_message_failed name ph mtype web err dur retries a
  | TrackSkipped name ph reason =>
      analytics_tracker.track_message_skipped name ph reason a
  end.

Fixpoint track_all (calls : list TrackCall) (a : analytics_tracker.AnalyticsTracker)
    : M analytics_tracker.AnalyticsTracker :=
  match calls with
  | [] => mret a
  | c :: rest => a ← track c a; track_all rest a
  end.

(** [start_campaign(n)], the tracked calls, then [end_campaign()]. *)
Definition tracked_campaign (n : Z) (calls : list TrackCall)
    (a : analytics_tracker.AnalyticsTracker) : M analytics_tracker.AnalyticsTracker :=
  a ← analytics_tracker.start_campaign n a;
  a ← track_all calls a;
  analytics_tracker.end_campaign a.

Definition is_sent (c : TrackCall) : bool :=
  match c with TrackSent _ _ _ _ _ _ => true | _ => false end.

Definition is_failed (c : TrackCall) : bool :=
  match c with TrackFailed _ _ _ _ _ _ _ => true | _ => false end.

(** A sent message tracked with the type ['creation']. *)
Definition is_creation (c : TrackCall) : bool :=
  match c with
  | TrackSent _ _ mtype _ _ _ => String.eqb mtype "creation"
  | _ => false
  end.

Definition count_creation (calls : list TrackCall) : Z :=
  Z.of_nat (length (List.filter is_creation calls)).

(** [sum(self.error_categories.values())]. *)
Definition total_errors (m : gmap string Z) : Z :=
  map_fold (λ _ v acc, v + acc) 0 m.

Definition count_sent (calls : list TrackCall) : Z :=
  Z.of_nat (length (List.filter is_sent calls)).

Definition count_failed (calls : list TrackCall) : Z :=
  Z.of_nat (length (List.filter is_failed calls)).

(** The duration an attempt was tracked with (a skip carries none: 0.0). *)
Definition call_duration (c : TrackCall) : Q :=
  match c with
  | TrackSent _ _ _ _ dur _ => dur
  | TrackFailed _ _ _ _ _ dur _ => dur
  | TrackSkipped _ _ _ => 0%Q
  end.

Definition mean (l : list Q) : Q :=
  match l with
  | [] => 0%Q
  | _ => (analytics_tracker.qsum l / inject_Z (Z.of_nat (length l)))%Q
  end.

(** Success rate in the words of the specification:
    [sent / (sent + failed)], [0] when [sent + failed = 0]. *)
Definition spec_success_rate (calls : list TrackCall) : Q :=
  if count_sent calls + count_failed calls =? 0 then 0%Q
  else (inject_Z (count_sent calls) / inject_Z (count_sent calls + count_failed calls))%Q.

(** Mean duration in the words of the specification: over the attempts
    whose duration is strictly positive. *)
Definition spec_mean_duration (calls : list TrackCall) : Q :=
  mean (List.filter analytics_tracker.positive (map call_duration calls)).

(** What [end_campaign] computes: the rate as a percentage, and the mean
    over the successful attempts with a positive duration. *)
Definition percent_success_rate (calls : list TrackCall) : Q :=
  if count_sent calls + count_failed calls =? 0 then 0%Q
  else (inject_Z (count_sent calls)
        / inject_Z (count_sent calls + count_failed calls) * 100)%Q.

Definition successful_durations (calls : list TrackCall) : list Q :=
  List.filter analytics_tracker.positive (map call_duration (List.filter is_sent calls)).

(** A write cut short after [k] of its steps (a crash, or an error raised
    while writing). *)
Definition interrupted_write (k : nat) (path : string) (data : gmap string json)
    (fs : files) : files :=
  run_steps (take k (write_steps path data)) fs.

(** The recipients named by a list of results, and by a list of businesses. *)
Definition result_recipients (rs : list campaign_manager.MessageResult)
    : list (string * string) :=
  map (λ r, (campaign_manager.business_name r, campaign_manager.phone r)) rs.

Definition recipients (bs : list business.Business) : list (string * string) :=
  map (λ b, (business.business_name b, business.phone b)) bs.

(** The results a run appended to those already there. *)
Definition new_results (before after : campaign_manager.CampaignManager)
    : list campaign_manager.MessageResult :=
  drop (length (campaign_manager.results (campaign_manager.progress before)))
       (campaign_manager.results (campaign_manager.progress after)).

(** A campaign as [main] and [run_campaign] drive it: the manager is built
    (which loads the progress file, if one is given), the businesses are
    loaded and cut at the saved index, nothing more happens when none is
    left, and otherwise the tracker is started, the messages are sent and
    the tracker is closed.  (Opening the browser and writing the reports
    are left to the caller.) *)
Definition campaign (all : list business.Business) (dm : delay_manager.DelayManager)
    (file : option string) (dry : bool) : M campaign_manager.CampaignManager :=
  cm ← campaign_manager.init dm file dry;
  let '(businesses, cm) := campaign_manager._load_businesses all cm in
  match businesses with
  | [] => mret cm
  | _ =>
      a ← analytics_tracker.start_campaign (Z.of_nat (length businesses))
            (campaign_manager.analytics_tracker cm);
      cm ← campaign_manager._send_messages businesses (campaign_manager.with_tracker cm a);
      a ← analytics_tracker.end_campaign (campaign_manager.analytics_tracker cm);
      mret (campaign_manager.with_tracker cm a)
  end.

(** A campaign started on a progress file ([--resume]). *)
Definition resumed_run (all : list business.Business) (dm : delay_manager.DelayManager)
    (file : string) (dry : bool) : M campaign_manager.CampaignManager :=
  campaign all dm (Some file) dry.

(** *** Vocabulary of the statements *)

Section delay_vocabulary.
Import delay_manager.

(** The statistics agree on every field that only [record_message_sent]
    and the bucket roll-over write. *)
Definition same_counters (a b : SendingStats) : Prop :=
  total_sent a = total_sent b ∧ sent_today a = sent_today b ∧
  sent_this_hour a = sent_this_hour b ∧
  last_message_time a = last_message_time b ∧
  current_date a = current_date b ∧ current_hour a = current_hour b ∧
  hourly_counts a = hourly_counts b ∧ daily_counts a = daily_counts b.

(** What [can_send_message] answers, and the manager it leaves, at this
    point of the world. *)
Definition gate (e : Env) (s : Sys) (dm : DelayManager) : (bool * option string) * DelayManager :=
  can_send_message_at (clock e (tick s)) dm.

(** The batch-delay bookkeeping is untouched: same threshold, same time of
    the last batch delay, and the counter moved exactly with the sends. *)
Definition batch_state_kept (st st' : SendingStats) : Prop :=
  next_batch_delay_at st' = next_batch_delay_at st ∧
  last_batch_delay_time st' = last_batch_delay_time st ∧
  messages_since_batch_delay st' - messages_since_batch_delay st
  = total_sent st' - total_sent st.


(** The counters after [c] sends in the hour [h] of the day [d]. *)
Definition counted (d : string) (h : Z) (c : Z) (st : SendingStats) : Prop :=
  sent_this_hour st = c ∧ sent_today st = c ∧
  (c = 0 ∨ (current_date st = Some d ∧ current_hour st = Some h)).

(** There is no readable file behind [file]. *)
Definition nothing_to_load (file : option string) (fs : files) : Prop :=
  match file with
  | None => True
  | Some path => fs !! path = None ∨ fs !! path = Some Unparsable
  end.

(** A manager as the constructor leaves it before it looks at its file. *)
Definition new_delay_manager (cfg : RateLimitConfig) (file : option string) : DelayManager :=
  mk_delay_manager cfg default_stats (path_of file).

(** No [random.randint] call of the manager is on an empty range. *)
Definition ranges_ok (c : RateLimitConfig) : Prop :=
  min_message_delay c ≤ max_message_delay c ∧
  min_batch_delay c ≤ max_batch_delay c ∧
  (messages_per_batch c).1 ≤ (messages_per_batch c).2.

(** [random.randint(a, b)] answers within [a..b]. *)
Definition fair_draws (e : Env) : Prop :=
  ∀ t a b, a ≤ b → a ≤ randint_draw e t a b ≤ b.

(** [wait_between_messages()] cannot raise: it has nothing to draw, or its
    ranges are in order. *)
Definition waits_return (c : RateLimitConfig) : Prop :=
  enable_delays c = false ∨ ranges_ok c.

(** Every interaction takes some time: two readings of [time.time()] are
    never equal. *)
Definition time_moves (e : Env) : Prop := ∀ t, ¬ (lapse e t == 0)%Q.

(** A list of [n] calls [time.sleep(1)]. *)
Definition one_second_sleeps (n : nat) : list Z := replicate n 1.

End delay_vocabulary.

(** The text has a character that [str.strip()] does not remove. *)
Definition has_visible_char (w : string) : bool :=
  existsb (λ c, negb (is_space c)) (list_ascii_of_string w).

(** A time the [datetime] constructor accepts, or none. *)
Definition valid_time (o : option datetime) : bool :=
  match o with
  | Some d => valid_datetime d
  | None => true
  end.

Section campaign_vocabulary.
Import campaign_manager.

(** Two managers with the same mode, files and rate-limit configuration. *)
Definition same_setup (a b : CampaignManager) : Prop :=
  dry_run a = dry_run b ∧ progress_file a = progress_file b ∧
  delay_manager.config (delay_manager a) = delay_manager.config (delay_manager b) ∧
  delay_manager.stats_file (delay_manager a) = delay_manager.stats_file (delay_manager b).

(** The campaign metrics of the manager's tracker. *)
Definition metrics (cm : CampaignManager) : analytics_tracker.CampaignMetrics :=
  analytics_tracker.current_campaign (analytics_tracker cm).

(** From [a] to [b] the tracker counted what the progress counted, and its
    rate-limit and batch-delay counters did not move. *)
Definition tracker_follows (a b : CampaignManager) : Prop :=
  analytics_tracker.messages_sent (metrics b) - sent (progress b)
  = analytics_tracker.messages_sent (metrics a) - sent (progress a) ∧
  analytics_tracker.messages_failed (metrics b) - failed (progress b)
  = analytics_tracker.messages_failed (metrics a) - failed (progress a) ∧
  analytics_tracker.messages_skipped (metrics b) - skipped (progress b)
  = analytics_tracker.messages_skipped (metrics a) - skipped (progress a) ∧
  analytics_tracker.rate_limit_hits (metrics b)
  = analytics_tracker.rate_limit_hits (metrics a) ∧
  analytics_tracker.batch_delays_triggered (metrics b)
  = analytics_tracker.batch_delays_triggered (metrics a).

(** A result of an attempt that went to the composer and the transport. *)
Definition attempted (r : MessageResult) : Prop :=
  status r = "success" ∨ status r = "failed".

Definition count_status (st : string) (rs : list MessageResult) : Z :=
  Z.of_nat (length (List.filter (λ r, String.eqb (status r) st) rs)).

(** The composer answers for every business, and the send call returns
    (with whichever pair) for every message. *)
Definition composer_answers (e : Env) : Prop :=
  ∀ t b, ∃ m, compose_text e t b = inl m.

Definition send_returns (e : Env) : Prop :=
  ∀ t ph m, ∃ ok err, transport e t ph m = SendReturns ok err.

(** What survives a save and a load of the progress: the four counters, the
    index and the start time; the rest is back at its default. *)
Definition persisted (p : CampaignProgress) : CampaignProgress :=
  mk_progress 0 (processed p) (sent p) (failed p) (skipped p) (start_time p) None
    (last_processed_index p) [].

(** A manager as the constructor leaves it before it looks at its file. *)
Definition new_manager (dm : delay_manager.DelayManager) (file : option string) (dry : bool)
    : CampaignManager :=
  mk_manager dry dm analytics_tracker.init default_progress (path_of file).

End campaign_vocabulary.

End runs.

(* ===================================================================== *)
(** ** Concrete worlds, managers and recipients *)
(* ===================================================================== *)

Module examples.
Import py world runs.

Definition noon : datetime := mk_datetime 2025 10 16 12 0 0 0.

(** A world where [datetime.now()] stays at noon, every interaction takes a
    millisecond, draws return the lower bound, the composer answers and
    every send succeeds. *)
Definition steady_env : Env :=
  mk_env (λ _, noon) (λ _, 1 # 1000)%Q (λ _ lo _, lo) (λ _ _, "empty range") (λ _ _, inl "Hello") (λ _ _ _, SendReturns true "").

(** The same world, except that the send of the first attempt fails: the
    controller gives up and returns [(False, reason)]. *)
Definition flaky_env : Env :=
  mk_env (λ _, noon) (λ _, 1 # 1000)%Q (λ _ lo _, lo) (λ _ _, "empty range") (λ _ _, inl "Hello")
    (λ t _ _, if (t =? 2)%nat then SendReturns false "Message sending not confirmed"
              else SendReturns true "").

(** The same world, except that the send call of the first attempt raises. *)
Definition raising_env : Env :=
  mk_env (λ _, noon) (λ _, 1 # 1000)%Q (λ _ lo _, lo) (λ _ _, "empty range") (λ _ _, inl "Hello")
    (λ t _ _, if (t =? 2)%nat then SendRaises "network unreachable"
              else SendReturns true "").

(** The configuration of the fixture of tests/test_delay_manager.py. *)
Definition test_config : delay_manager.RateLimitConfig :=
  delay_manager.mk_config 1 2 (3, 5) 2 3 10 5 true true true.

(** Delays off, three messages an hour. *)
Definition quiet_config : delay_manager.RateLimitConfig :=
  delay_manager.mk_config 20 90 (10, 20) 300 900 50 3 false true true.

Definition capped_config : delay_manager.RateLimitConfig := quiet_config.

(** Delays on, with the bounds of the message delay and of the batch delay
    the wrong way round. *)
Definition inverted_config : delay_manager.RateLimitConfig :=
  delay_manager.mk_config 90 20 (10, 20) 900 300 50 15 true true true.

(** Delays and limits off. *)
Definition open_config : delay_manager.RateLimitConfig :=
  delay_manager.mk_config 1 3 (3, 5) 5 10 1000 100 false false false.

Definition a_business : business.Business :=
  business.mk_business "Coffee Haven" "+12025551001" (Some "Local coffee shop") None None.

Definition five : list business.Business :=
  [business.mk_business "One" "+12025550001" None None None;
   business.mk_business "Two" "+12025550002" None (Some "https://two.example") None;
   business.mk_business "Three" "+12025550003" None None None;
   business.mk_business "Four" "+12025550004" None (Some "https://four.example") None;
   business.mk_business "Five" "+12025550005" None None None].

Definition a_time : datetime := mk_datetime 2025 10 16 9 30 15 250000.

Definition a_result : campaign_manager.MessageResult :=
  campaign_manager.mk_result "Coffee Haven" "+12025551001" "creation" "success" None
    "2025-10-16T09:30:20" (Some "Hi Coffee Haven").

Definition a_progress : campaign_manager.CampaignProgress :=
  campaign_manager.mk_progress 5 1 1 0 0 (Some a_time) None 0 [a_result].

Definition b_progress : campaign_manager.CampaignProgress :=
  campaign_manager.mk_progress 5 2 2 0 0 (Some a_time) None 1 [a_result; a_result].

(** What the progress file holds after one success out of five. *)
Definition saved_after_one : campaign_manager.CampaignProgress :=
  campaign_manager.mk_progress 5 1 1 0 0 (Some a_time) None 0 [].

Definition saved_after_two : campaign_manager.CampaignProgress :=
  campaign_manager.mk_progress 5 2 2 0 0 (Some a_time) None 1 [].

Definition a_stats : delay_manager.SendingStats :=
  delay_manager.mk_stats 1 1 1 (Some a_time) None 1 12 (Some "2025-10-16") (Some 9)
    {["2025-10-16 09:00" := 1]} {["2025-10-16" := 1]}.

(** Counters left by the day before. *)
Definition yesterday_stats : delay_manager.SendingStats :=
  delay_manager.mk_stats 5 5 2 None None 5 12 (Some "2025-10-15") (Some 17) ∅ ∅.

Definition a_delay_manager : delay_manager.DelayManager :=
  delay_manager.mk_delay_manager delay_manager.default_config a_stats (Some "stats.json").

Definition a_manager : campaign_manager.CampaignManager :=
  campaign_manager.mk_manager false a_delay_manager analytics_tracker.init a_progress
    (Some "progress.json").

Definition b_manager : campaign_manager.CampaignManager :=
  campaign_manager.mk_manager false a_delay_manager analytics_tracker.init b_progress
    (Some "progress.json").

Definition quiet_manager : campaign_manager.CampaignManager :=
  new_manager (new_delay_manager quiet_config None) None false.

Definition capped_manager : campaign_manager.CampaignManager := quiet_manager.

Definition open_manager : campaign_manager.CampaignManager :=
  new_manager (new_delay_manager open_config None) None false.


Definition inverted_manager : campaign_manager.CampaignManager :=
  new_manager (delay_manager.mk_delay_manager inverted_config
                 (delay_manager.set_next_batch_delay_at 12 delay_manager.default_stats) None)
    None true.

(** Statistics that reached the hourly limit of [quiet_config] at noon of
    the day before. *)
Definition full_hour_stats : delay_manager.SendingStats :=
  delay_manager.mk_stats 3 3 3 None None 3 12 (Some "2025-10-15") (Some 12) ∅ ∅.


(** One send that took 2 s and one failure that took 4 s. *)
Definition two_attempts : list TrackCall :=
  [TrackSent "Shop 1" "+1234567890" "creation" false 2%Q 0;
   TrackFailed "Shop 2" "+1234567891" "creation" false "Network error" 4%Q 0].

End examples.

(* ===================================================================== *)
(** * Properties *)
(* ===================================================================== *)

Import py world.
Import runs examples.

(** Unfold the monad of [world.M] and its primitive operations. *)
Ltac munfold :=
  unfold mbind, mret, M_bind, M_ret, world.bind, world.ret, now, randint, sleep,
    get_files, modify_files, compose, send in *.

(* ===================================================================== *)
(** ** The runtime: [fromisoformat] inverts [isoformat] *)
(* ===================================================================== *)

Section facts_dt.

Lemma digit_val_char (d : Z) :
  0 <= d < 10 → digit_val (digit_char d) = Some d.
Proof.
  intros Hd.
  assert (Hc : d = 0 ∨ d = 1 ∨ d = 2 ∨ d = 3 ∨ d = 4 ∨ d = 5 ∨ d = 6 ∨
               d = 7 ∨ d = 8 ∨ d = 9) by lia.
  repeat (destruct Hc as [-> | Hc]; [reflexivity |]).
  subst d. reflexivity.
Qed.

Lemma take_digits_step (w : nat) (acc : Z) (c : ascii) (s : string) :
  take_digits (S w) acc (String c s)
  = match digit_val c with
    | Some d => take_digits w (10 * acc + d) s
    | None => None
    end.
Proof. reflexivity. Qed.

Lemma take_digits_zfill (w : nat) (n acc : Z) (rest : string) :
  take_digits w acc (zfill w n ++ rest)
  = Some (acc * 10 ^ Z.of_nat w + n mod 10 ^ Z.of_nat w, rest).
Proof.
  revert acc. induction w as [| w IH]; intros acc.
  - cbn [zfill take_digits String.append]. 
    change (10 ^ Z.of_nat 0) with 1. rewrite Z.mod_1_r. f_equal. f_equal. lia.
  - change (zfill (S w) n ++ rest) with
      (String (digit_char ((n / 10 ^ Z.of_nat w) mod 10)) (zfill w n ++ rest)).
    rewrite take_digits_step.
    rewrite digit_val_char by (apply Z.mod_pos_bound; lia).
    rewrite IH. f_equal. f_equal.
    rewrite Nat2Z.inj_succ, Z.pow_succ_r by lia.
    rewrite (Z.mul_comm 10 (10 ^ Z.of_nat w)).
    rewrite Z.rem_mul_r by lia. lia.
Qed.

Lemma take_digits_zfill_small (w : nat) (n : Z) (rest : string) :
  0 <= n < 10 ^ Z.of_nat w →
  take_digits w 0 (zfill w n ++ rest) = Some (n, rest).
Proof.
  intros Hn. rewrite take_digits_zfill, Z.mod_small by lia. reflexivity.
Qed.

Lemma days_in_month_le (y m : Z) : days_in_month y m <= 31.
Proof.
  unfold days_in_month.
  repeat match goal with |- context [if ?b then _ else _] => destruct b end; lia.
Qed.

Lemma str_app_cons (x : ascii) (a b : string) : String x a ++ b = String x (a ++ b).
Proof. reflexivity. Qed.

Lemma str_app_assoc (a b c : string) : (a ++ b) ++ c = a ++ (b ++ c).
Proof. induction a as [| x a IH]; [reflexivity |]. by rewrite !str_app_cons, IH. Qed.

Lemma str_app_nil_r (a : string) : a ++ "" = a.
Proof. induction a as [| x a IH]; [reflexivity |]. by rewrite str_app_cons, IH. Qed.

Lemma str_cons_app (c : ascii) (s : string) : String c "" ++ s = String c s.
Proof. reflexivity. Qed.

Lemma expect_char_cons (c : ascii) (s : string) : expect_char c (String c s) = Some s.
Proof. unfold expect_char. by rewrite Ascii.eqb_refl. Qed.

Lemma option_bind_Some {A B : Type} (x : A) (f : A → option B) : Some x ≫= f = f x.
Proof. reflexivity. Qed.

Lemma valid_datetime_bounds (d : datetime) :
  valid_datetime d = true →
  1 <= year d <= 9999 ∧ 1 <= month d <= 12 ∧ 1 <= day d <= 31 ∧
  0 <= hour d <= 23 ∧ 0 <= minute d <= 59 ∧ 0 <= second d <= 59 ∧
  0 <= microsecond d <= 999999.
Proof.
  unfold valid_datetime. intros Hv.
  pose proof (days_in_month_le (year d) (month d)).
  repeat (apply andb_prop in Hv; destruct Hv as [Hv ?]).
  lia.
Qed.

Lemma fromisoformat_isoformat (d : datetime) :
  valid_datetime d = true → fromisoformat (isoformat d) = Some d.
Proof.
  intros Hv. destruct (valid_datetime_bounds d Hv) as (Hy & Hm & Hd & Hh & Hmi & Hs & Hu).
  destruct d as [y mo dd h mi se us].
  cbn [year month day hour minute second microsecond] in *.
  unfold isoformat, strftime_date, fromisoformat.
  cbn [year month day hour minute second microsecond].
  rewrite !str_app_assoc, !str_cons_app.
  assert (P4 : 10 ^ Z.of_nat 4 = 10000) by reflexivity.
  assert (P2 : 10 ^ Z.of_nat 2 = 100) by reflexivity.
  assert (P6 : 10 ^ Z.of_nat 6 = 1000000) by reflexivity.
  rewrite (take_digits_zfill_small 4) by lia.
  rewrite option_bind_Some; cbv beta iota zeta.
  rewrite expect_char_cons, option_bind_Some.
  rewrite (take_digits_zfill_small 2) by lia.
  rewrite option_bind_Some; cbv beta iota zeta.
  rewrite expect_char_cons, option_bind_Some.
  rewrite (take_digits_zfill_small 2) by lia.
  rewrite option_bind_Some; cbv beta iota zeta.
  rewrite expect_char_cons, option_bind_Some.
  rewrite (take_digits_zfill_small 2) by lia.
  rewrite option_bind_Some; cbv beta iota zeta.
  rewrite expect_char_cons, option_bind_Some.
  rewrite (take_digits_zfill_small 2) by lia.
  rewrite option_bind_Some; cbv beta iota zeta.
  rewrite expect_char_cons, option_bind_Some.
  rewrite (take_digits_zfill_small 2) by lia.
  rewrite option_bind_Some; cbv beta iota zeta.
  destruct (us =? 0) eqn:Hus.
  - apply Z.eqb_eq in Hus. subst us.
    rewrite option_bind_Some; cbv beta iota zeta. by rewrite Hv.
  - rewrite expect_char_cons, option_bind_Some.
    rewrite <- (str_app_nil_r (zfill 6 us)).
    rewrite (take_digits_zfill_small 6) by lia.
    rewrite option_bind_Some; cbv beta iota zeta. by rewrite Hv.
Qed.

End facts_dt.

(* ===================================================================== *)
(** ** Waiting and the single attempt *)
(* ===================================================================== *)

Section facts_p3.

Section clock_facts.

(** [int(x)] is positive only from [1.0] on. *)
Lemma int_of_float_positive (x : Q) : 0 < int_of_float x → (1 <= x)%Q.
Proof.
  destruct x as [n d]. unfold int_of_float, Qle. cbn [Qnum Qden]. intros H.
  destruct (Z_lt_le_dec n (Z.pos d)) as [Hlt | Hle]; [exfalso | lia].
  destruct (Z_lt_le_dec n 0) as [Hn | Hn].
  - assert (H0 : 0 ≤ Z.quot (- n) (Z.pos d)) by (apply Z.quot_pos; lia).
    rewrite Z.quot_opp_l in H0 by lia. lia.
  - rewrite Z.quot_small in H by lia. lia.
Qed.

Lemma int_of_float_not_positive (x : Q) : int_of_float x ≤ 0 → (x < 1)%Q.
Proof.
  destruct x as [n d]. unfold int_of_float, Qlt. cbn [Qnum Qden]. intros H.
  destruct (Z_lt_le_dec n (Z.pos d)) as [Hlt | Hle]; [lia | exfalso].
  assert (0 < Z.quot n (Z.pos d)) by (apply Z.quot_str_pos; lia). lia.
Qed.

Lemma float_lt_true (a b : Q) : float_lt a b = true → (a < b)%Q.
Proof.
  unfold float_lt. intros H. apply negb_true_iff in H.
  destruct (Qlt_le_dec a b) as [Hlt | Hle]; [exact Hlt |].
  apply Qle_bool_iff in Hle. congruence.
Qed.

Lemma float_lt_false (a b : Q) : float_lt a b = false → (b <= a)%Q.
Proof.
  unfold float_lt. intros H. apply negb_false_iff in H. by apply Qle_bool_iff.
Qed.

Lemma busy_step (e : Env) (t : nat) : (busy e t <= busy e (S t))%Q.
Proof. cbn [busy]. pose proof (Qabs_nonneg (lapse e t)). lra. Qed.

(** The time gone by never runs backwards. *)
Lemma busy_mono (e : Env) (t t' : nat) : (t ≤ t')%nat → (busy e t <= busy e t')%Q.
Proof.
  induction 1 as [| t' _ IH]; [apply Qle_refl |].
  eapply Qle_trans; [exact IH | apply busy_step].
Qed.

Lemma busy_step_strict (e : Env) (t : nat) : time_moves e → (busy e t < busy e (S t))%Q.
Proof.
  intros H. cbn [busy]. specialize (H t).
  assert (0 < Qabs (lapse e t))%Q; [| lra].
  revert H. apply Qabs_case; intros H1 H2.
  - destruct (Qlt_le_dec 0 (lapse e t)); [assumption |]. exfalso. apply H2. lra.
  - destruct (Qlt_le_dec 0 (- lapse e t)); [assumption |]. exfalso. apply H2. lra.
Qed.

Lemma busy_strict (e : Env) (t t' : nat) :
  time_moves e → (t < t')%nat → (busy e t < busy e t')%Q.
Proof.
  intros H Hlt. eapply Qlt_le_trans; [apply (busy_step_strict e t H) |].
  apply busy_mono. lia.
Qed.

Lemma sum_from (l : list Z) (a : Z) : fold_right Z.add a l = fold_right Z.add 0 l + a.
Proof. induction l as [| x l IH]; cbn; [lia | rewrite IH; lia]. Qed.

Lemma slept_sleep (t : nat) (l : list Z) (f : files) (x : Z) :
  slept (mk_sys t (l ++ [x])%list f) = slept (mk_sys t l f) + x.
Proof. unfold slept. cbn [sleeps]. rewrite fold_right_app. cbn. rewrite sum_from. lia. Qed.

Lemma slept_one_second_sleeps (t : nat) (l : list Z) (f : files) (n : nat) :
  slept (mk_sys t (l ++ one_second_sleeps n)%list f) = slept (mk_sys t l f) + Z.of_nat n.
Proof.
  unfold slept, one_second_sleeps. cbn [sleeps]. rewrite fold_right_app, sum_from.
  f_equal. induction n as [| n IH]; [reflexivity |].
  cbn [replicate fold_right]. rewrite IH. lia.
Qed.

End clock_facts.

Section countdown_facts.
Import delay_manager.

(** One pass of the loop of [_sleep_with_countdown]. *)
Lemma countdown_S (rounds : nat) (end_time : Q) (e : Env) (s : Sys) :
  countdown (S rounds) end_time e s
  = if float_lt (busy e (tick s) + inject_Z (slept s)) end_time
    then if int_of_float (end_time - (busy e (S (tick s)) + inject_Z (slept s))) <=? 0
         then (tt, next_tick (next_tick s))
         else countdown rounds end_time e
                (mk_sys (S (S (tick s))) (sleeps s ++ [1]) (fs s))
    else (tt, next_tick s).
Proof.
  cbn [countdown]. munfold. unfold time_time.
  destruct (float_lt _ _); [| reflexivity].
  cbn [next_tick tick sleeps fs slept].
  change (slept (next_tick s)) with (slept s).
  destruct (_ <=? 0); reflexivity.
Qed.

(** The loop writes no file. *)
Lemma countdown_fs (rounds : nat) (end_time : Q) (e : Env) :
  ∀ s, fs (countdown rounds end_time e s).2 = fs s.
Proof.
  induction rounds as [| r IH]; intros s; [reflexivity |].
  rewrite countdown_S.
  destruct (float_lt _ _); [| reflexivity].
  destruct (_ <=? 0); [reflexivity |]. by rewrite IH.
Qed.

Lemma sleep_with_countdown_fs (seconds : Z) (e : Env) (s : Sys) :
  fs (_sleep_with_countdown seconds e s).2 = fs s.
Proof. unfold _sleep_with_countdown. munfold. unfold time_time. by rewrite countdown_fs. Qed.

Section from_a_start.
Variables (e : Env) (t0 : nat) (z0 seconds : Z).

Let end_time : Q := (busy e t0 + inject_Z z0 + inject_Z seconds)%Q.

(** The loop entered [k] sleeps after the start: it sleeps one second at a
    time, never beyond [seconds] in all, and when it is left less than a
    second is missing to [end_time]. *)
Lemma countdown_run : ∀ (rounds : nat) (s : Sys) (k : Z),
  (t0 < tick s)%nat → slept s = z0 + k → 0 ≤ k → seconds - k < Z.of_nat rounds →
  let out := countdown rounds end_time e s in
  ∃ n, sleeps out.2 = (sleeps s ++ one_second_sleeps n)%list ∧
       (tick s ≤ tick out.2)%nat ∧
       (n = 0%nat ∨ k + Z.of_nat n ≤ seconds) ∧
       (time_moves e → n = 0%nat ∨ k + Z.of_nat n < seconds) ∧
       (end_time - 1 < busy e (tick out.2) + inject_Z (slept out.2))%Q.
Proof.
  induction rounds as [| r IH]; intros s k Ht Hs Hk Hr.
  - exists 0%nat. cbn. rewrite app_nil_r. split_and!; auto.
    pose proof (busy_mono e t0 (tick s) ltac:(lia)) as Hb.
    rewrite Hs, inject_Z_plus. unfold end_time.
    assert (inject_Z seconds < inject_Z k)%Q by (rewrite <- Zlt_Qlt; lia). lra.
  - cbv zeta. rewrite countdown_S.
    pose proof (busy_mono e t0 (S (tick s)) ltac:(lia)) as Hb.
    pose proof (busy_step e (tick s)) as Hb1.
    pose proof (busy_step e (S (tick s))) as Hb2.
    destruct (float_lt _ _) eqn:E1.
    + destruct (_ <=? 0) eqn:E2.
      * exists 0%nat. cbn [snd next_tick tick sleeps]. rewrite app_nil_r.
        change (slept (next_tick (next_tick s))) with (slept s).
        split_and!; auto.
        apply Z.leb_le, int_of_float_not_positive in E2. lra.
      * apply Z.leb_gt, int_of_float_positive in E2.
        rewrite Hs, inject_Z_plus in E2. unfold end_time in E2.
        assert (Hk1 : k + 1 ≤ seconds).
        { rewrite Zle_Qle, inject_Z_plus. change (inject_Z 1) with 1%Q. lra. }
        set (s' := mk_sys (S (S (tick s))) (sleeps s ++ [1]) (fs s)).
        destruct (IH s' (k + 1)) as (n & Hn1 & Hn2 & Hn3 & Hn4 & Hn5).
        { cbn. lia. }
        { unfold s'. rewrite slept_sleep. change (slept _) with (slept s). lia. }
        { lia. }
        { lia. }
        exists (S n). split_and!.
        -- rewrite Hn1. cbn [s' sleeps]. by rewrite <- app_assoc.
        -- cbn [s' tick] in Hn2. lia.
        -- right. lia.
        -- intros Hm. right.
           pose proof (busy_strict e t0 (S (tick s)) Hm ltac:(lia)) as Hb3.
           assert (Hk2 : k + 1 < seconds).
           { rewrite Zlt_Qlt, inject_Z_plus. change (inject_Z 1) with 1%Q. lra. }
           destruct (Hn4 Hm); lia.
        -- exact Hn5.
    + exists 0%nat. cbn [snd next_tick tick sleeps]. rewrite app_nil_r.
      change (slept (next_tick s)) with (slept s).
      split_and!; auto.
      apply float_lt_false in E1. lra.
Qed.

(** More rounds than [seconds + 1] change nothing: the loop has ended by
    itself before. *)
Lemma countdown_rounds : ∀ (rounds : nat) (s : Sys) (k : Z) (more : nat),
  (t0 < tick s)%nat → slept s = z0 + k → 0 ≤ k →
  seconds - k < Z.of_nat rounds → (0 < rounds)%nat →
  countdown (rounds + more) end_time e s = countdown rounds end_time e s.
Proof.
  induction rounds as [| r IH]; intros s k more Ht Hs Hk Hr Hpos; [lia |].
  change (S r + more)%nat with (S (r + more)). rewrite !countdown_S.
  destruct (float_lt _ _) eqn:E1; [| reflexivity].
  destruct (_ <=? 0) eqn:E2; [reflexivity |].
  pose proof (busy_mono e t0 (S (tick s)) ltac:(lia)) as Hb.
  apply Z.leb_gt, int_of_float_positive in E2.
  rewrite Hs, inject_Z_plus in E2. unfold end_time in E2.
  assert (Hk1 : k + 1 ≤ seconds).
  { rewrite Zle_Qle, inject_Z_plus. change (inject_Z 1) with 1%Q. lra. }
  apply (IH _ (k + 1)).
  - cbn. lia.
  - rewrite slept_sleep. change (slept _) with (slept s). lia.
  - lia.
  - lia.
  - lia.
Qed.

End from_a_start.

(** [_sleep_with_countdown(seconds)] calls [time.sleep(1)] some [n] times
    and nothing else: at most [seconds] times, fewer when the clock moves
    between two readings (so not at all for one second), and on return less
    than a second is missing to [end_time]. *)
Lemma sleep_with_countdown_run (seconds : Z) (e : Env) (s : Sys) :
  let out := _sleep_with_countdown seconds e s in
  ∃ n, sleeps out.2 = (sleeps s ++ one_second_sleeps n)%list ∧
       fs out.2 = fs s ∧
       (n = 0%nat ∨ Z.of_nat n ≤ seconds) ∧
       (time_moves e → n = 0%nat ∨ Z.of_nat n < seconds) ∧
       (busy e (tick s) + inject_Z (slept s) + inject_Z seconds - 1
        < busy e (tick out.2) + inject_Z (slept out.2))%Q.
Proof.
  cbv zeta. unfold _sleep_with_countdown. munfold. unfold time_time.
  destruct (countdown_run e (tick s) (slept s) seconds (Z.to_nat seconds + 1)
              (next_tick s) 0) as (n & H1 & H2 & H3 & H4 & H5).
  { cbn. lia. }
  { change (slept (next_tick s)) with (slept s). lia. }
  { lia. }
  { lia. }
  exists n. rewrite countdown_fs. split_and!; auto.
Qed.

(** The bound on the passes is never what ends the loop: with more rounds
    the pause is the same. *)
Lemma sleep_with_countdown_ends (seconds : Z) (more : nat) (e : Env) (s : Sys) :
  (start_time ← time_time;
   countdown (Z.to_nat seconds + 1 + more) (start_time + inject_Z seconds)%Q) e s
  = _sleep_with_countdown seconds e s.
Proof.
  unfold _sleep_with_countdown. munfold. unfold time_time.
  apply (countdown_rounds e (tick s) (slept s) seconds _ _ 0).
  - cbn. lia.
  - change (slept (next_tick s)) with (slept s). lia.
  - lia.
  - lia.
  - lia.
Qed.

End countdown_facts.

Section delay_manager_facts.
Import delay_manager.

(** [random.randint] on a range that is not empty returns its draw. *)
Lemma randint_returns (a b : Z) (e : Env) (s : Sys) :
  a ≤ b → randint a b e s = (inl (randint_draw e (tick s) a b), next_tick s).
Proof. intros H. unfold randint. by rewrite (proj2 (Z.leb_le a b) H). Qed.

Lemma randint_raises (a b : Z) (e : Env) (s : Sys) :
  b < a → randint a b e s = (inr (empty_range_text e a b), next_tick s).
Proof. intros H. unfold randint. by rewrite (proj2 (Z.leb_gt a b) H). Qed.

Lemma wait_disabled (dm : DelayManager) (e : Env) (s : Sys) :
  enable_delays (config dm) = false →
  wait_between_messages false dm e s = ((dm, None), s).
Proof. intros H. unfold wait_between_messages. rewrite H. reflexivity. Qed.

(** Whether it returns or raises, a wait leaves configuration, file and
    counters alone; all it may do to the statistics is reset the batch
    counter, stamp the batch delay and draw a threshold. *)
Lemma wait_effect (force : bool) (dm : DelayManager) (e : Env) (s : Sys) :
  let out := wait_between_messages force dm e s in
  config out.1.1 = config dm ∧ stats_file out.1.1 = stats_file dm ∧
  same_counters (stats out.1.1) (stats dm) ∧
  (messages_since_batch_delay (stats out.1.1) = messages_since_batch_delay (stats dm) ∨
   messages_since_batch_delay (stats out.1.1) = 0) ∧
  fs out.2 = fs s.
Proof.
  unfold wait_between_messages, same_counters.
  destruct (negb (enable_delays (config dm)) && negb force).
  { cbn. tauto. }
  destruct (next_batch_delay_at (stats dm) <=? messages_since_batch_delay (stats dm)).
  - unfold _do_batch_delay, _reset_batch_threshold, randint. munfold.
    cbn -[_sleep_with_countdown].
    destruct (min_batch_delay (config dm) <=? max_batch_delay (config dm)).
    2: { cbn. tauto. }
    match goal with
    | |- context [_sleep_with_countdown ?d ?e' ?s'] =>
        pose proof (sleep_with_countdown_fs d e' s') as Hfs;
        destruct (_sleep_with_countdown d e' s') as [[] s2]
    end.
    cbn in Hfs. destruct (messages_per_batch (config dm)) as [lo hi]. cbn.
    destruct (lo <=? hi); cbn; repeat split; auto.
  - unfold randint. munfold. cbn -[_sleep_with_countdown].
    destruct (min_message_delay (config dm) <=? max_message_delay (config dm)).
    2: { cbn. repeat split; auto. }
    match goal with
    | |- context [_sleep_with_countdown ?d ?e' ?s'] =>
        pose proof (sleep_with_countdown_fs d e' s') as Hfs;
        destruct (_sleep_with_countdown d e' s') as [[] s2]
    end.
    cbn in Hfs. cbn. repeat split; auto.
Qed.

(** With its ranges in order, or with nothing to draw, the wait returns. *)
Lemma wait_returns (dm : DelayManager) (e : Env) (s : Sys) :
  waits_return (config dm) → (wait_between_messages false dm e s).1.2 = None.
Proof.
  intros [Hoff | (H1 & H2 & H3)].
  { by rewrite (wait_disabled dm e s Hoff). }
  unfold wait_between_messages.
  destruct (negb (enable_delays (config dm)) && negb false); [reflexivity |].
  destruct (next_batch_delay_at (stats dm) <=? messages_since_batch_delay (stats dm)).
  - unfold _do_batch_delay, _reset_batch_threshold, randint. munfold.
    cbn -[_sleep_with_countdown].
    rewrite (proj2 (Z.leb_le _ _) H2).
    match goal with
    | |- context [_sleep_with_countdown ?d ?e' ?s'] =>
        destruct (_sleep_with_countdown d e' s') as [[] s2]
    end.
    destruct (messages_per_batch (config dm)) as [lo hi]. cbn in *.
    by rewrite (proj2 (Z.leb_le _ _) H3).
  - unfold randint. munfold. cbn -[_sleep_with_countdown].
    rewrite (proj2 (Z.leb_le _ _) H1).
    match goal with
    | |- context [_sleep_with_countdown ?d ?e' ?s'] =>
        destruct (_sleep_with_countdown d e' s') as [[] s2]
    end.
    reflexivity.
Qed.

End delay_manager_facts.

Section send_single_facts.
Import campaign_manager.

Lemma send_single_compose_raises b cm e s msg :
  compose_text e (tick s) b = inr msg →
  _send_single_message b cm e s = ((mk_send_result "failed" (Some msg) None, cm), next_tick s).
Proof. intros H. unfold _send_single_message. munfold. by rewrite H. Qed.

Lemma send_single_dry_run b cm e s m :
  compose_text e (tick s) b = inl m → dry_run cm = true →
  _send_single_message b cm e s
  = ((mk_send_result "success" None (Some m), cm), next_tick s).
Proof. intros H Hd. unfold _send_single_message. munfold. by rewrite H, Hd. Qed.

(** A send call that returns, with whichever pair, is taken as sent: the
    test [if success:] is on the pair, not on its first component. *)
Lemma send_single_sent b cm e s m ok err :
  compose_text e (tick s) b = inl m → dry_run cm = false →
  transport e (S (tick s)) (business.phone b) m = SendReturns ok err →
  _send_single_message b cm e s
  = let dm := delay_manager.with_stats (delay_manager cm)
                (delay_manager.record_message_sent_at (clock e (S (S (tick s))))
                   (delay_manager.stats (delay_manager cm))) in
    ((mk_send_result "success" None (Some m), with_delay_manager cm dm),
     mk_sys (S (S (S (tick s)))) (sleeps s) (delay_manager._save_stats dm (fs s))).
Proof.
  intros H Hd Ht. unfold _send_single_message, delay_manager.record_message_sent. munfold.
  rewrite H, Hd. cbn. by rewrite Ht.
Qed.

Lemma send_single_raises b cm e s m msg :
  compose_text e (tick s) b = inl m → dry_run cm = false →
  transport e (S (tick s)) (business.phone b) m = SendRaises msg →
  _send_single_message b cm e s
  = ((mk_send_result "failed" (Some msg) None, cm), next_tick (next_tick s)).
Proof.
  intros H Hd Ht. unfold _send_single_message. munfold.
  rewrite H, Hd. cbn. by rewrite Ht.
Qed.

(** Whatever the composer and the send call do, the attempt ends in ['success'] or
    ['failed'], and touches nothing but the delay manager's statistics. *)
Lemma send_single_effect b cm e s :
  let out := _send_single_message b cm e s in
  (r_status out.1.1 = "success" ∨ r_status out.1.1 = "failed") ∧
  progress out.1.2 = progress cm ∧ dry_run out.1.2 = dry_run cm ∧
  progress_file out.1.2 = progress_file cm ∧
  analytics_tracker out.1.2 = analytics_tracker cm ∧
  delay_manager.config (delay_manager out.1.2) = delay_manager.config (delay_manager cm) ∧
  delay_manager.stats_file (delay_manager out.1.2) = delay_manager.stats_file (delay_manager cm) ∧
  sleeps out.2 = sleeps s ∧
  (r_status out.1.1 = "failed" ∨ dry_run cm = true →
     delay_manager out.1.2 = delay_manager cm ∧ fs out.2 = fs s).
Proof.
  destruct (compose_text e (tick s) b) as [m | msg] eqn:Hc.
  2: { rewrite (send_single_compose_raises _ _ _ _ _ Hc). cbn. tauto. }
  destruct (dry_run cm) eqn:Hd.
  { rewrite (send_single_dry_run _ _ _ _ _ Hc Hd). cbn. tauto. }
  destruct (transport e (S (tick s)) (business.phone b) m) as [ok err | msg] eqn:Ht.
  - rewrite (send_single_sent _ _ _ _ _ _ _ Hc Hd Ht). cbn.
    split_and!; try done; try tauto. intros [? | ?]; [discriminate | congruence].
  - rewrite (send_single_raises _ _ _ _ _ _ Hc Hd Ht). cbn. tauto.
Qed.

End send_single_facts.

End facts_p3.

(* ===================================================================== *)
(** ** Recording a result; one pass through the loop body *)
(* ===================================================================== *)

Section facts_p4.
Import campaign_manager.

Lemma record_result_effect b st err msg cm e s :
  runs.valid_status st = true →
  let out := _record_result b st err msg cm e s in
  let p := progress cm in
  let p' := progress out.1 in
  results p' = (results p ++
     [mk_result (business.business_name b) (business.phone b)
        (business.detect_message_type b) st err (isoformat (clock e (tick s)))
        (preview msg)])%list ∧
  sent p' = sent p + (if String.eqb st "success" then 1 else 0) ∧
  failed p' = failed p + (if String.eqb st "failed" then 1 else 0) ∧
  skipped p' = skipped p + (if String.eqb st "skipped" then 1 else 0) ∧
  processed p' = processed p ∧
  last_processed_index p' = last_processed_index p ∧
  total_businesses p' = total_businesses p ∧
  start_time p' = start_time p ∧ end_time p' = end_time p ∧
  delay_manager out.1 = delay_manager cm ∧
  dry_run out.1 = dry_run cm ∧
  progress_file out.1 = progress_file cm ∧
  tick out.2 = (tick s + 3)%nat ∧ sleeps out.2 = sleeps s ∧ fs out.2 = fs s.
Proof.
  intros Hst. unfold runs.valid_status in Hst.
  unfold _record_result. munfold.
  unfold analytics_tracker.track_message_sent, analytics_tracker.track_message_failed,
    analytics_tracker.track_message_skipped. munfold.
  destruct (String.eqb st "success") eqn:E1.
  { apply String.eqb_eq in E1. subst st. cbn. repeat split; try lia. }
  destruct (String.eqb st "failed") eqn:E2.
  { apply String.eqb_eq in E2. subst st. cbn. repeat split; try lia. }
  destruct (String.eqb st "skipped") eqn:E3.
  { apply String.eqb_eq in E3. subst st. cbn. repeat split; try lia. }
  discriminate.
Qed.

Lemma send_iteration_blocked n i b cm e s :
  (gate e s (delay_manager cm)).1.1 = false →
  send_iteration n i b cm e s
  = let g := gate e s (delay_manager cm) in
    let r := _record_result b "skipped" g.1.2 None (with_delay_manager cm g.2)
               e (next_tick s) in
    ((false, r.1), r.2).
Proof.
  unfold gate. intros H. unfold send_iteration, delay_manager.can_send_message. munfold.
  destruct (delay_manager.can_send_message_at _ _) as [[v reason] dm'] eqn:E.
  simpl in H. subst v. cbn [fst snd negb].
  destruct (_record_result _ _ _ _ _ _ _). reflexivity.
Qed.

Lemma send_iteration_allowed n i b cm e s :
  (gate e s (delay_manager cm)).1.1 = true →
  send_iteration n i b cm e s
  = let g := gate e s (delay_manager cm) in
    let r1 := _send_single_message b (with_delay_manager cm g.2) e (next_tick s) in
    let r2 := _record_result b (r_status r1.1.1) (r_error r1.1.1) (r_message r1.1.1)
                r1.1.2 e r1.2 in
    let cm3 := with_progress r2.1
                 (set_last_processed_index i
                    (set_processed (processed (progress r2.1) + 1) (progress r2.1))) in
    let s3 := if processed (progress cm3) mod 5 =? 0
              then mk_sys (tick r2.2) (sleeps r2.2) (save_progress_files cm3 (fs r2.2))
              else r2.2 in
    if (i <? n - 1) && String.eqb (r_status r1.1.1) "success"
    then let r4 := delay_manager.wait_between_messages false (delay_manager cm3) e s3 in
         match r4.1.2 with
         | None => ((true, with_delay_manager cm3 r4.1.1), r4.2)
         | Some msg =>
             let r5 := _record_result b "failed" (Some msg) None
                         (with_delay_manager cm3 r4.1.1) e r4.2 in
             ((true, r5.1), r5.2)
         end
    else ((true, cm3), s3).
Proof.
  unfold gate. intros H.
  unfold send_iteration, delay_manager.can_send_message, _save_progress. munfold.
  destruct (delay_manager.can_send_message_at _ _) as [[v reason] dm'] eqn:E.
  simpl in H. subst v. cbn [fst snd negb].
  destruct (_send_single_message _ _ _ _) as [[result cm1] s1].
  cbn [fst snd].
  destruct (_record_result _ _ _ _ _ _ _) as [cm2 s2]. cbn [fst snd].
  cbn [processed set_last_processed_index set_processed progress with_progress].
  destruct (_ mod 5 =? 0); cbn [fst snd];
    destruct ((i <? n - 1) && String.eqb (r_status result) "success"); cbn [fst snd];
    try reflexivity.
  all: destruct (delay_manager.wait_between_messages _ _ _ _) as [[dm4 [msg |]] s4];
    cbn [fst snd]; try reflexivity.
  all: destruct (_record_result _ _ _ _ _ _ _); reflexivity.
Qed.

(** The same pass when the wait cannot raise. *)
Lemma send_iteration_returns n i b cm e s :
  waits_return (delay_manager.config (delay_manager cm)) →
  (gate e s (delay_manager cm)).1.1 = true →
  send_iteration n i b cm e s
  = let g := gate e s (delay_manager cm) in
    let r1 := _send_single_message b (with_delay_manager cm g.2) e (next_tick s) in
    let r2 := _record_result b (r_status r1.1.1) (r_error r1.1.1) (r_message r1.1.1)
                r1.1.2 e r1.2 in
    let cm3 := with_progress r2.1
                 (set_last_processed_index i
                    (set_processed (processed (progress r2.1) + 1) (progress r2.1))) in
    let s3 := if processed (progress cm3) mod 5 =? 0
              then mk_sys (tick r2.2) (sleeps r2.2) (save_progress_files cm3 (fs r2.2))
              else r2.2 in
    if (i <? n - 1) && String.eqb (r_status r1.1.1) "success"
    then let r4 := delay_manager.wait_between_messages false (delay_manager cm3) e s3 in
         ((true, with_delay_manager cm3 r4.1.1), r4.2)
    else ((true, cm3), s3).
Proof.
  intros Hw Hg. rewrite (send_iteration_allowed _ _ _ _ _ _ Hg). cbv zeta.
  destruct ((i <? n - 1) && String.eqb _ "success"); [| reflexivity].
  rewrite wait_returns; [reflexivity |].
  cbn [delay_manager with_progress].
  pose proof (send_single_effect b (with_delay_manager cm (gate e s (delay_manager cm)).2)
                e (next_tick s)) as H1. cbv zeta in H1.
  destruct (_send_single_message b _ e (next_tick s)) as [[res cm1] s1]. cbn [fst snd] in *.
  destruct H1 as (Hst & _ & _ & _ & _ & Hcfg & _).
  assert (Hv : runs.valid_status (r_status res) = true).
  { unfold runs.valid_status. destruct Hst as [-> | ->]; reflexivity. }
  pose proof (record_result_effect b (r_status res) (r_error res) (r_message res)
                cm1 e s1 Hv) as H2. cbv zeta in H2.
  destruct (_record_result b (r_status res) (r_error res) (r_message res) cm1 e s1)
    as [cm2 s2]. cbn [fst snd] in *.
  destruct H2 as (_ & _ & _ & _ & _ & _ & _ & _ & _ & R10 & _).
  rewrite R10, Hcfg. exact Hw.
Qed.

End facts_p4.

(* ===================================================================== *)
(** ** What one pass changes *)
(* ===================================================================== *)

Section facts_p5.
Import campaign_manager.

Lemma same_setup_trans a b c : same_setup a b → same_setup b c → same_setup a c.
Proof. unfold same_setup. intuition congruence. Qed.

(** What every pass keeps, whichever way it ends. *)
Lemma send_iteration_setup n i b cm e s :
  let g := gate e s (delay_manager cm) in
  let out := send_iteration n i b cm e s in
  let p := progress cm in
  let p' := progress out.1.2 in
  same_setup out.1.2 cm ∧
  out.1.1 = g.1.1 ∧
  total_businesses p' = total_businesses p ∧ start_time p' = start_time p ∧
  end_time p' = end_time p.
Proof.
  intros g out p p'. subst out p'.
  destruct (g.1.1) eqn:Hg.
  - rewrite (send_iteration_allowed _ _ _ _ _ _ Hg). fold g. cbv zeta.
    pose proof (send_single_effect b (with_delay_manager cm g.2) e (next_tick s)) as H1.
    cbv zeta in H1.
    destruct (_send_single_message b (with_delay_manager cm g.2) e (next_tick s))
      as [[res cm1] s1]. cbn [fst snd] in *.
    destruct H1 as (Hst & Hp & Hd & Hpf & Ha & Hc & Hsf & Hsl & Hfail).
    assert (Hv : runs.valid_status (r_status res) = true).
    { unfold runs.valid_status. destruct Hst as [-> | ->]; reflexivity. }
    pose proof (record_result_effect b (r_status res) (r_error res) (r_message res)
                  cm1 e s1 Hv) as H2. cbv zeta in H2.
    destruct (_record_result b (r_status res) (r_error res) (r_message res) cm1 e s1)
      as [cm2 s2]. cbn [fst snd] in *.
    destruct H2 as (R1 & R2 & R3 & R4 & R5 & R6 & R7 & R8 & R9 & R10 & R11 & R12 & _).
    set (cm3 := with_progress cm2 _).
    assert (Hset : same_setup cm3 cm).
    { unfold same_setup, cm3. cbn. rewrite R10, R11, R12, Hd, Hpf, Hc, Hsf.
      unfold gate, delay_manager.can_send_message_at. cbn. tauto. }
    assert (Hrest : total_businesses (progress cm3) = total_businesses (progress cm) ∧
                    start_time (progress cm3) = start_time (progress cm) ∧
                    end_time (progress cm3) = end_time (progress cm)).
    { unfold cm3. cbn. rewrite R7, R8, R9, Hp. cbn. tauto. }
    clearbody cm3.
    destruct ((i <? n - 1) && String.eqb (r_status res) "success").
    + match goal with
      | |- context [delay_manager.wait_between_messages false (delay_manager cm3) e ?x] =>
          set (s3 := x)
      end.
      pose proof (wait_effect false (delay_manager cm3) e s3) as H4. cbv zeta in H4.
      destruct (delay_manager.wait_between_messages false (delay_manager cm3) e s3)
        as [[dm4 exn] s4]. cbn [fst snd] in *.
      destruct H4 as (W1 & W2 & _).
      assert (Hset4 : same_setup (with_delay_manager cm3 dm4) cm).
      { unfold same_setup in *. cbn. rewrite W1, W2. tauto. }
      destruct exn as [msg |]; cbn [fst snd].
      * pose proof (record_result_effect b "failed" (Some msg) None
                      (with_delay_manager cm3 dm4) e s4 eq_refl) as H5. cbv zeta in H5.
        destruct (_record_result b "failed" (Some msg) None (with_delay_manager cm3 dm4) e s4)
          as [cm5 s5]. cbn [fst snd] in *.
        destruct H5 as (_ & _ & _ & _ & _ & _ & Q7 & Q8 & Q9 & Q10 & Q11 & Q12 & _).
        cbn [progress with_delay_manager] in Q7, Q8, Q9.
        destruct Hrest as (T1 & T2 & T3).
        split_and!; try done; try (subst p; congruence).
        unfold same_setup in *. rewrite Q10, Q11, Q12. exact Hset4.
      * split_and!; try done; tauto.
    + cbn [fst snd]. split_and!; try done; tauto.
  - rewrite (send_iteration_blocked _ _ _ _ _ _ Hg). fold g. cbv zeta.
    pose proof (record_result_effect b "skipped" g.1.2 None (with_delay_manager cm g.2)
                  e (next_tick s) eq_refl) as H2. cbv zeta in H2.
    destruct (_record_result b "skipped" g.1.2 None (with_delay_manager cm g.2) e (next_tick s))
      as [cm2 s2]. cbn [fst snd] in *.
    destruct H2 as (R1 & R2 & R3 & R4 & R5 & R6 & R7 & R8 & R9 & R10 & R11 & R12 & R13 & R14 & R15).
    split_and!; try done.
    unfold same_setup. rewrite R10, R11, R12. cbn.
    unfold g, gate, delay_manager.can_send_message_at. cbn. tauto.
Qed.

(** One pass that is refused, or whose wait cannot raise, leaves exactly one
    result. *)
Lemma send_iteration_effect n i b cm e s :
  let g := gate e s (delay_manager cm) in
  let out := send_iteration n i b cm e s in
  let p := progress cm in
  let p' := progress out.1.2 in
  g.1.1 = false ∨ waits_return (delay_manager.config (delay_manager cm)) →
  same_setup out.1.2 cm ∧
  out.1.1 = g.1.1 ∧
  (∃ r, results p' = (results p ++ [r])%list ∧
        business_name r = business.business_name b ∧ phone r = business.phone b ∧
        message_type r = business.detect_message_type b ∧
        (if g.1.1
         then (status r = "success" ∨ status r = "failed") ∧
              sent p' = sent p + (if String.eqb (status r) "success" then 1 else 0) ∧
              failed p' = failed p + (if String.eqb (status r) "failed" then 1 else 0) ∧
              skipped p' = skipped p ∧
              processed p' = processed p + 1 ∧ last_processed_index p' = i
         else status r = "skipped" ∧ error r = g.1.2 ∧
              sent p' = sent p ∧ failed p' = failed p ∧ skipped p' = skipped p + 1 ∧
              processed p' = processed p ∧
              last_processed_index p' = last_processed_index p ∧
              delay_manager out.1.2 = g.2 ∧ sleeps out.2 = sleeps s ∧ fs out.2 = fs s)) ∧
  total_businesses p' = total_businesses p ∧ start_time p' = start_time p ∧
  end_time p' = end_time p.
Proof.
  intros g out p p' Hsafe.
  pose proof (send_iteration_setup n i b cm e s) as Hsetup. cbv zeta in Hsetup.
  fold g out p p' in Hsetup. destruct Hsetup as (S1 & S2 & S3).
  split; [exact S1 |]. split; [exact S2 |]. split; [| exact S3].
  clear S1 S2 S3. subst out p'.
  destruct (g.1.1) eqn:Hg.
  - destruct Hsafe as [? | Hw]; [discriminate |].
    rewrite (send_iteration_returns _ _ _ _ _ _ Hw Hg). fold g. cbv zeta.
    pose proof (send_single_effect b (with_delay_manager cm g.2) e (next_tick s)) as H1.
    cbv zeta in H1.
    destruct (_send_single_message b (with_delay_manager cm g.2) e (next_tick s))
      as [[res cm1] s1]. cbn [fst snd] in *.
    destruct H1 as (Hst & Hp & Hd & Hpf & Ha & Hc & Hsf & Hsl & Hfail).
    assert (Hv : runs.valid_status (r_status res) = true).
    { unfold runs.valid_status. destruct Hst as [-> | ->]; reflexivity. }
    pose proof (record_result_effect b (r_status res) (r_error res) (r_message res)
                  cm1 e s1 Hv) as H2. cbv zeta in H2.
    destruct (_record_result b (r_status res) (r_error res) (r_message res) cm1 e s1)
      as [cm2 s2]. cbn [fst snd] in *.
    destruct H2 as (R1 & R2 & R3 & R4 & R5 & R6 & R7 & R8 & R9 & R10 & R11 & R12 & _).
    set (cm3 := with_progress cm2 _).
    assert (Hres : ∃ r, results (progress cm3) = (results (progress cm) ++ [r])%list ∧
        business_name r = business.business_name b ∧ phone r = business.phone b ∧
        message_type r = business.detect_message_type b ∧
        (status r = "success" ∨ status r = "failed") ∧
        sent (progress cm3) = sent (progress cm) + (if String.eqb (status r) "success" then 1 else 0) ∧
        failed (progress cm3) = failed (progress cm) + (if String.eqb (status r) "failed" then 1 else 0) ∧
        skipped (progress cm3) = skipped (progress cm) ∧
        processed (progress cm3) = processed (progress cm) + 1 ∧
        last_processed_index (progress cm3) = i).
    { eexists. unfold cm3. cbn. rewrite R1, R2, R3, R4, R5, Hp. cbn.
      split; [reflexivity |]. cbn. split_and!; try done.
      destruct Hst as [-> | ->]; cbn; lia. }
    clearbody cm3.
    destruct ((i <? n - 1) && String.eqb (r_status res) "success"); cbn [fst snd];
      [cbn [progress with_delay_manager] |]; exact Hres.
  - rewrite (send_iteration_blocked _ _ _ _ _ _ Hg). fold g. cbv zeta.
    pose proof (record_result_effect b "skipped" g.1.2 None (with_delay_manager cm g.2)
                  e (next_tick s) eq_refl) as H2. cbv zeta in H2.
    destruct (_record_result b "skipped" g.1.2 None (with_delay_manager cm g.2) e (next_tick s))
      as [cm2 s2]. cbn [fst snd] in *.
    destruct H2 as (R1 & R2 & R3 & R4 & R5 & R6 & R7 & R8 & R9 & R10 & R11 & R12 & R13 & R14 & R15).
    eexists. split; [exact R1 |]. cbn in *. split_and!; try done; subst p; lia.
Qed.

End facts_p5.

(* ===================================================================== *)
(** ** What the loop records *)
(* ===================================================================== *)

Section facts_p6.
Import campaign_manager.

Lemma send_loop_cons n i b rest cm e s :
  send_loop n i (b :: rest) cm e s
  = let out := send_iteration n i b cm e s in
    if out.1.1 then send_loop n (i + 1) rest out.1.2 e out.2 else (out.1.2, out.2).
Proof.
  cbn [send_loop]. unfold mbind, M_bind, world.bind, mret, M_ret, world.ret.
  destruct (send_iteration n i b cm e s) as [[go cm1] s1]. by destruct go.
Qed.

Lemma same_setup_refl cm : same_setup cm cm.
Proof. unfold same_setup. tauto. Qed.

Lemma count_status_cons st r rs :
  count_status st (r :: rs)
  = (if String.eqb (status r) st then 1 else 0) + count_status st rs.
Proof.
  unfold count_status. cbn [List.filter].
  destruct (String.eqb (status r) st); cbn [length]; lia.
Qed.

Lemma count_status_app st rs rs' :
  count_status st (rs ++ rs') = count_status st rs + count_status st rs'.
Proof.
  unfold count_status. rewrite List.filter_app, length_app. lia.
Qed.

Lemma count_status_attempted rs :
  Forall attempted rs →
  count_status "success" rs + count_status "failed" rs = Z.of_nat (length rs).
Proof.
  induction 1 as [| r rs Hr _ IH].
  - reflexivity.
  - rewrite !count_status_cons. cbn [length].
    destruct Hr as [-> | ->]; cbn; lia.
Qed.

Lemma count_status_skipped rs :
  Forall (λ r, status r = "skipped") rs →
  count_status "success" rs = 0 ∧ count_status "failed" rs = 0.
Proof.
  induction 1 as [| r rs Hr _ IH].
  - split; reflexivity.
  - rewrite !count_status_cons, Hr. cbn. lia.
Qed.

(** Every pass, whichever way it ends, appends one or two results for its
    business and moves each outcome counter by the number of results with
    that status. *)
Lemma send_iteration_counts n i b cm e s :
  let out := send_iteration n i b cm e s in
  let p := progress cm in
  let p' := progress out.1.2 in
  ∃ rs, results p' = (results p ++ rs)%list ∧
        sent p' = sent p + count_status "success" rs ∧
        failed p' = failed p + count_status "failed" rs ∧
        skipped p' = skipped p + count_status "skipped" rs ∧
        Forall (λ r, business_name r = business.business_name b ∧
                     phone r = business.phone b) rs ∧
        (1 <= length rs <= 2)%nat ∧
        Forall (λ r, runs.valid_status (status r) = true) rs.
Proof.
  cbv zeta.
  destruct ((gate e s (delay_manager cm)).1.1) eqn:Hg.
  - rewrite (send_iteration_allowed _ _ _ _ _ _ Hg). cbv zeta.
    set (g := gate e s (delay_manager cm)).
    pose proof (send_single_effect b (with_delay_manager cm g.2) e (next_tick s)) as H1.
    cbv zeta in H1.
    destruct (_send_single_message b (with_delay_manager cm g.2) e (next_tick s))
      as [[res cm1] s1]. cbn [fst snd] in *.
    destruct H1 as (Hst & Hp & _).
    assert (Hv : runs.valid_status (r_status res) = true).
    { unfold runs.valid_status. destruct Hst as [-> | ->]; reflexivity. }
    pose proof (record_result_effect b (r_status res) (r_error res) (r_message res)
                  cm1 e s1 Hv) as H2. cbv zeta in H2.
    destruct (_record_result b (r_status res) (r_error res) (r_message res) cm1 e s1)
      as [cm2 s2]. cbn [fst snd] in *.
    destruct H2 as (R1 & R2 & R3 & R4 & _).
    rewrite Hp in R1, R2, R3, R4. cbn [progress with_delay_manager] in R1, R2, R3, R4.
    set (cm3 := with_progress cm2 _).
    assert (P1 : results (progress cm3) = results (progress cm2)) by reflexivity.
    assert (P2 : sent (progress cm3) = sent (progress cm2)) by reflexivity.
    assert (P3 : failed (progress cm3) = failed (progress cm2)) by reflexivity.
    assert (P4 : skipped (progress cm3) = skipped (progress cm2)) by reflexivity.
    clearbody cm3.
    set (r := mk_result _ _ _ _ _ _ _) in R1.
    assert (Hone : results (progress cm3) = (results (progress cm) ++ [r])%list ∧
        sent (progress cm3) = sent (progress cm) + count_status "success" [r] ∧
        failed (progress cm3) = failed (progress cm) + count_status "failed" [r] ∧
        skipped (progress cm3) = skipped (progress cm) + count_status "skipped" [r]).
    { rewrite !count_status_cons. unfold count_status. cbn [List.filter length status r].
      rewrite P1, P2, P3, P4, R1, R2, R3, R4. split_and!; try done; lia. }
    destruct Hone as (O1 & O2 & O3 & O4).
    destruct ((i <? n - 1) && String.eqb (r_status res) "success").
    + destruct (delay_manager.wait_between_messages false (delay_manager cm3) e _)
        as [[dm4 exn] s4]. cbn [fst snd].
      destruct exn as [msg |]; cbn [fst snd].
      * pose proof (record_result_effect b "failed" (Some msg) None
                      (with_delay_manager cm3 dm4) e s4 eq_refl) as H5. cbv zeta in H5.
        destruct (_record_result b "failed" (Some msg) None (with_delay_manager cm3 dm4) e s4)
          as [cm5 s5]. cbn [fst snd] in *.
        destruct H5 as (Q1 & Q2 & Q3 & Q4 & _).
        cbn [progress with_delay_manager] in Q1, Q2, Q3, Q4. cbn in Q2, Q3, Q4.
        set (r' := mk_result _ _ _ _ _ _ _) in Q1.
        exists [r; r']. rewrite Q1, O1, <- app_assoc.
        rewrite !count_status_cons. unfold count_status.
        cbn [List.filter length status r r' app].
        split_and!; try done; try lia.
        -- rewrite Q2, O2, count_status_cons. unfold count_status. cbn. lia.
        -- rewrite Q3, O3, count_status_cons. unfold count_status. cbn. lia.
        -- rewrite Q4, O4, count_status_cons. unfold count_status. cbn. lia.
        -- repeat constructor.
        -- repeat constructor. exact Hv.
      * exists [r]. cbn [progress with_delay_manager length].
        split_and!; try done; try lia; repeat constructor. exact Hv.
    + exists [r]. cbn [fst snd length].
      split_and!; try done; try lia; repeat constructor. exact Hv.
  - rewrite (send_iteration_blocked _ _ _ _ _ _ Hg). cbv zeta.
    set (g := gate e s (delay_manager cm)).
    pose proof (record_result_effect b "skipped" g.1.2 None (with_delay_manager cm g.2)
                  e (next_tick s) eq_refl) as H2. cbv zeta in H2.
    destruct (_record_result b "skipped" g.1.2 None (with_delay_manager cm g.2) e (next_tick s))
      as [cm2 s2]. cbn [fst snd] in *.
    destruct H2 as (R1 & R2 & R3 & R4 & _).
    cbn [progress with_delay_manager] in R1, R2, R3, R4. cbn in R2, R3, R4.
    set (r := mk_result _ _ _ _ _ _ _) in R1.
    exists [r]. rewrite !count_status_cons. unfold count_status.
    cbn [List.filter length status r].
    split_and!; try done; try lia; repeat constructor.
Qed.

(** The whole loop: the outcome counters move with the statuses of the
    results it appends. *)
Lemma send_loop_counts bs : ∀ n i cm e s,
  let out := send_loop n i bs cm e s in
  let p := progress cm in
  let p' := progress out.1 in
  ∃ rs, results p' = (results p ++ rs)%list ∧
        sent p' = sent p + count_status "success" rs ∧
        failed p' = failed p + count_status "failed" rs ∧
        skipped p' = skipped p + count_status "skipped" rs ∧
        Forall (λ r, runs.valid_status (status r) = true) rs.
Proof.
  induction bs as [| b rest IH]; intros n i cm e s.
  - cbn. exists []. rewrite app_nil_r. unfold count_status. cbn.
    split_and!; try done; try lia.
  - cbv zeta. rewrite send_loop_cons. cbv zeta.
    pose proof (send_iteration_counts n i b cm e s) as H. cbv zeta in H.
    destruct (send_iteration n i b cm e s) as [[go cm1] s1]. cbn [fst snd] in *.
    destruct H as (rs & Hr & Hs & Hf & Hk & _ & _ & Hv).
    destruct go.
    + specialize (IH n (i + 1) cm1 e s1). cbv zeta in IH.
      destruct IH as (rs' & Hr' & Hs' & Hf' & Hk' & Hv').
      exists (rs ++ rs')%list. rewrite !count_status_app, Hr', Hr, <- app_assoc.
      split_and!; try done; try lia. by apply Forall_app.
    + exists rs. done.
Qed.

(** A result list with valid statuses is as long as its three counts. *)
Lemma count_status_total rs :
  Forall (λ r, runs.valid_status (status r) = true) rs →
  count_status "success" rs + count_status "failed" rs + count_status "skipped" rs
  = Z.of_nat (length rs).
Proof.
  induction 1 as [| r rs Hr _ IH].
  - reflexivity.
  - rewrite !count_status_cons. cbn [length]. unfold runs.valid_status in Hr.
    destruct (String.eqb (status r) "success") eqn:E1.
    { apply String.eqb_eq in E1. rewrite E1. cbn. lia. }
    destruct (String.eqb (status r) "failed") eqn:E2.
    { apply String.eqb_eq in E2. rewrite E2. cbn. lia. }
    destruct (String.eqb (status r) "skipped") eqn:E3; [| discriminate].
    lia.
Qed.

(** The loop when no wait can raise: one result per recipient, in list
    order, up to and including the one the rate limit refuses. *)
Lemma send_loop_trace bs : ∀ n i cm e s,
  waits_return (delay_manager.config (delay_manager cm)) →
  let out := send_loop n i bs cm e s in
  let p := progress cm in
  let p' := progress out.1 in
  same_setup out.1 cm ∧
  ∃ (j : nat) (stopped : bool) (rs : list MessageResult),
    (if stopped then (j < length bs)%nat else j = length bs) ∧
    processed p' = processed p + Z.of_nat j ∧
    skipped p' = skipped p + (if stopped then 1 else 0) ∧
    sent p' = sent p + count_status "success" rs ∧
    failed p' = failed p + count_status "failed" rs ∧
    results p' = (results p ++ rs)%list ∧
    runs.result_recipients rs
    = runs.recipients (take (j + (if stopped then 1 else 0))%nat bs) ∧
    Forall attempted (take j rs) ∧
    Forall (λ r, status r = "skipped") (drop j rs).
Proof.
  induction bs as [| b rest IH]; intros n i cm e s Hw.
  - cbn. split; [apply same_setup_refl |].
    exists 0%nat, false, []. cbn. rewrite app_nil_r.
    unfold count_status. cbn. split_and!; try done; lia.
  - cbv zeta. rewrite send_loop_cons. cbv zeta.
    pose proof (send_iteration_effect n i b cm e s (or_intror Hw)) as H. cbv zeta in H.
    destruct (send_iteration n i b cm e s) as [[go cm1] s1]. cbn [fst snd] in *.
    destruct H as (Hset & Hgo & (r & Hr & Hn & Hp & _ & Hcase) & _).
    rewrite <- Hgo in Hcase. destruct go.
    + destruct Hcase as (Hst & Hs & Hf & Hsk & Hpr & _).
      assert (Hw1 : waits_return (delay_manager.config (delay_manager cm1))).
      { destruct Hset as (_ & _ & -> & _). exact Hw. }
      specialize (IH n (i + 1) cm1 e s1 Hw1). cbv zeta in IH.
      destruct IH as (Hset' & j & stopped & rs & Hj & Hpr' & Hsk' & Hs' & Hf' & Hres' & Hrec' & Hatt & Hskp).
      split; [eapply same_setup_trans; eassumption |].
      exists (S j), stopped, (r :: rs). split_and!.
      * destruct stopped; cbn; lia.
      * lia.
      * lia.
      * rewrite count_status_cons. lia.
      * rewrite count_status_cons. lia.
      * rewrite Hres', Hr, <- app_assoc. reflexivity.
      * unfold runs.result_recipients, runs.recipients in *. cbn.
        rewrite Hrec', Hn, Hp. reflexivity.
      * cbn. constructor; assumption.
      * cbn. assumption.
    + destruct Hcase as (Hst & _ & Hs & Hf & Hsk & Hpr & _).
      split; [assumption |].
      exists 0%nat, true, [r]. cbn. rewrite !count_status_cons, Hst.
      unfold count_status. cbn. split_and!; try done; try lia.
      * unfold runs.result_recipients, runs.recipients. cbn.
        rewrite Hn, Hp. reflexivity.
      * constructor; [assumption | constructor].
Qed.

End facts_p6.

(* ===================================================================== *)
(** ** Loop invariants and the bucket roll-over *)
(* ===================================================================== *)

Section facts_p7.
Import campaign_manager.

(** Any property of manager and world that one pass through the loop body
    keeps is kept by the whole loop. *)
Lemma send_loop_invariant (P : CampaignManager → Sys → Prop) (n : Z) (e : Env) :
  (∀ i b cm s, P cm s →
     P (send_iteration n i b cm e s).1.2 (send_iteration n i b cm e s).2) →
  ∀ bs i cm s, P cm s → P (send_loop n i bs cm e s).1 (send_loop n i bs cm e s).2.
Proof.
  intros Hstep bs. induction bs as [| b rest IH]; intros i cm s HP.
  - exact HP.
  - rewrite send_loop_cons. cbv zeta.
    specialize (Hstep i b cm s HP).
    destruct (send_iteration n i b cm e s) as [[go cm1] s1]. cbn [fst snd] in *.
    destruct go; [apply IH; exact Hstep | exact Hstep].
Qed.

Lemma send_messages_eq (bs : list business.Business) (cm : CampaignManager) (e : Env) (s : Sys) :
  _send_messages bs cm e s
  = let r := send_loop (Z.of_nat (length bs)) 0 bs
               (with_progress cm (set_start_time (Some (clock e (tick s))) (progress cm)))
               e (next_tick s) in
    let cm2 := with_progress r.1 (set_end_time (Some (clock e (tick r.2))) (progress r.1)) in
    (cm2, mk_sys (S (tick r.2)) (sleeps r.2) (save_progress_files cm2 (fs r.2))).
Proof.
  unfold _send_messages, _save_progress.
  unfold mbind, mret, M_bind, M_ret, world.bind, world.ret, now, modify_files.
  cbn [fst snd].
  destruct (send_loop _ _ _ _ _ _) as [cm1 s1]. reflexivity.
Qed.

Section gate_facts.
Import delay_manager.

Lemma gate_config e s dm : config (gate e s dm).2 = config dm.
Proof. reflexivity. Qed.

(** With both limits switched off [can_send_message] never refuses. *)
Lemma gate_open e s dm :
  enable_daily_limit (config dm) = false →
  enable_hourly_limit (config dm) = false →
  (gate e s dm).1 = (true, None).
Proof.
  intros Hd Hh. unfold gate, can_send_message_at, check_limits. cbn [fst]. by rewrite Hd, Hh.
Qed.

Lemma roll_batch_fields d h st :
  let st' := roll_hour h (roll_date d st) in
  total_sent st' = total_sent st ∧
  messages_since_batch_delay st' = messages_since_batch_delay st ∧
  next_batch_delay_at st' = next_batch_delay_at st ∧
  last_batch_delay_time st' = last_batch_delay_time st ∧
  last_message_time st' = last_message_time st ∧
  hourly_counts st' = hourly_counts st ∧ daily_counts st' = daily_counts st ∧
  (sent_today st' = sent_today st ∨ sent_today st' = 0) ∧
  (sent_this_hour st' = sent_this_hour st ∨ sent_this_hour st' = 0) ∧
  current_date st' = Some d ∧ current_hour st' = Some h.
Proof.
  unfold roll_hour, roll_date.
  destruct (bool_decide (current_date st = Some d)) eqn:E1;
    [apply bool_decide_eq_true_1 in E1 | clear E1];
    cbn [current_hour set_sent_today set_current_date].
  all: match goal with |- context [bool_decide (?x = Some ?y)] =>
         destruct (bool_decide (x = Some y)) eqn:E2;
           [apply bool_decide_eq_true_1 in E2 | clear E2]
       end; cbn; split_and!; auto.
Qed.

Lemma roll_current d h st :
  current_date st = Some d → current_hour st = Some h →
  roll_hour h (roll_date d st) = st.
Proof.
  intros H1 H2. unfold roll_hour, roll_date.
  rewrite (bool_decide_eq_true_2 _ H1), (bool_decide_eq_true_2 _ H2). reflexivity.
Qed.

End gate_facts.

End facts_p7.

(* ===================================================================== *)
(** ** The delay manager across one pass *)
(* ===================================================================== *)

Section facts_p8.
Import campaign_manager.


Section delays_off.
Import delay_manager.

Lemma send_iteration_delays_off n i b cm e s :
  enable_delays (config (campaign_manager.delay_manager cm)) = false →
  let out := send_iteration n i b cm e s in
  sleeps out.2 = sleeps s ∧
  batch_state_kept (stats (campaign_manager.delay_manager cm))
    (stats (campaign_manager.delay_manager out.1.2)).
Proof.
  intros Hoff. cbv zeta.
  pose proof (roll_batch_fields (strftime_date (clock e (tick s))) (hour (clock e (tick s)))
                (stats (campaign_manager.delay_manager cm))) as Hroll. cbv zeta in Hroll.
  destruct Hroll as (G1 & G2 & G3 & G4 & _).
  destruct ((gate e s (campaign_manager.delay_manager cm)).1.1) eqn:Hg.
  - rewrite (send_iteration_returns n i b cm e s (or_introl Hoff) Hg). cbv zeta.
    set (cm0 := with_delay_manager cm (gate e s (campaign_manager.delay_manager cm)).2).
    assert (Hdm : enable_delays (config (campaign_manager.delay_manager
                    (_send_single_message b cm0 e (next_tick s)).1.2)) = false ∧
              batch_state_kept (stats (campaign_manager.delay_manager cm))
                (stats (campaign_manager.delay_manager
                    (_send_single_message b cm0 e (next_tick s)).1.2))).
    { destruct (compose_text e (tick (next_tick s)) b) as [m | msg] eqn:Hc.
      2: { rewrite (send_single_compose_raises _ _ _ _ _ Hc). cbn.
           unfold batch_state_kept. split; [exact Hoff | split_and!; try done; lia]. }
      destruct (dry_run cm0) eqn:Hd.
      { rewrite (send_single_dry_run _ _ _ _ _ Hc Hd). cbn.
        unfold batch_state_kept. split; [exact Hoff | split_and!; try done; lia]. }
      destruct (transport e (S (tick (next_tick s))) (business.phone b) m)
        as [ok err | msg] eqn:Ht.
      - rewrite (send_single_sent _ _ _ _ _ _ _ Hc Hd Ht). cbn.
        unfold batch_state_kept. split; [exact Hoff |]. cbn. split_and!; try done. lia.
      - rewrite (send_single_raises _ _ _ _ _ _ Hc Hd Ht). cbn.
        unfold batch_state_kept. split; [exact Hoff | split_and!; try done; lia]. }
    pose proof (send_single_effect b cm0 e (next_tick s)) as H1. cbv zeta in H1.
    destruct (_send_single_message b cm0 e (next_tick s)) as [[res cm1] s1].
    cbn [fst snd] in *.
    destruct H1 as (Hst & _ & _ & _ & _ & _ & _ & Hsl & _).
    destruct Hdm as [Hoff1 Hkept].
    assert (Hv : runs.valid_status (r_status res) = true).
    { unfold runs.valid_status. destruct Hst as [-> | ->]; reflexivity. }
    pose proof (record_result_effect b (r_status res) (r_error res) (r_message res)
                  cm1 e s1 Hv) as H2. cbv zeta in H2.
    destruct (_record_result b (r_status res) (r_error res) (r_message res) cm1 e s1)
      as [cm2 s2]. cbn [fst snd] in *.
    destruct H2 as (_ & _ & _ & _ & _ & _ & _ & _ & _ & R10 & _ & _ & _ & R14 & _).
    match goal with
    | |- context [if ?c then mk_sys ?a ?b ?d else s2] =>
        set (s3 := if c then mk_sys a b d else s2)
    end.
    assert (Hs3 : sleeps s3 = sleeps s).
    { change (sleeps (next_tick s)) with (sleeps s) in Hsl.
      unfold s3. destruct (_ =? 0); cbn; congruence. }
    destruct ((i <? n - 1) && String.eqb (r_status res) "success").
    + cbn [campaign_manager.delay_manager with_progress].
      rewrite R10, (wait_disabled _ e s3 Hoff1). cbn. split; [exact Hs3 | exact Hkept].
    + cbn. rewrite R10. split; [exact Hs3 | exact Hkept].
  - pose proof (send_iteration_effect n i b cm e s (or_introl Hg)) as H. cbv zeta in H.
    destruct H as (_ & _ & (r & _ & _ & _ & _ & Hcase) & _).
    rewrite Hg in Hcase. destruct Hcase as (_ & _ & _ & _ & _ & _ & _ & Hdm & Hsl & _).
    rewrite Hdm. split; [exact Hsl |].
    unfold batch_state_kept. cbn. split_and!; try done. lia.
Qed.

End delays_off.

End facts_p8.

(* ===================================================================== *)
(** ** What [_send_messages] records *)
(* ===================================================================== *)

Section facts_p9.
Import campaign_manager.

Lemma send_messages_trace (bs : list business.Business) (cm : CampaignManager)
    (e : Env) (s : Sys) :
  waits_return (delay_manager.config (delay_manager cm)) →
  let out := _send_messages bs cm e s in
  let p := progress cm in
  let p' := progress out.1 in
  same_setup out.1 cm ∧
  ∃ (j : nat) (stopped : bool) (rs : list MessageResult),
    (if stopped then (j < length bs)%nat else j = length bs) ∧
    processed p' = processed p + Z.of_nat j ∧
    skipped p' = skipped p + (if stopped then 1 else 0) ∧
    sent p' = sent p + count_status "success" rs ∧
    failed p' = failed p + count_status "failed" rs ∧
    results p' = (results p ++ rs)%list ∧
    runs.result_recipients rs
    = runs.recipients (take (j + (if stopped then 1 else 0))%nat bs) ∧
    Forall attempted (take j rs) ∧
    Forall (λ r, status r = "skipped") (drop j rs).
Proof.
  intros Hw. cbv zeta. rewrite send_messages_eq. cbv zeta. cbn [fst snd].
  set (cm0 := with_progress cm _).
  pose proof (send_loop_trace bs (Z.of_nat (length bs)) 0 cm0 e (next_tick s) Hw) as H.
  cbv zeta in H. destruct H as (Hset & j & stopped & rs & H).
  split.
  - unfold same_setup in *. cbn. unfold cm0 in Hset. cbn in Hset. exact Hset.
  - exists j, stopped, rs. unfold cm0 in H. cbn in H. cbn. exact H.
Qed.

(** Over a whole [_send_messages], whichever way its passes end, the
    outcome counters move with the statuses of the results it appends. *)
Lemma send_messages_counts (bs : list business.Business) (cm : CampaignManager)
    (e : Env) (s : Sys) :
  let out := _send_messages bs cm e s in
  let p := progress cm in
  let p' := progress out.1 in
  ∃ rs, results p' = (results p ++ rs)%list ∧
        sent p' = sent p + count_status "success" rs ∧
        failed p' = failed p + count_status "failed" rs ∧
        skipped p' = skipped p + count_status "skipped" rs ∧
        Forall (λ r, runs.valid_status (status r) = true) rs.
Proof.
  cbv zeta. rewrite send_messages_eq. cbv zeta. cbn [fst snd].
  set (cm0 := with_progress cm _).
  pose proof (send_loop_counts bs (Z.of_nat (length bs)) 0 cm0 e (next_tick s)) as H.
  cbv zeta in H. destruct H as (rs & H).
  exists rs. unfold cm0 in H. cbn in H. cbn. exact H.
Qed.

End facts_p9.

(* ===================================================================== *)
(** ** Daily limit *)
(* ===================================================================== *)

Section facts_c2.
Import delay_manager.

Lemma record_many_effect (n : nat) : ∀ dm e s,
  let out := runs.record_many n dm e s in
  config out.1 = config dm ∧ stats_file out.1 = stats_file dm ∧
  total_sent (stats out.1) = total_sent (stats dm) + Z.of_nat n ∧
  sent_today (stats out.1) = sent_today (stats dm) + Z.of_nat n ∧
  sent_this_hour (stats out.1) = sent_this_hour (stats dm) + Z.of_nat n ∧
  messages_since_batch_delay (stats out.1)
    = messages_since_batch_delay (stats dm) + Z.of_nat n ∧
  next_batch_delay_at (stats out.1) = next_batch_delay_at (stats dm) ∧
  current_date (stats out.1) = current_date (stats dm) ∧
  current_hour (stats out.1) = current_hour (stats dm) ∧
  tick out.2 = (tick s + n)%nat ∧ sleeps out.2 = sleeps s.
Proof.
  induction n as [| n IH]; intros dm e s.
  - cbn. split_and!; try done; lia.
  - cbn [runs.record_many]. unfold record_message_sent. munfold. cbn [fst snd].
    specialize (IH (with_stats dm (record_message_sent_at (clock e (tick s)) (stats dm))) e
      {| tick := S (tick s); sleeps := sleeps s;
         fs := _save_stats (with_stats dm (record_message_sent_at (clock e (tick s)) (stats dm))) (fs s) |}).
    cbv zeta in IH. cbn in IH. cbn.
    destruct IH as (? & ? & ? & ? & ? & ? & ? & ? & ? & ? & ?).
    split_and!; try done; lia.
Qed.

Lemma load_stats_nothing file fs dm :
  stats_file dm = path_of file → nothing_to_load file fs → _load_stats fs dm = dm.
Proof.
  intros Hf H. unfold _load_stats, nothing_to_load, path_of in *. rewrite Hf.
  destruct file as [path |]; cbn; [| done].
  destruct (truthy path); [| done].
  destruct H as [-> | ->]; done.
Qed.

(** The constructor on a configuration whose batch range is not empty,
    with no statistics to load. *)
Lemma init_effect cfg file e s :
  (messages_per_batch cfg).1 ≤ (messages_per_batch cfg).2 →
  nothing_to_load file (fs s) →
  init (Some cfg) file e s
  = (inl (mk_delay_manager cfg
            (set_next_batch_delay_at
               (randint_draw e (tick s) (messages_per_batch cfg).1 (messages_per_batch cfg).2)
               default_stats)
            (path_of file)),
     next_tick s).
Proof.
  intros Hr H. unfold init. munfold. cbn [default].
  rewrite (load_stats_nothing file) by done.
  unfold _reset_batch_threshold, randint. munfold. cbn.
  destruct (messages_per_batch cfg) as [lo hi]. cbn in *.
  by rewrite (proj2 (Z.leb_le lo hi) Hr).
Qed.

(** C2, the code at the failing input.  A manager that starts without
    readable statistics has no day bucket yet; after [n] recorded sends,
    [n] being the daily maximum, [can_send_message] takes the missing
    bucket for a new day, resets the counters and allows the next send:
    the answer is [(True, None)] where tests/test_delay_manager.py
    ([test_daily_limit]) and the claim expect the daily limit.  (The
    batch range of the configuration is not empty, so that the constructor
    returns.) *)
Theorem new_manager_forgets_sends (cfg : RateLimitConfig) (file : option string)
    (n : nat) (e : Env) (s : Sys) :
  (messages_per_batch cfg).1 ≤ (messages_per_batch cfg).2 →
  nothing_to_load file (fs s) →
  enable_daily_limit cfg = true →
  max_messages_per_day cfg = Z.of_nat n →
  (0 < n)%nat →
  enable_hourly_limit cfg = false ∨ 0 < max_messages_per_hour cfg →
  (runs.sends_then_ask cfg file n e s).1 = inl (true, None).
Proof.
  intros Hrange Hfile Hday Hmax Hn Hhour.
  unfold runs.sends_then_ask. munfold.
  rewrite (init_effect cfg file e s Hrange Hfile).
  set (dm0 := mk_delay_manager cfg _ _). set (s0 := next_tick s).
  assert (Hc0 : config dm0 = cfg) by reflexivity.
  assert (Hs0 : stats dm0 = set_next_batch_delay_at
                  (randint_draw e (tick s) (messages_per_batch cfg).1
                     (messages_per_batch cfg).2) default_stats) by reflexivity.
  clearbody dm0 s0.
  pose proof (record_many_effect n dm0 e s0) as Hr. cbv zeta in Hr.
  destruct (runs.record_many n dm0 e s0) as [dm1 s1]. cbn [fst snd] in Hr.
  destruct Hr as (Hc1 & _ & _ & _ & _ & _ & _ & Hd1 & Hh1 & _).
  unfold can_send_message. munfold. cbn [fst snd].
  unfold can_send_message_at. cbn [fst snd].
  rewrite Hs0 in Hd1, Hh1. cbn in Hd1, Hh1.
  unfold roll_date. rewrite Hd1. cbn [bool_decide decide_rel].
  rewrite bool_decide_eq_false_2 by done.
  unfold roll_hour. cbn [current_hour set_sent_today set_current_date].
  rewrite Hh1. rewrite bool_decide_eq_false_2 by done.
  unfold check_limits. cbn. rewrite Hc1, Hc0, Hday, Hmax.
  replace (Z.of_nat n <=? 0) with false by (symmetry; apply Z.leb_gt; lia).
  cbn. destruct Hhour as [-> | Hpos]; [done |].
  replace (max_messages_per_hour cfg <=? 0) with false by (symmetry; apply Z.leb_gt; lia).
  by rewrite andb_false_r.
Qed.

(** C2: the fixture of [test_daily_limit], ten sends against a daily
    maximum of ten. *)
Lemma new_manager_forgets_sends_witness :
  (runs.sends_then_ask test_config (Some "stats.json") 10 steady_env
     (mk_sys 0 [] {["stats.json" := Unparsable]})).1 = inl (true, None).
Proof.
  apply new_manager_forgets_sends.
  - cbn. lia.
  - right. reflexivity.
  - reflexivity.
  - reflexivity.
  - lia.
  - right. reflexivity.
Defined.

End facts_c2.

(* ===================================================================== *)
(** ** Persistence: saving and loading *)
(* ===================================================================== *)

Section facts_c6.

Lemma isoformat_truthy d : truthy (isoformat d) = true.
Proof. reflexivity. Qed.

Lemma path_of_named (path : string) : path ≠ "" → path_of (Some path) = Some path.
Proof.
  intros H. unfold path_of, opt_truthy, truthy.
  destruct (String.eqb path "") eqn:E; [| reflexivity].
  by apply String.eqb_eq in E.
Qed.

Lemma write_json_lookup path data fs : write_json path data fs !! path = Some (JsonObject data).
Proof.
  unfold write_json, write_steps, run_steps, open_w, json_dump. cbn.
  by rewrite lookup_insert_eq.
Qed.

Section progress_round_trip.
Import campaign_manager.

Lemma load_saved_progress (p q : CampaignProgress) :
  valid_time (start_time p) = true →
  try_steps (load_progress_steps (progress_data p)) q
  = mk_progress (total_businesses q) (processed p) (sent p) (failed p) (skipped p)
      (match start_time p with Some d => Some d | None => start_time q end)
      (end_time q) (last_processed_index p) (results q).
Proof.
  intros Hv. unfold load_progress_steps, progress_data, get_int, get_str.
  cbn [try_steps].
  repeat (rewrite ?lookup_insert_eq, ?lookup_insert_ne by done; cbn [mbind option_bind try_steps]).
  destruct (start_time p) as [d |];
    cbn [json_of_time mbind option_bind opt_truthy or_else].
  - rewrite !isoformat_truthy. cbn in Hv. rewrite (fromisoformat_isoformat d Hv). reflexivity.
  - reflexivity.
Qed.

End progress_round_trip.

Section stats_round_trip.
Import delay_manager.

Lemma load_saved_stats (st q : SendingStats) :
  valid_time (last_message_time st) = true →
  valid_time (last_batch_delay_time st) = true →
  try_steps (load_stats_steps (stats_data st)) q
  = mk_stats (total_sent st) (sent_today st) (sent_this_hour st)
      (match last_message_time st with Some d => Some d | None => last_message_time q end)
      (match last_batch_delay_time st with
       | Some d => Some d
       | None => last_batch_delay_time q
       end)
      (messages_since_batch_delay st) (next_batch_delay_at st)
      (current_date st) (current_hour st) (hourly_counts st) (daily_counts st).
Proof.
  intros Hv1 Hv2.
  unfold load_stats_steps, stats_data, load_time, get_int, get_str, get_opt_int, get_counts.
  cbn [try_steps].
  repeat (rewrite ?lookup_insert_eq, ?lookup_insert_ne by done; cbn [mbind option_bind try_steps]).
  destruct st as [a b c lm lb f g cd ch hc dc].
  cbn [total_sent sent_today sent_this_hour last_message_time last_batch_delay_time
       messages_since_batch_delay next_batch_delay_at current_date current_hour
       hourly_counts daily_counts] in *.
  destruct lm as [d1 |], lb as [d2 |], cd as [x |], ch as [y |];
    cbn [valid_time] in Hv1, Hv2;
    repeat (cbn [json_of_time json_of_opt_str json_of_opt_int mbind option_bind
                 opt_truthy or_else try_steps];
            rewrite ?isoformat_truthy, ?(fromisoformat_isoformat _ Hv1),
              ?(fromisoformat_isoformat _ Hv2));
    reflexivity.
Qed.

End stats_round_trip.

Section persistence.
Import campaign_manager.

(** C6 (amended).  Saving progress and statistics and loading them into
    new managers gives back every persisted field: the statistics come
    back whole, and of the progress the four counters, the index and the
    start time; [total_businesses], [end_time] and the results are not in
    the file and are back at their defaults.  (The two files are named:
    a manager given an empty path has no file.) *)
Theorem save_load_round_trip (cm : CampaignManager) (dm : delay_manager.DelayManager)
    (pfile sfile : string) (files0 : files) :
  progress_file cm = Some pfile →
  delay_manager.stats_file dm = Some sfile →
  pfile ≠ sfile → pfile ≠ "" → sfile ≠ "" →
  valid_time (start_time (progress cm)) = true →
  valid_time (delay_manager.last_message_time (delay_manager.stats dm)) = true →
  valid_time (delay_manager.last_batch_delay_time (delay_manager.stats dm)) = true →
  let saved := delay_manager._save_stats dm (save_progress_files cm files0) in
  progress (_load_progress saved (new_manager dm (Some pfile) (dry_run cm)))
  = persisted (progress cm) ∧
  delay_manager.stats
    (delay_manager._load_stats saved (new_delay_manager (delay_manager.config dm) (Some sfile)))
  = delay_manager.stats dm.
Proof.
  intros Hp Hs Hne Hpn Hsn Hv1 Hv2 Hv3. cbv zeta.
  unfold _load_progress, delay_manager._load_stats, delay_manager._save_stats,
    save_progress_files, new_manager, new_delay_manager.
  cbn [progress_file delay_manager.stats_file].
  rewrite Hp, Hs, (path_of_named pfile Hpn), (path_of_named sfile Hsn).
  split.
  - unfold write_json at 1. unfold write_steps, run_steps, open_w, json_dump.
    cbn [fold_left]. rewrite !lookup_insert_ne by done.
    rewrite write_json_lookup. cbn [with_progress progress].
    rewrite load_saved_progress by done.
    unfold persisted. cbn. by destruct (start_time (progress cm)).
  - rewrite write_json_lookup. cbn [delay_manager.with_stats delay_manager.stats].
    rewrite load_saved_stats by done.
    destruct (delay_manager.stats dm) as [a b c lm lb f g cd ch hc dc]. cbn.
    by destruct lm, lb.
Qed.

(** C6: a progress with one result and statistics with one send. *)
Lemma save_load_round_trip_witness :
  let saved := delay_manager._save_stats a_delay_manager (save_progress_files a_manager ∅) in
  progress (_load_progress saved (new_manager a_delay_manager (Some "progress.json") false))
  = persisted a_progress ∧
  delay_manager.stats
    (delay_manager._load_stats saved
       (new_delay_manager delay_manager.default_config (Some "stats.json")))
  = a_stats.
Proof.
  apply (save_load_round_trip a_manager a_delay_manager "progress.json" "stats.json" ∅);
    try reflexivity; discriminate.
Defined.

(** C6 as stated fails: the loaded progress is not the saved one, since
    the results (and the size of the run) are not in the file. *)
Lemma loaded_progress_differs :
  progress (_load_progress (save_progress_files a_manager ∅)
              (new_manager a_delay_manager (Some "progress.json") false))
  ≠ a_progress.
Proof.
  intros H.
  assert (H' : results (progress (_load_progress (save_progress_files a_manager ∅)
              (new_manager a_delay_manager (Some "progress.json") false)))
               = results a_progress) by (by rewrite H).
  vm_compute in H'. discriminate H'.
Qed.

End persistence.

End facts_c6.

(* ===================================================================== *)
(** ** Persistence: interrupted writes *)
(* ===================================================================== *)

Section facts_c7.
Import campaign_manager.

Lemma interrupted_write_lookup (k : nat) (path : string) (data : gmap string json) (fs0 : files) :
  runs.interrupted_write k path data fs0 !! path
  = match k with
    | O => fs0 !! path
    | S O => Some Unparsable
    | _ => Some (JsonObject data)
    end.
Proof.
  unfold runs.interrupted_write, write_steps, run_steps, open_w, json_dump.
  destruct k as [| [| k]]; cbn.
  - reflexivity.
  - by rewrite lookup_insert_eq.
  - destruct k; cbn; by rewrite lookup_insert_eq.
Qed.

Lemma interrupted_write_complete (k : nat) path data fs0 :
  (2 <= k)%nat → runs.interrupted_write k path data fs0 = write_json path data fs0.
Proof.
  intros Hk. unfold runs.interrupted_write, write_json.
  destruct k as [| [| k]]; [lia | lia |]. by destruct k.
Qed.

(** C7 (amended).  A save is the two steps of a write in place: the file
    is opened, which truncates it, then the document is dumped.  A write
    that did not start leaves the file as it was; a write cut short after
    the first step leaves a file that does not parse, and the next load
    keeps the defaults (no prior progress); only a completed write is read
    back.  No temporary file or rename is involved.  (The two files are
    named: a manager given an empty path has no file.) *)
Theorem save_is_not_atomic (k : nat) (cm : CampaignManager) (dm : delay_manager.DelayManager)
    (pfile sfile : string) (fs0 : files) :
  progress_file cm = Some pfile →
  delay_manager.stats_file dm = Some sfile →
  pfile ≠ "" → sfile ≠ "" →
  valid_time (start_time (progress cm)) = true →
  valid_time (delay_manager.last_message_time (delay_manager.stats dm)) = true →
  valid_time (delay_manager.last_batch_delay_time (delay_manager.stats dm)) = true →
  let fresh_cm := new_manager dm (Some pfile) (dry_run cm) in
  let fresh_dm := new_delay_manager (delay_manager.config dm) (Some sfile) in
  let p_cut := runs.interrupted_write k pfile (progress_data (progress cm)) fs0 in
  let s_cut := runs.interrupted_write k sfile
                 (delay_manager.stats_data (delay_manager.stats dm)) fs0 in
  save_progress_files cm fs0
    = runs.interrupted_write 2 pfile (progress_data (progress cm)) fs0 ∧
  delay_manager._save_stats dm fs0
    = runs.interrupted_write 2 sfile (delay_manager.stats_data (delay_manager.stats dm)) fs0 ∧
  match k with
  | O => _load_progress p_cut fresh_cm = _load_progress fs0 fresh_cm ∧
         delay_manager._load_stats s_cut fresh_dm = delay_manager._load_stats fs0 fresh_dm
  | S O => _load_progress p_cut fresh_cm = fresh_cm ∧
           delay_manager._load_stats s_cut fresh_dm = fresh_dm
  | _ => progress (_load_progress p_cut fresh_cm) = persisted (progress cm) ∧
         delay_manager.stats (delay_manager._load_stats s_cut fresh_dm)
         = delay_manager.stats dm
  end.
Proof.
  intros Hp Hs Hpn Hsn Hv1 Hv2 Hv3. cbv zeta.
  split; [unfold save_progress_files; by rewrite Hp |].
  split; [unfold delay_manager._save_stats; by rewrite Hs |].
  unfold _load_progress, delay_manager._load_stats, new_manager, new_delay_manager.
  cbn [progress_file delay_manager.stats_file].
  rewrite (path_of_named pfile Hpn), (path_of_named sfile Hsn).
  rewrite !interrupted_write_lookup.
  destruct k as [| [| k]]; [done | done |].
  cbn [with_progress progress delay_manager.with_stats delay_manager.stats].
  rewrite load_saved_progress, load_saved_stats by done.
  split.
  - unfold persisted. cbn. by destruct (start_time (progress cm)).
  - destruct (delay_manager.stats dm) as [a b c lm lb f g cd ch hc dc]. cbn.
    by destruct lm, lb.
Qed.

(** C7: a save cut short on an empty file system. *)
Lemma save_is_not_atomic_witness :
  _load_progress
    (runs.interrupted_write 1 "progress.json" (progress_data a_progress) ∅)
    (new_manager a_delay_manager (Some "progress.json") false)
  = new_manager a_delay_manager (Some "progress.json") false ∧
  delay_manager._load_stats
    (runs.interrupted_write 1 "stats.json" (delay_manager.stats_data a_stats) ∅)
    (new_delay_manager delay_manager.default_config (Some "stats.json"))
  = new_delay_manager delay_manager.default_config (Some "stats.json").
Proof.
  refine (proj2 (proj2 (save_is_not_atomic 1 a_manager a_delay_manager
                          "progress.json" "stats.json" ∅
                          eq_refl eq_refl _ _ eq_refl eq_refl eq_refl))); discriminate.
Defined.

(** C7 as stated fails: after a save cut short once the file was opened,
    the next load sees neither the state saved before nor the state being
    saved. *)
Lemma interrupted_save_loses_old_state :
  let before := save_progress_files a_manager ∅ in
  let cut := runs.interrupted_write 1 "progress.json" (progress_data b_progress) before in
  let fresh := new_manager a_delay_manager (Some "progress.json") false in
  progress (_load_progress before fresh) = persisted a_progress ∧
  progress (_load_progress cut fresh) ≠ persisted a_progress ∧
  progress (_load_progress cut fresh) ≠ persisted b_progress.
Proof.
  cbv zeta. split; [| split].
  - vm_compute. reflexivity.
  - intros H. apply (f_equal processed) in H. vm_compute in H. discriminate H.
  - intros H. apply (f_equal processed) in H. vm_compute in H. discriminate H.
Qed.

End facts_c7.

(* ===================================================================== *)
(** ** Counters and results *)
(* ===================================================================== *)

Section facts_c8.
Import campaign_manager.

Lemma call_results_length (e : Env) (calls : list runs.RecordCall) :
  ∀ t, length (runs.call_results e t calls) = length calls.
Proof. induction calls as [| c rest IH]; intros t; cbn; [| rewrite IH]; reflexivity. Qed.

(** A call with one of the three statuses is counted under exactly one. *)
Lemma count_calls_total (calls : list runs.RecordCall) :
  Forall (λ c, runs.valid_status (runs.call_status c) = true) calls →
  runs.count_calls "success" calls + runs.count_calls "failed" calls
    + runs.count_calls "skipped" calls = Z.of_nat (length calls).
Proof.
  induction 1 as [| c rest Hc _ IH]; [reflexivity |].
  cbn [runs.count_calls length]. unfold runs.valid_status in Hc.
  destruct (String.eqb (runs.call_status c) "success") eqn:E1.
  - apply String.eqb_eq in E1. rewrite E1. cbn. lia.
  - destruct (String.eqb (runs.call_status c) "failed") eqn:E2.
    + apply String.eqb_eq in E2. rewrite E2. cbn. lia.
    + destruct (String.eqb (runs.call_status c) "skipped"); [lia | discriminate].
Qed.

(** C8 (amended).  Every [_record_result] call with status ['success'],
    ['failed'] or ['skipped'] appends exactly one result, the one of its
    arguments, at the end of the list, and increments exactly one of the
    three counters, the one of its status: after any sequence of calls the
    results are the old ones followed by one result per call, in the order
    of the calls, and each counter has grown by the number of calls made
    with its status.  So the difference between [sent + failed + skipped]
    and the number of results never changes; the two are equal in every
    run that starts from a new [CampaignProgress] (in a resumed run the
    counters come back from the file, the results do not). *)
Theorem record_result_keeps_balance (calls : list runs.RecordCall) :
  ∀ (cm : CampaignManager) (e : Env) (s : Sys),
  Forall (λ c, runs.valid_status (runs.call_status c) = true) calls →
  let p := progress cm in
  let p' := progress (runs.record_all calls cm e s).1 in
  results p' = (results p ++ runs.call_results e (tick s) calls)%list ∧
  length (runs.call_results e (tick s) calls) = length calls ∧
  sent p' = sent p + runs.count_calls "success" calls ∧
  failed p' = failed p + runs.count_calls "failed" calls ∧
  skipped p' = skipped p + runs.count_calls "skipped" calls ∧
  runs.count_calls "success" calls + runs.count_calls "failed" calls
    + runs.count_calls "skipped" calls = Z.of_nat (length calls) ∧
  length (results p') = (length (results p) + length calls)%nat ∧
  sent p' + failed p' + skipped p'
    = sent p + failed p + skipped p + Z.of_nat (length calls) ∧
  (runs.counters_match_results p → runs.counters_match_results p') ∧
  runs.counters_match_results default_progress.
Proof.
  intros cm e s Hall. cbv zeta.
  pose proof (count_calls_total calls Hall) as Htotal.
  assert (H : results (progress (runs.record_all calls cm e s).1)
              = (results (progress cm) ++ runs.call_results e (tick s) calls)%list ∧
              sent (progress (runs.record_all calls cm e s).1)
              = sent (progress cm) + runs.count_calls "success" calls ∧
              failed (progress (runs.record_all calls cm e s).1)
              = failed (progress cm) + runs.count_calls "failed" calls ∧
              skipped (progress (runs.record_all calls cm e s).1)
              = skipped (progress cm) + runs.count_calls "skipped" calls).
  { clear Htotal. revert cm s.
    induction Hall as [| c rest Hc _ IH]; intros cm s.
    - cbn. rewrite app_nil_r. split_and!; try done; lia.
    - cbn [runs.record_all runs.call_results runs.count_calls].
      unfold mbind, M_bind, world.bind.
      pose proof (record_result_effect (runs.call_business c) (runs.call_status c)
                    (runs.call_error c) (runs.call_message c) cm e s Hc) as H.
      cbv zeta in H.
      destruct (_record_result _ _ _ _ cm e s) as [cm1 s1]. cbn [fst snd] in H.
      destruct H as (R1 & R2 & R3 & R4 & _ & _ & _ & _ & _ & _ & _ & _ & R13 & _).
      destruct (IH cm1 s1) as (I1 & I2 & I3 & I4).
      rewrite I1, I2, I3, I4, R1, R2, R3, R4, R13.
      split_and!; try lia.
      rewrite <- app_assoc. reflexivity. }
  destruct H as (H1 & H2 & H3 & H4).
  pose proof (call_results_length e calls (tick s)) as Hlen.
  assert (L : length (results (progress (runs.record_all calls cm e s).1))
              = (length (results (progress cm)) + length calls)%nat).
  { rewrite H1, length_app, Hlen. reflexivity. }
  split_and!; try done; try lia.
  unfold runs.counters_match_results. intros Hm. rewrite L. lia.
Qed.

(** C8: three calls, one per status, on a new manager. *)
Lemma record_result_keeps_balance_witness :
  let p' := progress (runs.record_all
                        [runs.mk_call a_business "success" None (Some "Hi");
                         runs.mk_call a_business "failed" (Some "timeout") None;
                         runs.mk_call a_business "skipped" (Some "Daily limit") None]
                        (new_manager a_delay_manager None false) steady_env
                        (mk_sys 0 [] ∅)).1 in
  map status (results p') = ["success"; "failed"; "skipped"] ∧
  sent p' = 1 ∧ failed p' = 1 ∧ skipped p' = 1 ∧
  length (results p') = 3%nat ∧ sent p' + failed p' + skipped p' = 3 ∧
  runs.counters_match_results p'.
Proof.
  pose proof (record_result_keeps_balance
                [runs.mk_call a_business "success" None (Some "Hi");
                 runs.mk_call a_business "failed" (Some "timeout") None;
                 runs.mk_call a_business "skipped" (Some "Daily limit") None]
                (new_manager a_delay_manager None false) steady_env (mk_sys 0 [] ∅)) as H.
  cbv zeta in H. cbv zeta.
  destruct H as (H1 & _ & H3 & H4 & H5 & _ & H7 & H8 & H9 & _).
  { repeat constructor. }
  split; [rewrite H1; reflexivity |].
  split; [exact H3 |]. split; [exact H4 |]. split; [exact H5 |].
  split; [exact H7 |]. split; [exact H8 |]. apply H9. reflexivity.
Defined.

(** C8 as stated fails in a resumed run: the counters come back from the
    progress file, the results do not, and recording one more result
    leaves them apart. *)
Lemma resumed_run_counters_exceed_results :
  let saved := save_progress_files a_manager ∅ in
  let resumed := (init a_delay_manager (Some "progress.json") false steady_env
                    (mk_sys 0 [] saved)).1 in
  let after := (runs.record_all [runs.mk_call a_business "success" None (Some "Hi")]
                  resumed steady_env (mk_sys 0 [] saved)).1 in
  ¬ runs.counters_match_results (progress resumed) ∧
  ¬ runs.counters_match_results (progress after).
Proof.
  cbv zeta. unfold runs.counters_match_results. split; vm_compute; discriminate.
Qed.

End facts_c8.

(* ===================================================================== *)
(** ** Final metrics *)
(* ===================================================================== *)

Section facts_c5.
Import analytics_tracker.

Lemma successful_timings_app l1 l2 :
  successful_timings (l1 ++ l2) = (successful_timings l1 ++ successful_timings l2)%list.
Proof. unfold successful_timings. by rewrite List.filter_app, map_app. Qed.

Lemma track_effect (c : runs.TrackCall) (a : AnalyticsTracker) (e : Env) (s : Sys) :
  let a' := (runs.track c a e s).1 in
  messages_sent (current_campaign a')
    = messages_sent (current_campaign a) + (if runs.is_sent c then 1 else 0) ∧
  messages_failed (current_campaign a')
    = messages_failed (current_campaign a) + (if runs.is_failed c then 1 else 0) ∧
  success_rate (current_campaign a') = success_rate (current_campaign a) ∧
  average_message_time (current_campaign a') = average_message_time (current_campaign a) ∧
  successful_timings (business_analytics a')
    = (successful_timings (business_analytics a) ++ runs.successful_durations [c])%list.
Proof.
  destruct c as [name ph mtype web dur retries | name ph mtype web err dur retries
                 | name ph reason];
    unfold runs.track, track_message_sent, track_message_failed, track_message_skipped;
    munfold; cbn [fst snd current_campaign business_analytics messages_sent messages_failed
                  success_rate average_message_time runs.is_sent runs.is_failed];
    rewrite successful_timings_app; split_and!; try done; try lia.
  unfold successful_timings, runs.successful_durations. cbn.
  by destruct (positive dur).
Qed.

Lemma successful_durations_cons c calls :
  runs.successful_durations (c :: calls)
  = (runs.successful_durations [c] ++ runs.successful_durations calls)%list.
Proof.
  unfold runs.successful_durations. cbn. destruct (runs.is_sent c); cbn; [| done].
  by destruct (positive (runs.call_duration c)).
Qed.

Lemma track_all_effect (calls : list runs.TrackCall) :
  ∀ (a : AnalyticsTracker) (e : Env) (s : Sys),
  let a' := (runs.track_all calls a e s).1 in
  messages_sent (current_campaign a')
    = messages_sent (current_campaign a) + runs.count_sent calls ∧
  messages_failed (current_campaign a')
    = messages_failed (current_campaign a) + runs.count_failed calls ∧
  success_rate (current_campaign a') = success_rate (current_campaign a) ∧
  average_message_time (current_campaign a') = average_message_time (current_campaign a) ∧
  successful_timings (business_analytics a')
    = (successful_timings (business_analytics a) ++ runs.successful_durations calls)%list.
Proof.
  induction calls as [| c rest IH]; intros a e s; cbv zeta.
  - cbn. rewrite app_nil_r. unfold runs.count_sent, runs.count_failed. cbn.
    split_and!; try done; lia.
  - cbn [runs.track_all]. unfold mbind, M_bind, world.bind.
    pose proof (track_effect c a e s) as H. cbv zeta in H.
    destruct (runs.track c a e s) as [a1 s1]. cbn [fst snd] in H.
    destruct H as (H1 & H2 & H3 & H4 & H5).
    specialize (IH a1 e s1). cbv zeta in IH. destruct IH as (I1 & I2 & I3 & I4 & I5).
    rewrite I1, I2, I3, I4, I5, H1, H2, H3, H4, H5.
    rewrite (successful_durations_cons c rest), <- app_assoc.
    unfold runs.count_sent, runs.count_failed. cbn [List.filter].
    split_and!; try done.
    + destruct (runs.is_sent c); cbn [length]; lia.
    + destruct (runs.is_failed c); cbn [length]; lia.
Qed.

Lemma count_nonneg calls : 0 <= runs.count_sent calls ∧ 0 <= runs.count_failed calls.
Proof. unfold runs.count_sent, runs.count_failed. lia. Qed.

(** C5 (amended).  After [start_campaign], any sequence of tracked
    attempts and [end_campaign]: the success rate is the percentage
    [sent / (sent + failed) * 100], skips left out, and [0] when
    [sent + failed = 0]; the mean attempt duration is taken over the
    successful attempts with a strictly positive duration (together with
    those the tracker already held), and is [0] when there is none. *)
Theorem end_campaign_metrics (n : Z) (calls : list runs.TrackCall)
    (a : AnalyticsTracker) (e : Env) (s : Sys) :
  let c := current_campaign (runs.tracked_campaign n calls a e s).1 in
  messages_sent c = runs.count_sent calls ∧
  messages_failed c = runs.count_failed calls ∧
  success_rate c = runs.percent_success_rate calls ∧
  average_message_time c
    = runs.mean (successful_timings (business_analytics a)
                 ++ runs.successful_durations calls) ∧
  average_message_time
    (current_campaign (runs.tracked_campaign n calls init e s).1)
  = runs.mean (runs.successful_durations calls).
Proof.
  assert (G : ∀ a, let c := current_campaign (runs.tracked_campaign n calls a e s).1 in
    messages_sent c = runs.count_sent calls ∧
    messages_failed c = runs.count_failed calls ∧
    success_rate c = runs.percent_success_rate calls ∧
    average_message_time c
      = runs.mean (successful_timings (business_analytics a)
                   ++ runs.successful_durations calls));
  [| split_and!; try apply (G a); apply (G init)].
  clear a. intros a.
  cbv zeta. unfold runs.tracked_campaign, start_campaign. munfold. cbn [fst snd].
  pose proof (track_all_effect calls (with_campaign a (new_metrics n (Some (clock e (tick s)))))
                e (next_tick s)) as H.
  cbv zeta in H.
  destruct (runs.track_all calls _ e (next_tick s)) as [a1 s1]. cbn [fst snd] in H.
  cbn in H. destruct H as (H1 & H2 & H3 & H4 & H5).
  unfold end_campaign. munfold. cbn [fst snd current_campaign with_campaign messages_sent
    messages_failed success_rate average_message_time].
  rewrite H1, H2, H3, H4, H5.
  pose proof (count_nonneg calls) as [Hs Hf].
  assert (Hrate : (if 0 <? runs.count_sent calls + runs.count_failed calls
                   then (inject_Z (runs.count_sent calls)
                         / inject_Z (runs.count_sent calls + runs.count_failed calls) * 100)%Q
                   else 0%Q) = runs.percent_success_rate calls).
  { unfold runs.percent_success_rate.
    destruct (runs.count_sent calls + runs.count_failed calls =? 0) eqn:E.
    - apply Z.eqb_eq in E. rewrite E. reflexivity.
    - apply Z.eqb_neq in E.
      replace (0 <? runs.count_sent calls + runs.count_failed calls) with true
        by (symmetry; apply Z.ltb_lt; lia).
      reflexivity. }
  assert (Havg : ∀ l, match l with
                      | [] => 0%Q
                      | _ :: _ => (qsum l / inject_Z (Z.of_nat (length l)))%Q
                      end = runs.mean l) by (intros l; by destruct l).
  split; [lia |]. split; [lia |]. split.
  - rewrite !Z.add_0_l. exact Hrate.
  - apply Havg.
Qed.

(** C5 as stated fails: one send that took 2 s and one failure that took
    4 s give a success rate of 50, not 1/2, and a mean of 2 s, not 3 s. *)
Lemma end_campaign_not_as_specified :
  let c := current_campaign (runs.tracked_campaign 2 two_attempts init steady_env
                               (mk_sys 0 [] ∅)).1 in
  ¬ (success_rate c == runs.spec_success_rate two_attempts)%Q ∧
  ¬ (average_message_time c == runs.spec_mean_duration two_attempts)%Q.
Proof.
  cbv zeta. split; vm_compute; discriminate.
Qed.

End facts_c5.

(* ===================================================================== *)
(** ** Delays disabled *)
(* ===================================================================== *)

Section facts_c9.
Import campaign_manager.

Lemma batch_state_kept_trans a b c :
  batch_state_kept a b → batch_state_kept b c → batch_state_kept a c.
Proof. unfold batch_state_kept. intros (? & ? & ?) (? & ? & ?). split_and!; try congruence. lia. Qed.

(** C9.  With [enable_delays] false, [wait_between_messages()] returns at
    once (it does not raise) and changes nothing (manager and world are as
    before), and over a
    whole [_send_messages] run nothing sleeps, the batch threshold and the
    time of the last batch delay stay as they were, and
    [messages_since_batch_delay] is never reset: it moves with the recorded
    sends only. *)
Theorem delays_disabled_no_batch_delay (bs : list business.Business)
    (cm : CampaignManager) (e : Env) (s : Sys) :
  delay_manager.enable_delays (delay_manager.config (delay_manager cm)) = false →
  delay_manager.wait_between_messages false (delay_manager cm) e s
  = ((delay_manager cm, None), s) ∧
  let out := _send_messages bs cm e s in
  sleeps out.2 = sleeps s ∧
  batch_state_kept (delay_manager.stats (delay_manager cm))
    (delay_manager.stats (delay_manager out.1)).
Proof.
  intros Hoff. split; [by apply wait_disabled |].
  cbv zeta. rewrite send_messages_eq. cbv zeta. cbn [fst snd sleeps].
  set (cm0 := with_progress cm _).
  pose proof (send_loop_invariant
    (λ cm' s', delay_manager.enable_delays (delay_manager.config (delay_manager cm')) = false ∧
               sleeps s' = sleeps s ∧
               batch_state_kept (delay_manager.stats (delay_manager cm))
                 (delay_manager.stats (delay_manager cm')))
    (Z.of_nat (length bs)) e) as Hinv.
  cbv beta in Hinv.
  destruct (Hinv) with (bs := bs) (i := 0) (cm := cm0) (s := next_tick s) as (_ & H2 & H3).
  - intros i b cm1 s1 (Ho & Hs & Hk).
    pose proof (send_iteration_delays_off (Z.of_nat (length bs)) i b cm1 e s1 Ho) as H.
    cbv zeta in H. destruct H as [Hs' Hk'].
    pose proof (send_iteration_setup (Z.of_nat (length bs)) i b cm1 e s1) as He.
    cbv zeta in He. destruct He as ((_ & _ & Hc & _) & _).
    split_and!.
    + by rewrite Hc.
    + congruence.
    + eapply batch_state_kept_trans; eassumption.
  - unfold cm0. cbn. split_and!; try done. unfold batch_state_kept. split_and!; try done; lia.
  - cbn [delay_manager with_progress]. split; [exact H2 | exact H3].
Qed.

(** C9: five recipients, delays disabled. *)
Lemma delays_disabled_no_batch_delay_witness :
  delay_manager.wait_between_messages false (delay_manager quiet_manager) steady_env
    (mk_sys 0 [] ∅) = ((delay_manager quiet_manager, None), mk_sys 0 [] ∅) ∧
  let out := _send_messages five quiet_manager steady_env (mk_sys 0 [] ∅) in
  sleeps out.2 = [] ∧
  batch_state_kept (delay_manager.stats (delay_manager quiet_manager))
    (delay_manager.stats (delay_manager out.1)).
Proof.
  apply (delays_disabled_no_batch_delay five quiet_manager steady_env (mk_sys 0 [] ∅)).
  reflexivity.
Defined.

End facts_c9.

(* ===================================================================== *)
(** ** Dry run *)
(* ===================================================================== *)

Section facts_c10.
Import campaign_manager.

Section dry_run.
Import delay_manager.






End dry_run.




End facts_c10.

(* ===================================================================== *)
(** ** Transport failures *)
(* ===================================================================== *)

Section facts_c4.
Import campaign_manager.

(** One pass in which the send call raises. *)
Lemma raised_send_iteration (n i : Z) (b : business.Business)
    (cm : CampaignManager) (e : Env) (s : Sys) (m msg : string) :
  (gate e s (delay_manager cm)).1.1 = true →
  dry_run cm = false →
  compose_text e (S (tick s)) b = inl m →
  transport e (S (S (tick s))) (business.phone b) m = SendRaises msg →
  let out := send_iteration n i b cm e s in
  out.1.1 = true ∧
  (∃ r, results (progress out.1.2) = (results (progress cm) ++ [r])%list ∧
        business_name r = business.business_name b ∧ phone r = business.phone b ∧
        status r = "failed" ∧ error r = Some msg) ∧
  failed (progress out.1.2) = failed (progress cm) + 1 ∧
  sent (progress out.1.2) = sent (progress cm) ∧
  processed (progress out.1.2) = processed (progress cm) + 1 ∧
  delay_manager out.1.2 = (gate e s (delay_manager cm)).2 ∧
  sleeps out.2 = sleeps s.
Proof.
  intros Hg Hdry Hc Ht. cbv zeta.
  rewrite (send_iteration_allowed _ _ _ _ _ _ Hg). cbv zeta.
  set (cm0 := with_delay_manager cm (gate e s (delay_manager cm)).2).
  rewrite (send_single_raises b cm0 e (next_tick s) m msg Hc Hdry Ht).
  cbn [fst snd r_status r_error r_message].
  pose proof (record_result_effect b "failed" (Some msg) None cm0
                e (next_tick (next_tick (next_tick s))) eq_refl) as H2.
  cbv zeta in H2.
  destruct (_record_result b "failed" _ _ cm0 e _) as [cm2 s2]. cbn [fst snd] in *.
  destruct H2 as (R1 & R2 & R3 & R4 & R5 & R6 & R7 & R8 & R9 & R10 & R11 & R12 & R13 & R14 & R15).
  rewrite andb_false_r. cbn [fst snd].
  subst cm0.
  cbn [progress with_delay_manager delay_manager sleeps next_tick] in R1, R2, R3, R5, R10, R14.
  cbn in R2, R3.
  split_and!; try done.
  - eexists. cbn. split; [exact R1 |]. done.
  - cbn. lia.
  - cbn. lia.
  - cbn. destruct (_ =? 0); cbn; exact R14.
Qed.

(** One pass in which the send call returns: whatever the pair says, the
    attempt is recorded as a success and the send is counted. *)
Lemma returned_send_iteration (n i : Z) (b : business.Business)
    (cm : CampaignManager) (e : Env) (s : Sys) (m : string) (ok : bool) (err : string) :
  waits_return (delay_manager.config (delay_manager cm)) →
  (gate e s (delay_manager cm)).1.1 = true →
  dry_run cm = false →
  compose_text e (S (tick s)) b = inl m →
  transport e (S (S (tick s))) (business.phone b) m = SendReturns ok err →
  let out := send_iteration n i b cm e s in
  out.1.1 = true ∧
  (∃ r, results (progress out.1.2) = (results (progress cm) ++ [r])%list ∧
        business_name r = business.business_name b ∧ phone r = business.phone b ∧
        status r = "success" ∧ error r = None) ∧
  sent (progress out.1.2) = sent (progress cm) + 1 ∧
  failed (progress out.1.2) = failed (progress cm) ∧
  processed (progress out.1.2) = processed (progress cm) + 1 ∧
  delay_manager.total_sent (delay_manager.stats (delay_manager out.1.2))
  = delay_manager.total_sent (delay_manager.stats (delay_manager cm)) + 1.
Proof.
  intros Hwr Hg Hdry Hc Ht. cbv zeta.
  rewrite (send_iteration_returns _ _ _ _ _ _ Hwr Hg). cbv zeta.
  set (cm0 := with_delay_manager cm (gate e s (delay_manager cm)).2).
  rewrite (send_single_sent b cm0 e (next_tick s) m ok err Hc Hdry Ht). cbv zeta.
  cbn [fst snd r_status r_error r_message].
  match goal with
  | |- context [_record_result b "success" None (Some m) ?c e ?s1] =>
      pose proof (record_result_effect b "success" None (Some m) c e s1 eq_refl) as H2;
      destruct (_record_result b "success" None (Some m) c e s1) as [cm2 s2]
  end.
  cbv zeta in H2. cbn [fst snd] in *.
  destruct H2 as (R1 & R2 & R3 & R4 & R5 & R6 & R7 & R8 & R9 & R10 & R11 & R12 & R13 & R14 & R15).
  subst cm0.
  cbn [progress with_delay_manager delay_manager sleeps next_tick] in R1, R2, R3, R5, R10.
  cbn in R2, R3.
  pose proof (roll_batch_fields (strftime_date (clock e (tick s))) (hour (clock e (tick s)))
                (delay_manager.stats (delay_manager cm))) as Hroll.
  cbv zeta in Hroll. destruct Hroll as (G1 & _).
  assert (Htot : delay_manager.total_sent (delay_manager.stats (delay_manager cm2))
                 = delay_manager.total_sent (delay_manager.stats (delay_manager cm)) + 1).
  { rewrite R10. cbn. unfold gate, delay_manager.can_send_message_at. cbn. rewrite G1.
    reflexivity. }
  match goal with
  | |- context [delay_manager.wait_between_messages false ?d e ?s3] =>
      pose proof (wait_effect false d e s3) as Hw; cbv zeta in Hw;
      destruct (delay_manager.wait_between_messages false d e s3) as [[dm4 exn] s4]
  end.
  cbn [fst snd] in Hw. destruct Hw as (_ & _ & (W1 & _) & _).
  cbn [delay_manager with_progress] in W1.
  destruct ((i <? n - 1) && ("success" =? "success")%string); cbn [fst snd];
    (split_and!; try done;
      try (eexists; cbn; split; [exact R1 | done]);
      try (cbn; lia); try (cbn; congruence)).
Qed.

(** C4.  In a live run, when the rate limit lets recipient [b] through and
    the send fails - [WhatsAppController.send_message] gives up and returns
    [(False, err)] - the attempt is NOT recorded as failed: the result
    appended for [b] has status ['success'] and no error, [sent] grows by
    one, [failed] stays, and the send is counted by the delay manager
    ([total_sent] grows by one).  The loop does go on with the recipients
    after [b].  (The delay ranges are in order, or delays are off, so that
    the wait after the recorded success returns.) *)
Theorem failed_send_is_recorded_as_success (n i : Z) (b : business.Business)
    (rest : list business.Business) (cm : CampaignManager) (e : Env) (s : Sys)
    (m err : string) :
  waits_return (delay_manager.config (delay_manager cm)) →
  (gate e s (delay_manager cm)).1.1 = true →
  dry_run cm = false →
  compose_text e (S (tick s)) b = inl m →
  transport e (S (S (tick s))) (business.phone b) m = SendReturns false err →
  let out := send_iteration n i b cm e s in
  out.1.1 = true ∧
  (∃ r, results (progress out.1.2) = (results (progress cm) ++ [r])%list ∧
        business_name r = business.business_name b ∧ phone r = business.phone b ∧
        status r = "success" ∧ error r = None) ∧
  sent (progress out.1.2) = sent (progress cm) + 1 ∧
  failed (progress out.1.2) = failed (progress cm) ∧
  processed (progress out.1.2) = processed (progress cm) + 1 ∧
  delay_manager.total_sent (delay_manager.stats (delay_manager out.1.2))
  = delay_manager.total_sent (delay_manager.stats (delay_manager cm)) + 1 ∧
  send_loop n i (b :: rest) cm e s = send_loop n (i + 1) rest out.1.2 e out.2.
Proof.
  intros Hwr Hg Hdry Hc Ht. cbv zeta.
  pose proof (returned_send_iteration n i b cm e s m false err Hwr Hg Hdry Hc Ht) as H.
  cbv zeta in H. destruct H as (H1 & H2 & H3 & H4 & H5 & H6).
  split_and!; try done.
  rewrite send_loop_cons. cbv zeta. by rewrite H1.
Qed.

(** C4: the controller returns [(False, 'Message sending not confirmed')]
    for the first recipient; the campaign records a success and no
    failure. *)
Lemma failed_send_is_recorded_as_success_witness :
  let out := send_iteration 6 0 a_business open_manager flaky_env (mk_sys 0 [] ∅) in
  (∃ r, results (progress out.1.2) = (results (progress open_manager) ++ [r])%list ∧
        business_name r = business.business_name a_business ∧
        phone r = business.phone a_business ∧
        status r = "success" ∧ error r = None) ∧
  sent (progress out.1.2) = 1 ∧ failed (progress out.1.2) = 0 ∧
  delay_manager.total_sent (delay_manager.stats (delay_manager out.1.2)) = 1.
Proof.
  pose proof (failed_send_is_recorded_as_success 6 0 a_business five open_manager
                flaky_env (mk_sys 0 [] ∅) "Hello" "Message sending not confirmed"
                (or_introl eq_refl) eq_refl eq_refl eq_refl eq_refl) as H.
  cbv zeta in H. destruct H as (_ & H2 & H3 & H4 & _ & H6 & _).
  cbv zeta. split; [exact H2 |]. split; [exact H3 |]. split; [exact H4 | exact H6].
Defined.

(** When the send call itself raises, the exception is caught: the result
    for [b] has status ['failed'] and carries [str(e)], [failed] and
    [processed] grow by one, no send is recorded and no wait is taken, and
    the loop goes on with the recipients after [b] exactly as it would from
    that state; if no wait of the run can raise and no later recipient is
    refused by the rate limit, every recipient from [b] on gets one result,
    in list order. *)
Theorem raised_send_does_not_stop_loop (n i : Z) (b : business.Business)
    (rest : list business.Business) (cm : CampaignManager) (e : Env) (s : Sys)
    (m msg : string) :
  (gate e s (delay_manager cm)).1.1 = true →
  dry_run cm = false →
  compose_text e (S (tick s)) b = inl m →
  transport e (S (S (tick s))) (business.phone b) m = SendRaises msg →
  let out := send_iteration n i b cm e s in
  let final := (send_loop n i (b :: rest) cm e s).1 in
  out.1.1 = true ∧
  (∃ r, results (progress out.1.2) = (results (progress cm) ++ [r])%list ∧
        business_name r = business.business_name b ∧ phone r = business.phone b ∧
        status r = "failed" ∧ error r = Some msg) ∧
  failed (progress out.1.2) = failed (progress cm) + 1 ∧
  sent (progress out.1.2) = sent (progress cm) ∧
  processed (progress out.1.2) = processed (progress cm) + 1 ∧
  delay_manager out.1.2 = (gate e s (delay_manager cm)).2 ∧
  sleeps out.2 = sleeps s ∧
  send_loop n i (b :: rest) cm e s = send_loop n (i + 1) rest out.1.2 e out.2 ∧
  (waits_return (delay_manager.config (delay_manager cm)) →
   skipped (progress final) = skipped (progress cm) →
   runs.result_recipients (runs.new_results cm final) = runs.recipients (b :: rest)).
Proof.
  intros Hg Hdry Hc Ht. cbv zeta.
  pose proof (raised_send_iteration n i b cm e s m msg Hg Hdry Hc Ht) as H.
  cbv zeta in H. destruct H as (H1 & H2 & H3 & H4 & H5 & H6 & H7).
  split_and!; try done.
  - rewrite send_loop_cons. cbv zeta. by rewrite H1.
  - intros Hwr Hsk.
    pose proof (send_loop_trace (b :: rest) n i cm e s Hwr) as H. cbv zeta in H.
    destruct H as (_ & j & stopped & rs & Hj & _ & Hsk' & _ & _ & Hres & Hrec & _).
    destruct stopped; [lia |].
    unfold runs.new_results. rewrite Hres, drop_app_length, Hrec, Hj, Nat.add_0_r.
    by rewrite firstn_all.
Qed.

(** The first send call raises, the five recipients after it are still
    attempted. *)
Lemma raised_send_does_not_stop_loop_witness :
  let out := send_iteration 6 0 a_business open_manager raising_env (mk_sys 0 [] ∅) in
  let final := (send_loop 6 0 (a_business :: five) open_manager raising_env (mk_sys 0 [] ∅)).1 in
  out.1.1 = true ∧
  (∃ r, results (progress out.1.2) = (results (progress open_manager) ++ [r])%list ∧
        business_name r = business.business_name a_business ∧
        phone r = business.phone a_business ∧
        status r = "failed" ∧ error r = Some "network unreachable") ∧
  runs.result_recipients (runs.new_results open_manager final)
  = runs.recipients (a_business :: five).
Proof.
  pose proof (raised_send_does_not_stop_loop 6 0 a_business five open_manager
                raising_env (mk_sys 0 [] ∅) "Hello" "network unreachable"
                eq_refl eq_refl eq_refl eq_refl) as H.
  cbv zeta in H. destruct H as (H1 & H2 & _ & _ & _ & _ & _ & _ & H8).
  cbv zeta. split; [exact H1 |]. split; [exact H2 |].
  apply H8; [left; reflexivity | vm_compute; reflexivity].
Defined.

End facts_c4.

(* ===================================================================== *)
(** ** Resuming *)
(* ===================================================================== *)

Section facts_c3.
Import campaign_manager.

(** The counters and the index are read back whatever the start time holds:
    it is the last field to be decoded. *)
Lemma load_saved_counters (p q : CampaignProgress) :
  let l := try_steps (load_progress_steps (progress_data p)) q in
  last_processed_index l = last_processed_index p ∧ processed l = processed p ∧
  sent l = sent p ∧ failed l = failed p ∧ skipped l = skipped p ∧
  results l = results q ∧ total_businesses l = total_businesses q ∧
  end_time l = end_time q.
Proof.
  unfold load_progress_steps, progress_data, get_int, get_str.
  cbn [try_steps].
  repeat (rewrite ?lookup_insert_eq, ?lookup_insert_ne by done; cbn [mbind option_bind try_steps]).
  destruct (start_time p) as [d |]; cbn [json_of_time mbind option_bind opt_truthy or_else].
  - rewrite !isoformat_truthy.
    destruct (fromisoformat (isoformat d)); cbn; tauto.
  - cbn. tauto.
Qed.

Lemma attempted_none_failed rs :
  Forall attempted rs → count_status "failed" rs = 0 →
  Forall (λ r, status r = "success") rs.
Proof.
  induction 1 as [| r rs Hr _ IH]; [constructor |].
  rewrite count_status_cons. intros H.
  assert (0 ≤ count_status "failed" rs) by (unfold count_status; lia).
  destruct Hr as [Hr | Hr]; rewrite Hr in H; cbn in H; [| lia].
  constructor; [exact Hr | apply IH; lia].
Qed.

(** A run with a progress file ends by writing its progress there. *)
Lemma send_messages_saved bs cm path e s :
  waits_return (delay_manager.config (delay_manager cm)) →
  progress_file cm = Some path →
  let out := _send_messages bs cm e s in
  fs out.2 !! path = Some (JsonObject (progress_data (progress out.1))).
Proof.
  intros Hw Hfile. cbv zeta. rewrite send_messages_eq. cbv zeta. cbn [fst snd fs].
  set (cm0 := with_progress cm _).
  pose proof (send_loop_trace bs (Z.of_nat (length bs)) 0 cm0 e (next_tick s) Hw) as H.
  cbv zeta in H.
  destruct (send_loop (Z.of_nat (length bs)) 0 bs cm0 e (next_tick s)) as [cm1 s1].
  cbn [fst snd] in *. destruct H as ((_ & Hpf & _) & _).
  unfold save_progress_files. cbn [progress_file with_progress].
  rewrite Hpf. unfold cm0. cbn [progress_file with_progress]. rewrite Hfile.
  apply write_json_lookup.
Qed.

(** With both limits off no pass is refused, so nobody is skipped. *)
Lemma send_messages_open bs cm e s :
  waits_return (delay_manager.config (delay_manager cm)) →
  delay_manager.enable_daily_limit (delay_manager.config (delay_manager cm)) = false →
  delay_manager.enable_hourly_limit (delay_manager.config (delay_manager cm)) = false →
  skipped (progress (_send_messages bs cm e s).1) = skipped (progress cm).
Proof.
  intros Hw Hd Hh. rewrite send_messages_eq. cbv zeta. cbn [fst snd].
  set (cm0 := with_progress cm _).
  pose proof (send_loop_invariant
    (λ c _, same_setup c cm0 ∧ skipped (progress c) = skipped (progress cm0))
    (Z.of_nat (length bs)) e) as Hinv.
  cbn [progress with_progress skipped set_end_time].
  apply Hinv; [| split; [apply same_setup_refl | reflexivity]].
  intros i b c s' [Hset Hsk].
  assert (Hcfg : delay_manager.config (delay_manager c)
                 = delay_manager.config (delay_manager cm)).
  { destruct Hset as (_ & _ & -> & _). reflexivity. }
  pose proof (send_iteration_effect (Z.of_nat (length bs)) i b c e s') as H.
  cbv zeta in H. rewrite Hcfg in H. specialize (H (or_intror Hw)).
  rewrite (gate_open e s' (delay_manager c)) in H by (rewrite Hcfg; assumption).
  cbn [fst] in H.
  destruct H as (Hset' & _ & (r & _ & _ & _ & _ & _ & _ & _ & Hsk' & _) & _).
  split; [eapply same_setup_trans; eassumption | congruence].
Qed.

(** One pass of a live run whose composer answers and whose send call
    returns: nothing fails, and the delay manager counts a send exactly
    when the progress does. *)
Lemma live_iteration n i b cm e s :
  waits_return (delay_manager.config (delay_manager cm)) →
  dry_run cm = false → composer_answers e → send_returns e →
  let out := send_iteration n i b cm e s in
  failed (progress out.1.2) = failed (progress cm) ∧
  delay_manager.total_sent (delay_manager.stats (delay_manager out.1.2))
    - sent (progress out.1.2)
  = delay_manager.total_sent (delay_manager.stats (delay_manager cm)) - sent (progress cm).
Proof.
  intros Hw Hdry Hc Ht. cbv zeta.
  destruct ((gate e s (delay_manager cm)).1.1) eqn:Hg.
  - destruct (Hc (S (tick s)) b) as [m Hm].
    destruct (Ht (S (S (tick s))) (business.phone b) m) as (ok & err & Hsend).
    pose proof (returned_send_iteration n i b cm e s m ok err Hw Hg Hdry Hm Hsend) as H.
    cbv zeta in H. destruct H as (_ & _ & H1 & H2 & _ & H3). lia.
  - pose proof (send_iteration_effect n i b cm e s (or_introl Hg)) as H.
    cbv zeta in H. rewrite Hg in H.
    destruct H as (_ & _ & (r & _ & _ & _ & _ & _ & _ & H1 & H2 & _ & _ & _ & H3 & _) & _).
    rewrite H1, H2, H3.
    pose proof (roll_batch_fields (strftime_date (clock e (tick s))) (hour (clock e (tick s)))
                  (delay_manager.stats (delay_manager cm))) as Hroll.
    cbv zeta in Hroll. destruct Hroll as (G1 & _).
    unfold gate, delay_manager.can_send_message_at. cbn. rewrite G1. split; reflexivity.
Qed.

Lemma send_messages_live bs cm e s :
  waits_return (delay_manager.config (delay_manager cm)) →
  dry_run cm = false → composer_answers e → send_returns e →
  let out := _send_messages bs cm e s in
  failed (progress out.1) = failed (progress cm) ∧
  delay_manager.total_sent (delay_manager.stats (delay_manager out.1))
    - sent (progress out.1)
  = delay_manager.total_sent (delay_manager.stats (delay_manager cm)) - sent (progress cm).
Proof.
  intros Hw Hdry Hc Ht. cbv zeta. rewrite send_messages_eq. cbv zeta. cbn [fst snd].
  set (cm0 := with_progress cm _).
  pose proof (send_loop_invariant
    (λ c _, same_setup c cm0 ∧ failed (progress c) = failed (progress cm0) ∧
            delay_manager.total_sent (delay_manager.stats (delay_manager c))
              - sent (progress c)
            = delay_manager.total_sent (delay_manager.stats (delay_manager cm0))
              - sent (progress cm0))
    (Z.of_nat (length bs)) e) as Hinv.
  cbn [progress with_progress failed sent set_end_time delay_manager].
  apply Hinv; [| split; [apply same_setup_refl | split; reflexivity]].
  intros i b c s' (Hset & Hf & Hd).
  assert (Hcfg : delay_manager.config (delay_manager c)
                 = delay_manager.config (delay_manager cm)).
  { destruct Hset as (_ & _ & -> & _). reflexivity. }
  assert (Hdry' : dry_run c = false).
  { destruct Hset as (-> & _). exact Hdry. }
  pose proof (live_iteration (Z.of_nat (length bs)) i b c e s') as H.
  cbv zeta in H. rewrite Hcfg in H. specialize (H Hw Hdry' Hc Ht).
  pose proof (send_iteration_setup (Z.of_nat (length bs)) i b c e s') as Hs.
  cbv zeta in Hs. destruct Hs as (Hset' & _).
  destruct H as (H1 & H2).
  split; [eapply same_setup_trans; eassumption |]. split; congruence.
Qed.

(** C3 (amended).  A run resumed from a progress file that holds
    [last_processed_index = k] and [processed = k + 1] works on
    [rest = all[k+1:]] only, in list order: it attempts the first [j]
    recipients of [rest], and when the rate limit refuses the next one it
    records that one as skipped and stops there.  The final [processed] is
    [k + 1 + j]: the length of the original list when the run is not
    stopped (as when both limits are off), less when it is.  A run that
    had somebody left ends with its progress in the file; and in a live
    run whose composer answers and whose send call returns, the [j]
    attempts are sends: each is recorded as a success and counted by the
    delay manager.  (The progress file is named, and the delay ranges are
    in order or delays are off, so that no wait of the run raises.) *)
Theorem resume_processes_the_rest (all : list business.Business) (k : Z)
    (p0 : CampaignProgress) (dm : delay_manager.DelayManager) (file : string)
    (dry : bool) (e : Env) (s : Sys) :
  -1 <= k < Z.of_nat (length all) →
  file ≠ "" →
  waits_return (delay_manager.config dm) →
  fs s !! file = Some (JsonObject (progress_data p0)) →
  last_processed_index p0 = k →
  processed p0 = k + 1 →
  let out := runs.resumed_run all dm file dry e s in
  let final := out.1 in
  let rest := drop (Z.to_nat (k + 1)) all in
  ∃ (j : nat) (stopped : bool),
    (if stopped then (j < length rest)%nat else j = length rest) ∧
    runs.result_recipients (results (progress final))
    = runs.recipients (take (j + (if stopped then 1 else 0))%nat rest) ∧
    Forall attempted (take j (results (progress final))) ∧
    Forall (λ r, status r = "skipped") (drop j (results (progress final))) ∧
    processed (progress final) = k + 1 + Z.of_nat j ∧
    skipped (progress final) = skipped p0 + (if stopped then 1 else 0) ∧
    (if stopped then processed (progress final) < Z.of_nat (length all)
     else processed (progress final) = Z.of_nat (length all)) ∧
    (delay_manager.enable_daily_limit (delay_manager.config dm) = false →
     delay_manager.enable_hourly_limit (delay_manager.config dm) = false →
     stopped = false) ∧
    (rest ≠ [] →
     fs out.2 !! file = Some (JsonObject (progress_data (progress final)))) ∧
    (dry = false → composer_answers e → send_returns e →
     Forall (λ r, status r = "success") (take j (results (progress final))) ∧
     sent (progress final) = sent p0 + Z.of_nat j ∧
     failed (progress final) = failed p0 ∧
     delay_manager.total_sent (delay_manager.stats (delay_manager final))
     = delay_manager.total_sent (delay_manager.stats dm) + Z.of_nat j).
Proof.
  intros Hk Hnamed Hwr Hfile Hidx Hproc. cbv zeta.
  unfold runs.resumed_run, runs.campaign, init.
  unfold mbind, mret, M_bind, M_ret, world.bind, world.ret, get_files. cbn [fst snd].
  unfold _load_progress. cbn [progress_file].
  rewrite (path_of_named file Hnamed), Hfile.
  pose proof (load_saved_counters p0 default_progress) as L. cbv zeta in L.
  cbn [progress with_progress].
  set (loaded := try_steps (load_progress_steps (progress_data p0)) default_progress) in *.
  destruct L as (L1 & L2 & L3 & L4 & L5 & L6 & _).
  unfold _load_businesses. cbn [progress with_progress]. rewrite L1, Hidx.
  assert (Hrest : (if 0 <=? k then drop (Z.to_nat (k + 1)) all else all)
                  = drop (Z.to_nat (k + 1)) all).
  { destruct (0 <=? k) eqn:E; [reflexivity |].
    apply Z.leb_gt in E. assert (k = -1) as -> by lia. reflexivity. }
  rewrite Hrest.
  assert (Hlen : Z.of_nat (length (drop (Z.to_nat (k + 1)) all))
                 = Z.of_nat (length all) - (k + 1)).
  { rewrite length_drop. lia. }
  destruct (drop (Z.to_nat (k + 1)) all) as [| b rest] eqn:Hd.
  - cbn [fst snd progress with_progress set_total_businesses results skipped processed
           sent failed delay_manager].
    rewrite L6, L2, L3, L4, L5, Hproc. cbn [length] in Hlen.
    exists 0%nat, false. cbn.
    split_and!; try done; try lia. intros _ _ _. split_and!; try done; lia.
  - unfold analytics_tracker.start_campaign, analytics_tracker.end_campaign.
    unfold mbind, mret, M_bind, M_ret, world.bind, world.ret, now. cbn [fst snd].
    match goal with
    | |- context [_send_messages (b :: rest) ?c e ?s1] =>
        pose proof (send_messages_trace (b :: rest) c e s1 Hwr) as T;
        pose proof (send_messages_saved (b :: rest) c file e s1 Hwr eq_refl) as Hsaved;
        pose proof (send_messages_open (b :: rest) c e s1 Hwr) as Hopen;
        pose proof (send_messages_live (b :: rest) c e s1 Hwr) as Hlive;
        destruct (_send_messages (b :: rest) c e s1) as [cm1 s2]
    end.
    cbv zeta in T, Hsaved, Hlive.
    cbn [fst snd progress with_progress with_tracker set_total_businesses results skipped
           processed sent failed delay_manager dry_run] in T, Hsaved, Hopen, Hlive.
    cbn [fst snd progress with_progress with_tracker delay_manager fs next_tick].
    destruct T as (_ & j & stopped & rs & Hj & Hpr & Hsk & Hs & Hf & Hres & Hrec & Hatt & Hskp).
    rewrite L6 in Hres. change (results default_progress) with (@nil MessageResult) in Hres.
    rewrite app_nil_l in Hres. rewrite Hres.
    assert (Hrs : length rs = (j + (if stopped then 1 else 0))%nat).
    { apply (f_equal (@length _)) in Hrec.
      unfold runs.result_recipients, runs.recipients in Hrec.
      rewrite !length_map, length_take in Hrec. destruct stopped; lia. }
    exists j, stopped. split_and!.
    + exact Hj.
    + exact Hrec.
    + exact Hatt.
    + exact Hskp.
    + rewrite Hpr, L2, Hproc. reflexivity.
    + rewrite Hsk, L5. reflexivity.
    + rewrite Hpr, L2, Hproc. destruct stopped; lia.
    + intros Hday Hhour. specialize (Hopen Hday Hhour).
      destruct stopped; [lia | reflexivity].
    + intros _. exact Hsaved.
    + intros Hdry Hc Ht. destruct (Hlive Hdry Hc Ht) as [Hfail Htot].
      assert (Hnf : count_status "failed" rs = 0) by lia.
      assert (Hnf' : count_status "failed" (take j rs) = 0).
      { rewrite <- (take_drop j rs), count_status_app in Hnf.
        assert (0 ≤ count_status "failed" (take j rs)) by (unfold count_status; lia).
        assert (0 ≤ count_status "failed" (drop j rs)) by (unfold count_status; lia).
        lia. }
      assert (Hcount : count_status "success" rs = Z.of_nat j).
      { rewrite <- (take_drop j rs), count_status_app.
        pose proof (count_status_attempted _ Hatt) as A.
        pose proof (count_status_skipped _ Hskp) as [B1 _].
        rewrite length_take in A. lia. }
      split_and!.
      * exact (attempted_none_failed _ Hatt Hnf').
      * rewrite Hs, L3, Hcount. reflexivity.
      * rewrite Hfail, L4. reflexivity.
      * lia.
Qed.

(** C3: five recipients, resumed after the second with both limits off:
    the three that are left each get a result and [processed] ends at 5. *)
Lemma resume_processes_the_rest_witness :
  let final := (runs.resumed_run five (new_delay_manager open_config None)
                  "progress.json" true steady_env
                  (mk_sys 0 [] {["progress.json" := JsonObject (progress_data saved_after_two)]})).1 in
  runs.result_recipients (results (progress final)) = runs.recipients (drop 2 five) ∧
  processed (progress final) = 5.
Proof.
  pose proof (resume_processes_the_rest five 1 saved_after_two
                (new_delay_manager open_config None) "progress.json" true steady_env
                (mk_sys 0 [] {["progress.json" := JsonObject (progress_data saved_after_two)]}))
    as H.
  cbv zeta in H. destruct H as (j & stopped & H1 & H2 & _ & _ & _ & _ & H7 & H8 & _).
  - cbn. lia.
  - discriminate.
  - left. reflexivity.
  - reflexivity.
  - reflexivity.
  - reflexivity.
  - cbv zeta. rewrite (H8 eq_refl eq_refl) in H1, H2, H7.
    rewrite H1, Nat.add_0_r, firstn_all in H2. split; [exact H2 | exact H7].
Defined.

(** C3 as stated fails when the rate limit stops the resumed run: five
    recipients, the first processed by the original run, three messages an
    hour.  The resumed run sends to the next three, skips the fifth and
    stops with [processed = 4], not 5; the fifth is never attempted. *)
Lemma resumed_run_stopped_by_rate_limit :
  let final := (runs.resumed_run five (new_delay_manager quiet_config None)
                  "progress.json" false steady_env
                  (mk_sys 0 [] {["progress.json" := JsonObject (progress_data saved_after_one)]})).1 in
  last_processed_index saved_after_one = 0 ∧ processed saved_after_one = 1 ∧
  map status (results (progress final)) = ["success"; "success"; "success"; "skipped"] ∧
  runs.result_recipients (results (progress final)) = runs.recipients (drop 1 five) ∧
  processed (progress final) = 4 ∧
  processed (progress final) ≠ Z.of_nat (length five).
Proof.
  cbv zeta. split_and!; try (vm_compute; reflexivity). vm_compute. discriminate.
Qed.

End facts_c3.

(* ===================================================================== *)
(** ** Rate-limit block *)
(* ===================================================================== *)

Section facts_c1.
Import campaign_manager.

Lemma sent_iteration (n i : Z) (b : business.Business)
    (cm : CampaignManager) (e : Env) (s : Sys) (m : string) (ok : bool) (err : string) :
  (gate e s (delay_manager cm)).1.1 = true →
  dry_run cm = false →
  delay_manager.enable_delays (delay_manager.config (delay_manager cm)) = false →
  compose_text e (S (tick s)) b = inl m →
  transport e (S (S (tick s))) (business.phone b) m = SendReturns ok err →
  let out := send_iteration n i b cm e s in
  out.1.1 = true ∧
  (∃ r, results (progress out.1.2) = (results (progress cm) ++ [r])%list ∧
        status r = "success" ∧ error r = None) ∧
  processed (progress out.1.2) = processed (progress cm) + 1 ∧
  last_processed_index (progress out.1.2) = i ∧
  delay_manager.stats (delay_manager out.1.2)
  = delay_manager.record_message_sent_at (clock e (S (S (S (tick s)))))
      (delay_manager.stats (gate e s (delay_manager cm)).2) ∧
  same_setup out.1.2 cm.
Proof.
  intros Hg Hdry Hoff Hc Ht. cbv zeta.
  pose proof (send_iteration_setup n i b cm e s) as Heff. cbv zeta in Heff.
  destruct Heff as (Hsetup & _).
  revert Hsetup.
  rewrite (send_iteration_returns _ _ _ _ _ _ (or_introl Hoff) Hg). cbv zeta.
  set (cm0 := with_delay_manager cm (gate e s (delay_manager cm)).2).
  rewrite (send_single_sent b cm0 e (next_tick s) m ok err Hc Hdry Ht). cbv zeta.
  cbn [fst snd r_status r_error r_message].
  match goal with
  | |- context [_record_result b "success" None (Some m) ?c e ?s1] =>
      pose proof (record_result_effect b "success" None (Some m) c e s1 eq_refl) as H2;
      destruct (_record_result b "success" None (Some m) c e s1) as [cm2 s2]
  end.
  cbv zeta in H2. cbn [fst snd] in *.
  destruct H2 as (R1 & R2 & R3 & R4 & R5 & R6 & R7 & R8 & R9 & R10 & R11 & R12 & R13 & R14 & R15).
  subst cm0.
  cbn [progress with_delay_manager delay_manager sleeps next_tick] in R1, R5, R10.
  match goal with
  | |- context [delay_manager.wait_between_messages false ?d e ?s3] =>
      rewrite (wait_disabled d e s3)
  end.
  2: { cbn. rewrite R10. cbn. exact Hoff. }
  destruct ((i <? n - 1) && ("success" =? "success")%string); cbn [fst snd];
    intros Hsetup; (split_and!; try done;
      [ eexists; cbn; split; [exact R1 | done]
      | cbn; lia
      | cbn; rewrite R10; reflexivity ]).
Qed.

Section hourly_cap.
Import delay_manager.

Variable e : Env.
Variables (d : string) (h : Z).
Hypothesis same_day : ∀ t, strftime_date (clock e t) = d.
Hypothesis same_hour : ∀ t, hour (clock e t) = h.
Hypothesis composer_ok : ∀ t b, ∃ m, compose_text e t b = inl m.
Hypothesis sends_ok : ∀ t ph m, transport e t ph m = SendReturns true "".

Lemma counted_roll c st :
  counted d h c st →
  let st' := roll_hour h (roll_date d st) in
  sent_this_hour st' = c ∧ sent_today st' = c ∧
  current_date st' = Some d ∧ current_hour st' = Some h.
Proof.
  intros (H1 & H2 & H3). cbv zeta.
  pose proof (roll_batch_fields d h st) as R. cbv zeta in R.
  destruct R as (_ & _ & _ & _ & _ & _ & _ & R8 & R9 & R10 & R11).
  destruct H3 as [-> | [Hd Hh]].
  - split_and!; try done; lia.
  - rewrite (roll_current d h st Hd Hh). done.
Qed.

Lemma hourly_cap_loop (cap : nat) (r : nat) :
  ∀ (bs : list business.Business) (n i : Z) (cm : CampaignManager) (s : Sys),
  (r <= cap)%nat →
  (r < length bs)%nat →
  campaign_manager.dry_run cm = false →
  enable_delays (config (campaign_manager.delay_manager cm)) = false →
  enable_hourly_limit (config (campaign_manager.delay_manager cm)) = true →
  max_messages_per_hour (config (campaign_manager.delay_manager cm)) = Z.of_nat cap →
  (enable_daily_limit (config (campaign_manager.delay_manager cm)) = false ∨
   Z.of_nat cap < max_messages_per_day (config (campaign_manager.delay_manager cm))) →
  counted d h (Z.of_nat cap - Z.of_nat r) (stats (campaign_manager.delay_manager cm)) →
  let final := (send_loop n i bs cm e s).1 in
  ∃ rs, results (progress final) = (results (progress cm) ++ rs)%list ∧
        map status rs = (replicate r "success" ++ ["skipped"])%list ∧
        map error rs
        = (replicate r None
           ++ [Some (hourly_limit_reason (config (campaign_manager.delay_manager cm)))])%list ∧
        processed (progress final) = processed (progress cm) + Z.of_nat r ∧
        skipped (progress final) = skipped (progress cm) + 1.
Proof.
  induction r as [| r IH]; intros bs n i cm s Hcap Hlen Hdry Hoff Hen Hmax Hday Hcnt;
    destruct bs as [| b rest]; cbn [length] in Hlen; try lia; cbv zeta.
  - (* the cap is reached: the next recipient is refused *)
    pose proof (counted_roll _ _ Hcnt) as Hroll. cbv zeta in Hroll.
    destruct Hroll as (Hh & Hd & _).
    assert (Hg : (gate e s (campaign_manager.delay_manager cm)).1
                 = (false, Some (hourly_limit_reason
                                   (config (campaign_manager.delay_manager cm))))).
    { unfold gate, can_send_message_at. cbn [fst]. rewrite same_day, same_hour.
      unfold check_limits. rewrite Hen, Hmax, Hh, Hd.
      replace (Z.of_nat cap <=? Z.of_nat cap - Z.of_nat 0) with true
        by (symmetry; apply Z.leb_le; lia).
      destruct Hday as [-> | Hlt]; [reflexivity |].
      replace (max_messages_per_day (config (campaign_manager.delay_manager cm))
               <=? Z.of_nat cap - Z.of_nat 0) with false
        by (symmetry; apply Z.leb_gt; lia).
      by rewrite andb_false_r. }
    rewrite send_loop_cons. cbv zeta.
    pose proof (send_iteration_effect n i b cm e s (or_intror (or_introl Hoff))) as Heff.
    cbv zeta in Heff.
    destruct Heff as (_ & Hgo & (r0 & Hres & _ & _ & _ & Hcase) & _).
    rewrite Hg in Hgo, Hcase. cbn [fst snd] in Hgo, Hcase.
    rewrite Hgo. destruct Hcase as (Hst & Herr & _ & _ & Hsk & Hpr & _).
    exists [r0]. cbn. rewrite Hst, Herr. split_and!; try done. lia.
  - (* below the cap: the message goes out and is counted *)
    pose proof (counted_roll _ _ Hcnt) as Hroll. cbv zeta in Hroll.
    destruct Hroll as (Hh & Hd & Hcd & Hch).
    assert (Hg : (gate e s (campaign_manager.delay_manager cm)).1.1 = true).
    { unfold gate, can_send_message_at. cbn [fst]. rewrite same_day, same_hour.
      unfold check_limits. rewrite Hen, Hmax, Hh, Hd.
      replace (Z.of_nat cap <=? Z.of_nat cap - Z.of_nat (S r)) with false
        by (symmetry; apply Z.leb_gt; lia).
      destruct Hday as [-> | Hlt]; [reflexivity |].
      replace (max_messages_per_day (config (campaign_manager.delay_manager cm))
               <=? Z.of_nat cap - Z.of_nat (S r)) with false
        by (symmetry; apply Z.leb_gt; lia).
      by rewrite andb_false_r. }
    destruct (composer_ok (S (tick s)) b) as [m Hc].
    pose proof (sent_iteration n i b cm e s m true "" Hg Hdry Hoff Hc (sends_ok _ _ _)) as Hit.
    cbv zeta in Hit.
    destruct Hit as (Hgo & (r0 & Hres & Hst & Herr) & Hpr & _ & Hstats & Hset).
    rewrite send_loop_cons. cbv zeta. rewrite Hgo.
    destruct Hset as (S1 & _ & S3 & _).
    specialize (IH rest n (i + 1) (send_iteration n i b cm e s).1.2
                  (send_iteration n i b cm e s).2).
    cbv zeta in IH. rewrite S3 in IH.
    destruct IH as (rs & Hres' & Hsts & Herrs & Hpr' & Hsk'); try done; try lia.
    { congruence. }
    { rewrite Hstats. unfold counted, gate, can_send_message_at.
      cbn [snd with_stats stats]. rewrite same_day, same_hour.
      cbn. rewrite Hh, Hd, Hcd, Hch. split_and!; try lia. right. done. }
    exists (r0 :: rs). rewrite Hres', Hres, <- app_assoc. cbn.
    rewrite Hst, Herr, Hsts, Herrs. split_and!; try done.
    + lia.
    + pose proof (send_iteration_effect n i b cm e s (or_intror (or_introl Hoff))) as Heff.
      cbv zeta in Heff.
      destruct Heff as (_ & Hgo' & (r1 & _ & _ & _ & _ & Hcase) & _).
      rewrite Hg in Hcase. destruct Hcase as (_ & _ & _ & Hsk0 & _). lia.
Qed.

End hourly_cap.

(** C1 (amended).  When [can_send_message] refuses at a recipient, that
    recipient alone is recorded as ['skipped'] with the blocking reason and
    the loop stops: [processed] and [last_processed_index] stay as they
    are, and the recipients after it get no result.  In a live run where
    the clock stays in one hour, the composer answers and every send
    succeeds, with delays disabled and an hourly limit of [cap] below the
    number of recipients, [_send_messages] appends exactly [cap] ['success']
    results followed by one ['skipped'] result carrying the hourly-limit
    reason, and [processed] grows by [cap] (for [cap = 3] and 5 recipients:
    3 successes, 1 skip, [processed = 3]). *)
Theorem rate_limit_block_skips_one_and_stops :
  (∀ (n i : Z) (b : business.Business) (rest : list business.Business)
     (cm : CampaignManager) (e : Env) (s : Sys),
     (gate e s (delay_manager cm)).1.1 = false →
     let final := (send_loop n i (b :: rest) cm e s).1 in
     ∃ r, results (progress final) = (results (progress cm) ++ [r])%list ∧
          business_name r = business.business_name b ∧ phone r = business.phone b ∧
          status r = "skipped" ∧ error r = (gate e s (delay_manager cm)).1.2 ∧
          skipped (progress final) = skipped (progress cm) + 1 ∧
          processed (progress final) = processed (progress cm) ∧
          last_processed_index (progress final) = last_processed_index (progress cm)) ∧
  (∀ (e : Env) (d : string) (h : Z) (cap : nat) (bs : list business.Business)
     (cm : CampaignManager) (s : Sys),
     (∀ t, strftime_date (clock e t) = d) →
     (∀ t, hour (clock e t) = h) →
     (∀ t b, ∃ m, compose_text e t b = inl m) →
     (∀ t ph m, transport e t ph m = SendReturns true "") →
     dry_run cm = false →
     delay_manager.enable_delays (delay_manager.config (delay_manager cm)) = false →
     delay_manager.enable_hourly_limit (delay_manager.config (delay_manager cm)) = true →
     delay_manager.max_messages_per_hour (delay_manager.config (delay_manager cm))
       = Z.of_nat cap →
     (delay_manager.enable_daily_limit (delay_manager.config (delay_manager cm)) = false ∨
      Z.of_nat cap
      < delay_manager.max_messages_per_day (delay_manager.config (delay_manager cm))) →
     delay_manager.sent_this_hour (delay_manager.stats (delay_manager cm)) = 0 →
     delay_manager.sent_today (delay_manager.stats (delay_manager cm)) = 0 →
     (cap < length bs)%nat →
     let final := (_send_messages bs cm e s).1 in
     map status (runs.new_results cm final) = (replicate cap "success" ++ ["skipped"])%list ∧
     map error (runs.new_results cm final)
     = (replicate cap None
        ++ [Some (delay_manager.hourly_limit_reason
                    (delay_manager.config (delay_manager cm)))])%list ∧
     processed (progress final) = processed (progress cm) + Z.of_nat cap ∧
     skipped (progress final) = skipped (progress cm) + 1).
Proof.
  split.
  - intros n i b rest cm e s Hg. cbv zeta.
    rewrite send_loop_cons. cbv zeta.
    pose proof (send_iteration_effect n i b cm e s (or_introl Hg)) as Heff. cbv zeta in Heff.
    destruct Heff as (_ & Hgo & (r & Hres & Hn & Hp & _ & Hcase) & _).
    rewrite Hg in Hgo, Hcase. rewrite Hgo.
    destruct Hcase as (Hst & Herr & _ & _ & Hsk & Hpr & Hidx & _).
    exists r. cbn [fst snd]. done.
  - intros e d h cap bs cm s Hday Hhour Hcomp Hsend Hdry Hoff Hen Hmax Hdaily Hh0 Hd0 Hlen.
    cbv zeta. rewrite send_messages_eq. cbv zeta. cbn [fst snd].
    set (cm0 := with_progress cm _).
    pose proof (hourly_cap_loop e d h Hday Hhour Hcomp Hsend cap cap bs
                  (Z.of_nat (length bs)) 0 cm0 (next_tick s)) as H.
    cbv zeta in H.
    destruct H as (rs & Hres & Hsts & Herrs & Hpr & Hsk); try done.
    { unfold cm0, counted. cbn. rewrite Hh0, Hd0. split_and!; lia. }
    unfold runs.new_results. cbn [progress with_progress results set_end_time].
    rewrite Hres. unfold cm0 at 1. cbn [progress with_progress results set_start_time].
    rewrite !drop_app_length. cbn in Herrs. split_and!; done.
Qed.

(** C1, the scenario itself: limit of 3 an hour, 5 recipients. *)
Lemma rate_limit_block_skips_one_and_stops_witness :
  let final := (_send_messages five capped_manager steady_env (mk_sys 0 [] ∅)).1 in
  map status (runs.new_results capped_manager final)
  = ["success"; "success"; "success"; "skipped"] ∧
  map error (runs.new_results capped_manager final)
  = [None; None; None; Some "Hourly limit reached (3 messages)"] ∧
  processed (progress final) = 3 ∧ skipped (progress final) = 1.
Proof.
  apply (proj2 rate_limit_block_skips_one_and_stops steady_env "2025-10-16" 12 3%nat five
           capped_manager (mk_sys 0 [] ∅)); try reflexivity.
  - intros t b. eexists. reflexivity.
  - right. reflexivity.
  - cbn. lia.
Defined.

(** C1 as stated fails: with a limit of 3 an hour, 5 recipients and sends
    that all succeed, the run leaves four results, not five, with one
    ['skipped'] among them; the fifth recipient is not recorded at all. *)
Lemma only_the_refused_recipient_is_skipped :
  let final := (_send_messages five capped_manager steady_env (mk_sys 0 [] ∅)).1 in
  map status (results (progress final))
  ≠ ["success"; "success"; "success"; "skipped"; "skipped"] ∧
  length (results (progress final)) = 4%nat ∧
  skipped (progress final) = 1 ∧
  ("Five", "+12025550005") ∉ runs.result_recipients (results (progress final)).
Proof.
  cbv zeta. split_and!.
  - vm_compute. discriminate.
  - vm_compute. reflexivity.
  - vm_compute. reflexivity.
  - vm_compute. intros H. repeat (apply elem_of_cons in H as [H | H]; [discriminate H |]).
    by apply elem_of_nil in H.
Qed.

End facts_c1.

(* ===================================================================== *)
(** ** More on the delay manager *)
(* ===================================================================== *)

Section facts_xd.
Import delay_manager.

(** Once the day bucket is the current one, the recorded sends count: after
    as many [record_message_sent] calls as the daily maximum, all on the
    day of the bucket, [can_send_message] refuses with the daily-limit
    reason. *)
Theorem daily_limit_reached_in_bucket (dm : DelayManager) (n : nat) (e : Env) (s : Sys)
    (d : string) :
  (∀ t, strftime_date (clock e t) = d) →
  current_date (stats dm) = Some d →
  0 <= sent_today (stats dm) →
  enable_daily_limit (config dm) = true →
  max_messages_per_day (config dm) = Z.of_nat n →
  let after := runs.record_many n dm e s in
  (can_send_message after.1 e after.2).1.1
  = (false, Some (daily_limit_reason (config dm))).
Proof.
  intros Hclock Hdate Hpos Hen Hmax.
  pose proof (record_many_effect n dm e s) as Hr. cbv zeta in Hr. cbv zeta.
  destruct (runs.record_many n dm e s) as [dm1 s1]. cbn [fst snd] in *.
  destruct Hr as (Hc1 & _ & _ & Ht & _ & _ & _ & Hd1 & _).
  unfold can_send_message. munfold. cbn [fst snd].
  unfold can_send_message_at. cbn [fst snd].
  unfold roll_date. rewrite Hclock, Hd1, Hdate.
  rewrite bool_decide_eq_true_2 by done.
  unfold check_limits.
  assert (Hst : sent_today (roll_hour (hour (clock e (tick s1))) (stats dm1))
                = sent_today (stats dm1)).
  { unfold roll_hour. by destruct (bool_decide _). }
  rewrite Hst, Hc1, Hen, Hmax, Ht.
  replace (Z.of_nat n <=? sent_today (stats dm) + Z.of_nat n) with true
    by (symmetry; apply Z.leb_le; lia).
  reflexivity.
Qed.

(** Ten sends on the day of the bucket, against a daily maximum of ten. *)
Lemma daily_limit_reached_in_bucket_witness :
  let dm := mk_delay_manager test_config
              (set_current_date (Some "2025-10-16") default_stats) None in
  let after := runs.record_many 10 dm steady_env (mk_sys 0 [] ∅) in
  (can_send_message after.1 steady_env after.2).1.1
  = (false, Some "Daily limit reached (10 messages)").
Proof.
  apply (daily_limit_reached_in_bucket
           (mk_delay_manager test_config
              (set_current_date (Some "2025-10-16") default_stats) None)
           10 steady_env (mk_sys 0 [] ∅) "2025-10-16"); try reflexivity; try done.
Defined.

(** The hour bucket is labelled by the hour of the day alone.  When the
    day changes and the hour of the day is the same as at the last check,
    [can_send_message] resets [sent_today] and keeps [sent_this_hour]: a
    count that reached the hourly limit the day before still refuses. *)
Theorem hourly_count_survives_change_of_day (dm : DelayManager) (e : Env) (s : Sys)
    (d : string) (h : Z) :
  current_date (stats dm) = Some d →
  current_hour (stats dm) = Some h →
  strftime_date (clock e (tick s)) ≠ d →
  hour (clock e (tick s)) = h →
  let out := can_send_message dm e s in
  sent_today (stats out.1.2) = 0 ∧
  sent_this_hour (stats out.1.2) = sent_this_hour (stats dm) ∧
  (enable_hourly_limit (config dm) = true →
   max_messages_per_hour (config dm) ≤ sent_this_hour (stats dm) →
   enable_daily_limit (config dm) = false ∨ 0 < max_messages_per_day (config dm) →
   out.1.1 = (false, Some (hourly_limit_reason (config dm)))).
Proof.
  intros Hd Hh Hnew Hsame. cbv zeta.
  unfold can_send_message. munfold. cbn [fst snd].
  unfold can_send_message_at. cbn [fst snd with_stats stats].
  unfold roll_date. rewrite Hd.
  rewrite bool_decide_eq_false_2 by congruence.
  unfold roll_hour. cbn [current_hour set_sent_today set_current_date].
  rewrite Hh, Hsame. rewrite bool_decide_eq_true_2 by done.
  cbn [sent_today sent_this_hour set_sent_today set_current_date].
  split; [reflexivity |]. split; [reflexivity |].
  intros Hen Hmax Hday. unfold check_limits.
  cbn [sent_today sent_this_hour set_sent_today set_current_date].
  rewrite Hen.
  replace (max_messages_per_hour (config dm) <=? sent_this_hour (stats dm)) with true
    by (symmetry; apply Z.leb_le; lia).
  destruct Hday as [-> | Hpos]; [reflexivity |].
  replace (max_messages_per_day (config dm) <=? 0) with false
    by (symmetry; apply Z.leb_gt; lia).
  by rewrite andb_false_r.
Qed.

(** Three sends at noon of the 15th still refuse at noon of the 16th. *)
Lemma hourly_count_survives_change_of_day_witness :
  let dm := mk_delay_manager quiet_config full_hour_stats None in
  let out := can_send_message dm steady_env (mk_sys 0 [] ∅) in
  sent_today (stats out.1.2) = 0 ∧ sent_this_hour (stats out.1.2) = 3 ∧
  out.1.1 = (false, Some "Hourly limit reached (3 messages)").
Proof.
  pose proof (hourly_count_survives_change_of_day
                (mk_delay_manager quiet_config full_hour_stats None)
                steady_env (mk_sys 0 [] ∅) "2025-10-15" 12
                eq_refl eq_refl) as H.
  cbv zeta in H. destruct H as (H1 & H2 & H3); [discriminate | reflexivity |].
  cbv zeta. split; [exact H1 |]. split; [exact H2 |].
  apply H3; [reflexivity | cbn; lia | right; cbn; lia].
Defined.

(** Asking again within the same day and hour changes nothing: the second
    [can_send_message] gives the verdict of the first and leaves the
    manager as the first left it. *)
Theorem can_send_message_twice (dm : DelayManager) (e : Env) (s : Sys) :
  strftime_date (clock e (S (tick s))) = strftime_date (clock e (tick s)) →
  hour (clock e (S (tick s))) = hour (clock e (tick s)) →
  let first := can_send_message dm e s in
  let second := can_send_message first.1.2 e first.2 in
  second.1 = first.1.
Proof.
  intros Hd Hh. cbv zeta.
  unfold can_send_message. munfold. cbn [fst snd tick next_tick].
  unfold can_send_message_at. cbn [fst snd with_stats stats config].
  rewrite Hd, Hh.
  pose proof (roll_batch_fields (strftime_date (clock e (tick s))) (hour (clock e (tick s)))
                (stats dm)) as R. cbv zeta in R.
  destruct R as (_ & _ & _ & _ & _ & _ & _ & _ & _ & R10 & R11).
  rewrite (roll_current _ _ _ R10 R11). reflexivity.
Qed.

(** Two questions at noon. *)
Lemma can_send_message_twice_witness :
  let dm := mk_delay_manager quiet_config yesterday_stats None in
  let first := can_send_message dm steady_env (mk_sys 0 [] ∅) in
  let second := can_send_message first.1.2 steady_env first.2 in
  second.1 = first.1.
Proof.
  apply (can_send_message_twice (mk_delay_manager quiet_config yesterday_stats None)
           steady_env (mk_sys 0 [] ∅)); reflexivity.
Defined.

(** A wait that has something to draw, on ranges that are in order, returns
    after a countdown of whole seconds: some [n] calls [time.sleep(1)] and
    nothing else.  The delay it counts down is a draw from its range; the
    countdown never sleeps longer than the delay, sleeps less than the
    delay when the clock moves between two readings (for a delay of one
    second it does not sleep at all), and when the wait returns less than a
    second is missing to the delay.  Below the batch threshold the delay is
    a message delay and the manager is untouched; at the threshold it is a
    batch delay, stamped with the time it started, after which the batch
    counter is back at zero and a new threshold is drawn from
    [messages_per_batch]. *)
Theorem wait_sleeps_within_range (force : bool) (dm : DelayManager) (e : Env) (s : Sys) :
  fair_draws e →
  enable_delays (config dm) = true ∨ force = true →
  ranges_ok (config dm) →
  let out := wait_between_messages force dm e s in
  let batch := next_batch_delay_at (stats dm) <=? messages_since_batch_delay (stats dm) in
  let delay :=
    if batch
    then randint_draw e (tick s) (min_batch_delay (config dm)) (max_batch_delay (config dm))
    else randint_draw e (tick s) (min_message_delay (config dm))
           (max_message_delay (config dm)) in
  out.1.2 = None ∧ fs out.2 = fs s ∧
  (∃ n : nat,
     sleeps out.2 = (sleeps s ++ one_second_sleeps n)%list ∧
     (n = 0%nat ∨ Z.of_nat n ≤ delay) ∧
     (time_moves e → n = 0%nat ∨ Z.of_nat n < delay)) ∧
  ((time_time e s).1 + inject_Z delay - 1 < (time_time e out.2).1)%Q ∧
  if batch
  then min_batch_delay (config dm) ≤ delay ≤ max_batch_delay (config dm) ∧
       messages_since_batch_delay (stats out.1.1) = 0 ∧
       (messages_per_batch (config dm)).1 ≤ next_batch_delay_at (stats out.1.1)
         ≤ (messages_per_batch (config dm)).2 ∧
       last_batch_delay_time (stats out.1.1) = Some (clock e (S (tick s)))
  else min_message_delay (config dm) ≤ delay ≤ max_message_delay (config dm) ∧
       out.1.1 = dm.
Proof.
  intros Hfair Hon (H1 & H2 & H3). cbv zeta.
  unfold wait_between_messages.
  assert (Hgo : negb (enable_delays (config dm)) && negb force = false).
  { destruct Hon as [-> | ->]; [reflexivity | apply andb_false_r]. }
  rewrite Hgo.
  pose proof (busy_step e (tick s)) as Hb1.
  pose proof (busy_step e (S (tick s))) as Hb2.
  destruct (next_batch_delay_at (stats dm) <=? messages_since_batch_delay (stats dm)).
  - unfold _do_batch_delay, _reset_batch_threshold, randint. munfold.
    cbn -[_sleep_with_countdown].
    rewrite (proj2 (Z.leb_le _ _) H2).
    match goal with
    | |- context [_sleep_with_countdown ?d ?e' ?s'] =>
        pose proof (sleep_with_countdown_run d e' s') as Hrun; cbv zeta in Hrun;
        destruct (_sleep_with_countdown d e' s') as [[] s2]
    end.
    destruct Hrun as (n & R1 & R2 & R3 & R4 & R5). cbn [fst snd] in R1, R2, R3, R4, R5.
    destruct (messages_per_batch (config dm)) as [lo hi]. cbn [fst snd] in *.
    rewrite (proj2 (Z.leb_le _ _) H3). cbn [fst snd].
    pose proof (busy_step e (tick s2)) as Hb3.
    split; [reflexivity |]. split; [exact R2 |].
    split; [exists n; auto |].
    split.
    + unfold time_time. cbn [fst next_tick tick].
      change (slept (next_tick s2)) with (slept s2).
      cbn [tick next_tick] in R5.
      change (slept _) with (slept s) in R5 at 1. lra.
    + split_and!; try done; try apply Hfair; assumption.
  - unfold randint. munfold. cbn -[_sleep_with_countdown].
    rewrite (proj2 (Z.leb_le _ _) H1).
    match goal with
    | |- context [_sleep_with_countdown ?d ?e' ?s'] =>
        pose proof (sleep_with_countdown_run d e' s') as Hrun; cbv zeta in Hrun;
        destruct (_sleep_with_countdown d e' s') as [[] s2]
    end.
    destruct Hrun as (n & R1 & R2 & R3 & R4 & R5). cbn [fst snd] in *.
    split; [reflexivity |]. split; [exact R2 |].
    split; [exists n; auto |].
    split.
    + unfold time_time. cbn [fst].
      cbn [tick next_tick] in R5.
      change (slept _) with (slept s) in R5 at 1. lra.
    + split; [apply Hfair; assumption | reflexivity].
Qed.

(** A forced wait of the fixture of tests/test_delay_manager.py whose draw
    is the minimum of one second: it returns without sleeping. *)
Lemma wait_sleeps_within_range_witness :
  let dm := mk_delay_manager test_config
              (set_next_batch_delay_at 3 default_stats) None in
  let out := wait_between_messages true dm steady_env (mk_sys 0 [] ∅) in
  out.1.2 = None ∧ sleeps out.2 = [] ∧ out.1.1 = dm.
Proof.
  pose proof (wait_sleeps_within_range true
                (mk_delay_manager test_config (set_next_batch_delay_at 3 default_stats) None)
                steady_env (mk_sys 0 [] ∅)) as H.
  cbv zeta in H. destruct H as (H1 & _ & (n & H2 & _ & H3) & _ & _ & H5).
  - intros t a b Hab. cbn. lia.
  - right. reflexivity.
  - repeat split; cbn; lia.
  - cbv zeta. split; [exact H1 |]. split; [| exact H5].
    assert (Hm : time_moves steady_env) by (intros t; discriminate).
    assert (Hn : n = 0%nat) by (destruct (H3 Hm) as [Hn | Hlt]; [exact Hn | cbn in Hlt; lia]).
    rewrite H2, Hn. reflexivity.
Defined.

(** What [record_message_sent] writes is what the next manager starts from:
    a manager constructed on the same statistics file holds the statistics
    of the recorded send in every field but [next_batch_delay_at], where
    the constructor overwrites the saved threshold with a new draw. *)
Theorem recorded_send_is_reloaded (dm : DelayManager) (path : string)
    (cfg : RateLimitConfig) (e : Env) (s : Sys) :
  stats_file dm = Some path →
  path ≠ "" →
  valid_datetime (clock e (tick s)) = true →
  valid_time (last_batch_delay_time (stats dm)) = true →
  (messages_per_batch cfg).1 ≤ (messages_per_batch cfg).2 →
  let recorded := record_message_sent dm e s in
  init (Some cfg) (Some path) e recorded.2
  = (inl (mk_delay_manager cfg
            (set_next_batch_delay_at
               (randint_draw e (tick recorded.2)
                  (messages_per_batch cfg).1 (messages_per_batch cfg).2)
               (stats recorded.1))
            (Some path)),
     next_tick recorded.2).
Proof.
  intros Hfile Hnamed Hclock Hbatch Hrange. cbv zeta.
  unfold record_message_sent. munfold. cbn [fst snd].
  set (st := record_message_sent_at (clock e (tick s)) (stats dm)).
  unfold init. munfold. cbn [fst snd fs default].
  rewrite (path_of_named path Hnamed).
  unfold _load_stats, _save_stats. cbn [stats_file with_stats stats]. rewrite Hfile.
  rewrite write_json_lookup.
  rewrite load_saved_stats.
  2: { unfold st. cbn. exact Hclock. }
  2: { unfold st. cbn. exact Hbatch. }
  assert (Hst : mk_stats (total_sent st) (sent_today st) (sent_this_hour st)
                  match last_message_time st with
                  | Some d => Some d
                  | None => last_message_time default_stats
                  end
                  match last_batch_delay_time st with
                  | Some d => Some d
                  | None => last_batch_delay_time default_stats
                  end
                  (messages_since_batch_delay st) (next_batch_delay_at st)
                  (current_date st) (current_hour st) (hourly_counts st) (daily_counts st)
                = st).
  { destruct st as [a b c lm lb f g cd ch hc dc]. cbn. by destruct lm, lb. }
  rewrite Hst.
  unfold _reset_batch_threshold, randint. munfold. cbn.
  destruct (messages_per_batch cfg) as [lo hi]. cbn in *.
  by rewrite (proj2 (Z.leb_le lo hi) Hrange).
Qed.

(** One send recorded at noon, then a new manager on the same file: the
    threshold 12 of the saved statistics is replaced by the draw 3. *)
Lemma recorded_send_is_reloaded_witness :
  let recorded := record_message_sent a_delay_manager steady_env (mk_sys 0 [] ∅) in
  ∃ dm, (init (Some test_config) (Some "stats.json") steady_env recorded.2).1 = inl dm ∧
        stats dm = set_next_batch_delay_at 3 (stats recorded.1) ∧
        next_batch_delay_at (stats recorded.1) = 12.
Proof.
  pose proof (recorded_send_is_reloaded a_delay_manager "stats.json" test_config
                steady_env (mk_sys 0 [] ∅) eq_refl) as H.
  cbv zeta in H. cbv zeta. rewrite H.
  - eexists. split; [reflexivity |]. split; reflexivity.
  - discriminate.
  - vm_compute. reflexivity.
  - vm_compute. reflexivity.
  - vm_compute. discriminate.
Defined.

(** [get_statistics] is not a read: it fills in the counters first and asks
    [can_send_message] afterwards.  On the first call of a new day and
    hour the dictionary therefore shows the counters of the old buckets
    next to a verdict taken after they were reset, and the manager is left
    with both counters at zero. *)
Theorem get_statistics_counts_are_stale (dm : DelayManager) (e : Env) (s : Sys) :
  current_date (stats dm) ≠ Some (strftime_date (clock e (S (tick s)))) →
  current_hour (stats dm) ≠ Some (hour (clock e (S (tick s)))) →
  0 < max_messages_per_day (config dm) →
  0 < max_messages_per_hour (config dm) →
  let out := get_statistics dm e s in
  st_sent_today out.1.1 = sent_today (stats dm) ∧
  st_sent_this_hour out.1.1 = sent_this_hour (stats dm) ∧
  st_can_send_more out.1.1 = true ∧ st_limit_reason out.1.1 = None ∧
  sent_today (stats out.1.2) = 0 ∧ sent_this_hour (stats out.1.2) = 0 ∧
  total_sent (stats out.1.2) = total_sent (stats dm).
Proof.
  intros Hd Hh Hday Hhour. cbv zeta.
  unfold get_statistics, can_send_message. munfold. cbn [fst snd tick next_tick].
  unfold can_send_message_at. cbn [fst snd with_stats stats config].
  unfold roll_date. rewrite bool_decide_eq_false_2 by exact Hd.
  unfold roll_hour. cbn [current_hour set_sent_today set_current_date].
  rewrite bool_decide_eq_false_2 by exact Hh.
  unfold check_limits. cbn.
  replace (max_messages_per_day (config dm) <=? 0) with false
    by (symmetry; apply Z.leb_gt; lia).
  replace (max_messages_per_hour (config dm) <=? 0) with false
    by (symmetry; apply Z.leb_gt; lia).
  rewrite !andb_false_r. cbn. split_and!; reflexivity.
Qed.

(** Yesterday's five sends are reported next to today's permission. *)
Lemma get_statistics_counts_are_stale_witness :
  let dm := mk_delay_manager quiet_config yesterday_stats None in
  let out := get_statistics dm steady_env (mk_sys 0 [] ∅) in
  st_sent_today out.1.1 = 5 ∧ st_can_send_more out.1.1 = true ∧
  sent_today (stats out.1.2) = 0.
Proof.
  pose proof (get_statistics_counts_are_stale
                (mk_delay_manager quiet_config yesterday_stats None)
                steady_env (mk_sys 0 [] ∅)) as H.
  cbv zeta in H. destruct H as (H1 & _ & H3 & _ & H5 & _).
  - discriminate.
  - discriminate.
  - cbn. lia.
  - cbn. lia.
  - cbv zeta. split; [exact H1 |]. split; [exact H3 | exact H5].
Defined.

(** [reset_daily_stats] empties today's bucket and nothing else: the total
    and the histories keep the sends of the day, and the statistics file
    (if any) holds the reset statistics.  The daily count restarts from
    zero: after [n] sends recorded the same day, [can_send_message] finds
    [sent_today = n]; it is not refused by the daily limit while [n] is
    below the maximum, and it is refused by it, when the limit is enabled,
    from the maximum on. *)
Theorem reset_daily_stats_reopens_the_day (dm : DelayManager) (n : nat) (e : Env) (s : Sys) :
  strftime_date (clock e (S (tick s) + n)) = strftime_date (clock e (tick s)) →
  let r := reset_daily_stats dm e s in
  let after := runs.record_many n r.1 e r.2 in
  let g := can_send_message after.1 e after.2 in
  sent_today (stats r.1) = 0 ∧
  current_date (stats r.1) = Some (strftime_date (clock e (tick s))) ∧
  total_sent (stats r.1) = total_sent (stats dm) ∧
  daily_counts (stats r.1) = daily_counts (stats dm) ∧
  sent_this_hour (stats r.1) = sent_this_hour (stats dm) ∧
  (∀ path, stats_file dm = Some path →
     fs r.2 !! path = Some (JsonObject (stats_data (stats r.1)))) ∧
  sent_today (stats g.1.2) = Z.of_nat n ∧
  (Z.of_nat n < max_messages_per_day (config dm) →
     g.1.1.2 ≠ Some (daily_limit_reason (config dm))) ∧
  (enable_daily_limit (config dm) = true →
   max_messages_per_day (config dm) ≤ Z.of_nat n →
     g.1.1 = (false, Some (daily_limit_reason (config dm)))).
Proof.
  intros Hsame. cbv zeta.
  unfold reset_daily_stats. munfold. cbn [fst snd].
  set (dm1 := with_stats _ (set_current_date _ _)).
  set (s1 := mk_sys _ _ _).
  pose proof (record_many_effect n dm1 e s1) as Hr. cbv zeta in Hr.
  destruct (runs.record_many n dm1 e s1) as [dm2 s2]. cbn [fst snd] in *.
  destruct Hr as (Hc & _ & _ & Ht & _ & _ & _ & Hd & _ & Htick & _).
  cbn [dm1 s1 with_stats stats config sent_today current_date set_current_date
         set_sent_today tick] in Hc, Ht, Hd, Htick.
  change (tick (next_tick s)) with (S (tick s)) in Htick.
  assert (Hg : sent_today (stats (can_send_message dm2 e s2).1.2) = Z.of_nat n ∧
               (can_send_message dm2 e s2).1.1
               = check_limits (config dm)
                   (roll_hour (hour (clock e (tick s2))) (stats dm2))).
  { unfold can_send_message. munfold. cbn [fst snd].
    unfold can_send_message_at. cbn [fst snd with_stats stats].
    unfold roll_date. rewrite Hd, Htick, Hsame.
    rewrite bool_decide_eq_true_2 by done. rewrite Hc. split; [| reflexivity].
    unfold roll_hour. destruct (bool_decide _); cbn; lia. }
  destruct Hg as [Hg1 Hg2].
  assert (Hst : sent_today (roll_hour (hour (clock e (tick s2))) (stats dm2)) = Z.of_nat n).
  { unfold roll_hour. destruct (bool_decide _); cbn; lia. }
  split_and!; try reflexivity.
  - intros path Hp. cbn [s1 fs]. unfold _save_stats. cbn [dm1 stats_file with_stats stats].
    rewrite Hp. apply write_json_lookup.
  - exact Hg1.
  - intros Hlt. rewrite Hg2. unfold check_limits. rewrite Hst.
    replace (max_messages_per_day (config dm) <=? Z.of_nat n) with false
      by (symmetry; apply Z.leb_gt; lia).
    rewrite andb_false_r.
    destruct (enable_hourly_limit (config dm) && _); cbn; [| discriminate].
    unfold hourly_limit_reason, daily_limit_reason. intros H.
    injection H as H. discriminate H.
  - intros Hen Hmax. rewrite Hg2. unfold check_limits. rewrite Hst, Hen.
    replace (max_messages_per_day (config dm) <=? Z.of_nat n) with true
      by (symmetry; apply Z.leb_le; lia).
    reflexivity.
Qed.

(** The daily bucket of the test fixture, reset after ten sends: nine more
    sends leave the day open, ten close it again. *)
Lemma reset_daily_stats_reopens_the_day_witness :
  let dm := mk_delay_manager test_config
              (mk_stats 10 10 2 None None 2 12 (Some "2025-10-16") (Some 12) ∅
                 {["2025-10-16" := 10]}) None in
  let r := reset_daily_stats dm steady_env (mk_sys 0 [] ∅) in
  let nine := runs.record_many 9 r.1 steady_env r.2 in
  let ten := runs.record_many 10 r.1 steady_env r.2 in
  sent_today (stats r.1) = 0 ∧ total_sent (stats r.1) = 10 ∧
  daily_counts (stats r.1) = {["2025-10-16" := 10]} ∧
  (can_send_message nine.1 steady_env nine.2).1.1.2 ≠ Some "Daily limit reached (10 messages)" ∧
  (can_send_message ten.1 steady_env ten.2).1.1 = (false, Some "Daily limit reached (10 messages)").
Proof.
  pose proof (reset_daily_stats_reopens_the_day
                (mk_delay_manager test_config
                   (mk_stats 10 10 2 None None 2 12 (Some "2025-10-16") (Some 12) ∅
                      {["2025-10-16" := 10]}) None)
                9 steady_env (mk_sys 0 [] ∅) eq_refl) as H9.
  pose proof (reset_daily_stats_reopens_the_day
                (mk_delay_manager test_config
                   (mk_stats 10 10 2 None None 2 12 (Some "2025-10-16") (Some 12) ∅
                      {["2025-10-16" := 10]}) None)
                10 steady_env (mk_sys 0 [] ∅) eq_refl) as H10.
  cbv zeta in H9, H10.
  destruct H9 as (H1 & _ & H3 & H4 & _ & _ & _ & H8 & _).
  destruct H10 as (_ & _ & _ & _ & _ & _ & _ & _ & H9).
  cbv zeta. split; [exact H1 |]. split; [exact H3 |]. split; [exact H4 |].
  split.
  - apply H8. vm_compute. reflexivity.
  - apply H9; [reflexivity | vm_compute; discriminate].
Defined.

Lemma load_stats_setup files0 dm :
  config (_load_stats files0 dm) = config dm ∧
  stats_file (_load_stats files0 dm) = stats_file dm.
Proof.
  unfold _load_stats. destruct (stats_file dm) as [path |] eqn:E; [| by rewrite E].
  destruct (files0 !! path) as [[| data] |]; cbn; by rewrite ?E.
Qed.

(** The two factories always return a manager, whatever the statistics
    file holds: their delay ranges are in order, so neither the
    constructor nor a later wait can raise.  The default factory spells
    out the defaults of [RateLimitConfig]; the manager of the test factory
    has both limits off and never refuses. *)
Theorem factories_return (file : string) (ofile : option string) (e : Env) (s : Sys) :
  (∃ dm, (create_default_delay_manager file e s).1 = inl dm ∧
         config dm = default_config ∧ ranges_ok (config dm) ∧
         stats_file dm = path_of (Some file)) ∧
  (∃ dm, (create_test_delay_manager ofile e s).1 = inl dm ∧
         ranges_ok (config dm) ∧ stats_file dm = path_of ofile ∧
         ∀ e' s' st, (gate e' s' (with_stats dm st)).1 = (true, None)).
Proof.
  split.
  - unfold create_default_delay_manager, init. munfold. cbn [fst snd default].
    match goal with
    | |- context [_load_stats ?f ?d] =>
        pose proof (load_stats_setup f d) as [Hc Hf];
        destruct (_load_stats f d) as [cfg st sf]
    end.
    cbn [config stats_file] in Hc, Hf. subst cfg sf.
    unfold _reset_batch_threshold, randint. munfold. cbn.
    eexists. split; [reflexivity |]. cbn.
    split; [reflexivity |]. split; [| reflexivity].
    unfold ranges_ok. cbn. lia.
  - unfold create_test_delay_manager, init. munfold. cbn [fst snd default].
    match goal with
    | |- context [_load_stats ?f ?d] =>
        pose proof (load_stats_setup f d) as [Hc Hf];
        destruct (_load_stats f d) as [cfg st sf]
    end.
    cbn [config stats_file] in Hc, Hf. subst cfg sf.
    unfold _reset_batch_threshold, randint. munfold. cbn.
    eexists. split; [reflexivity |]. cbn.
    split; [unfold ranges_ok; cbn; lia |]. split; [reflexivity |].
    intros e' s' st'. reflexivity.
Qed.

End facts_xd.

(* ===================================================================== *)
(** ** More on the campaign loop *)
(* ===================================================================== *)

Section facts_xc.
Import campaign_manager.

(** A wait whose two delay ranges are empty raises before it sleeps. *)
Lemma wait_raises (dm : delay_manager.DelayManager) (e : Env) (s : Sys) :
  delay_manager.enable_delays (delay_manager.config dm) = true →
  delay_manager.max_message_delay (delay_manager.config dm)
    < delay_manager.min_message_delay (delay_manager.config dm) →
  delay_manager.max_batch_delay (delay_manager.config dm)
    < delay_manager.min_batch_delay (delay_manager.config dm) →
  ∃ msg, delay_manager.wait_between_messages false dm e s = ((dm, Some msg), next_tick s) ∧
         (msg = empty_range_text e (delay_manager.min_message_delay (delay_manager.config dm))
                  (delay_manager.max_message_delay (delay_manager.config dm)) ∨
          msg = empty_range_text e (delay_manager.min_batch_delay (delay_manager.config dm))
                  (delay_manager.max_batch_delay (delay_manager.config dm))).
Proof.
  intros Hon Hm Hb. unfold delay_manager.wait_between_messages. rewrite Hon. cbn [negb andb].
  destruct (delay_manager.next_batch_delay_at _ <=? _).
  - unfold delay_manager._do_batch_delay, randint. munfold. cbn [fst snd].
    rewrite (proj2 (Z.leb_gt _ _) Hb). eexists. split; [reflexivity | by right].
  - unfold randint. munfold. cbn [fst snd].
    rewrite (proj2 (Z.leb_gt _ _) Hm). eexists. split; [reflexivity | by left].
Qed.

(** With delays on and the bounds of both delay ranges the wrong way round,
    the wait after a successful attempt raises [ValueError]; the loop's
    [except Exception] arm then records a second result for the same
    business, ['failed'] with the text of the exception.  The business is
    counted once in [processed], once in [sent] and once in [failed], no
    sleep is taken, and the loop goes on. *)
Theorem empty_delay_range_gives_second_result (n i : Z) (b : business.Business)
    (cm : CampaignManager) (e : Env) (s : Sys) (m : string) :
  (gate e s (delay_manager cm)).1.1 = true →
  i < n - 1 →
  delay_manager.enable_delays (delay_manager.config (delay_manager cm)) = true →
  delay_manager.max_message_delay (delay_manager.config (delay_manager cm))
    < delay_manager.min_message_delay (delay_manager.config (delay_manager cm)) →
  delay_manager.max_batch_delay (delay_manager.config (delay_manager cm))
    < delay_manager.min_batch_delay (delay_manager.config (delay_manager cm)) →
  compose_text e (S (tick s)) b = inl m →
  dry_run cm = true ∨
    (dry_run cm = false ∧
     ∃ ok err, transport e (S (S (tick s))) (business.phone b) m = SendReturns ok err) →
  let out := send_iteration n i b cm e s in
  let p := progress cm in
  let p' := progress out.1.2 in
  out.1.1 = true ∧
  (∃ r1 r2 msg,
     results p' = (results p ++ [r1; r2])%list ∧
     status r1 = "success" ∧ status r2 = "failed" ∧ error r2 = Some msg ∧
     (msg = empty_range_text e
              (delay_manager.min_message_delay (delay_manager.config (delay_manager cm)))
              (delay_manager.max_message_delay (delay_manager.config (delay_manager cm))) ∨
      msg = empty_range_text e
              (delay_manager.min_batch_delay (delay_manager.config (delay_manager cm)))
              (delay_manager.max_batch_delay (delay_manager.config (delay_manager cm)))) ∧
     business_name r1 = business.business_name b ∧
     business_name r2 = business.business_name b ∧
     phone r1 = business.phone b ∧ phone r2 = business.phone b) ∧
  sent p' = sent p + 1 ∧ failed p' = failed p + 1 ∧
  processed p' = processed p + 1 ∧
  sleeps out.2 = sleeps s.
Proof.
  intros Hg Hi Hon Hm Hb Hc Hok. cbv zeta.
  rewrite (send_iteration_allowed _ _ _ _ _ _ Hg). cbv zeta.
  set (cm0 := with_delay_manager cm (gate e s (delay_manager cm)).2).
  assert (Hsucc : r_status (_send_single_message b cm0 e (next_tick s)).1.1 = "success").
  { destruct Hok as [Hdry | (Hdry & ok & err & Ht)].
    - by rewrite (send_single_dry_run b cm0 e (next_tick s) m Hc Hdry).
    - by rewrite (send_single_sent b cm0 e (next_tick s) m ok err Hc Hdry Ht). }
  pose proof (send_single_effect b cm0 e (next_tick s)) as H1. cbv zeta in H1.
  destruct (_send_single_message b cm0 e (next_tick s)) as [[res cm1] s1].
  cbn [fst snd] in *.
  destruct H1 as (_ & Hp & _ & _ & _ & Hcfg & _ & Hsl & _).
  rewrite Hsucc.
  pose proof (record_result_effect b "success" (r_error res) (r_message res) cm1 e s1
                eq_refl) as H2. cbv zeta in H2.
  destruct (_record_result b "success" (r_error res) (r_message res) cm1 e s1)
    as [cm2 s2]. cbn [fst snd] in *.
  destruct H2 as (R1 & R2 & R3 & R4 & R5 & R6 & R7 & R8 & R9 & R10 & R11 & R12 & R13 & R14 & R15).
  rewrite (proj2 (Z.ltb_lt _ _) Hi), String.eqb_refl. cbn [andb].
  set (cm3 := with_progress cm2 _).
  match goal with
  | |- context [delay_manager.wait_between_messages false (delay_manager cm3) e ?x] =>
      set (s3 := x)
  end.
  assert (Hcfg3 : delay_manager.config (delay_manager cm3)
                  = delay_manager.config (delay_manager cm)).
  { unfold cm3. cbn [delay_manager with_progress]. rewrite R10, Hcfg. reflexivity. }
  destruct (wait_raises (delay_manager cm3) e s3) as (msg & Hwait & Hmsg);
    try (rewrite Hcfg3; assumption).
  rewrite Hwait. cbn [fst snd].
  pose proof (record_result_effect b "failed" (Some msg) None
                (with_delay_manager cm3 (delay_manager cm3)) e (next_tick s3) eq_refl) as H5.
  cbv zeta in H5.
  destruct (_record_result b "failed" (Some msg) None
              (with_delay_manager cm3 (delay_manager cm3)) e (next_tick s3)) as [cm5 s5].
  cbn [fst snd] in *.
  destruct H5 as (Q1 & Q2 & Q3 & Q4 & Q5 & Q6 & Q7 & Q8 & Q9 & Q10 & Q11 & Q12 & Q13 & Q14 & Q15).
  cbn [progress with_delay_manager] in Q1, Q2, Q3, Q5.
  unfold cm3 in Q1, Q2, Q3, Q5.
  cbn [progress with_progress results sent failed processed set_last_processed_index
       set_processed] in Q1, Q2, Q3, Q5.
  rewrite Hp in R1, R2, R3, R5. cbn [progress with_delay_manager cm0] in R1, R2, R3, R5.
  cbn in R2, R3, Q2, Q3.
  rewrite Hcfg3 in Hmsg.
  split; [reflexivity |]. split; [| split_and!].
  - eexists _, _, msg. rewrite Q1, R1, <- app_assoc. cbn [app].
    split; [reflexivity |]. cbn. split_and!; try done.
  - lia.
  - lia.
  - lia.
  - rewrite Q14. cbn [sleeps next_tick]. unfold s3.
    change (sleeps (next_tick s)) with (sleeps s) in Hsl.
    destruct (_ =? 0); cbn [sleeps]; congruence.
Qed.

(** A dry run with the bounds [90, 20] and [900, 300]: the first of five
    recipients gets a success and a failure. *)
Lemma empty_delay_range_gives_second_result_witness :
  let out := send_iteration 5 0 a_business inverted_manager steady_env (mk_sys 0 [] ∅) in
  map status (results (progress out.1.2)) = ["success"; "failed"] ∧
  sent (progress out.1.2) = 1 ∧ failed (progress out.1.2) = 1 ∧
  processed (progress out.1.2) = 1.
Proof.
  pose proof (empty_delay_range_gives_second_result 5 0 a_business inverted_manager
                steady_env (mk_sys 0 [] ∅) "Hello" eq_refl) as H.
  cbv zeta in H.
  destruct H as (_ & (r1 & r2 & msg & Hres & H1 & H2 & _) & Hs & Hf & Hp & _).
  - lia.
  - reflexivity.
  - vm_compute. reflexivity.
  - vm_compute. reflexivity.
  - reflexivity.
  - left. reflexivity.
  - cbv zeta. rewrite Hres. change (results (progress inverted_manager)) with (@nil MessageResult).
    cbn [app map]. rewrite H1, H2. split; [reflexivity |].
    split; [exact Hs |]. split; [exact Hf | exact Hp].
Defined.

(** Over a whole [_send_messages], whichever way its passes end, the three
    outcome counters grow by exactly the number of results appended: the
    difference between [sent + failed + skipped] and the number of results
    is the same after the run as before it. *)
Theorem send_messages_keeps_balance (bs : list business.Business) (cm : CampaignManager)
    (e : Env) (s : Sys) :
  let out := _send_messages bs cm e s in
  let p := progress cm in
  let p' := progress out.1 in
  sent p' + failed p' + skipped p' - Z.of_nat (length (results p'))
  = sent p + failed p + skipped p - Z.of_nat (length (results p)).
Proof.
  cbv zeta.
  pose proof (send_messages_counts bs cm e s) as H. cbv zeta in H.
  destruct H as (rs & Hr & Hs & Hf & Hk & Hv).
  pose proof (count_status_total rs Hv) as Ht.
  rewrite Hr, length_app, Hs, Hf, Hk. lia.
Qed.

(** When no wait can raise, [processed] counts exactly the attempts of the
    run: it grows by [sent]'s growth plus [failed]'s growth.  The run skips
    at most one recipient, the one at which it stops; [processed] and
    [skipped] together grow by the number of results; and a run that skips
    nobody processes the whole list. *)
Theorem processed_counts_the_attempts (bs : list business.Business) (cm : CampaignManager)
    (e : Env) (s : Sys) :
  waits_return (delay_manager.config (delay_manager cm)) →
  let out := _send_messages bs cm e s in
  let p := progress cm in
  let p' := progress out.1 in
  processed p' - processed p = (sent p' - sent p) + (failed p' - failed p) ∧
  0 ≤ skipped p' - skipped p ≤ 1 ∧
  (processed p' - processed p) + (skipped p' - skipped p)
  = Z.of_nat (length (runs.new_results cm out.1)) ∧
  (skipped p' = skipped p → processed p' = processed p + Z.of_nat (length bs)).
Proof.
  intros Hw. cbv zeta.
  pose proof (send_messages_trace bs cm e s Hw) as H. cbv zeta in H.
  destruct H as (_ & j & stopped & rs & Hj & Hpr & Hsk & Hs & Hf & Hres & Hrec & Hatt & Hskp).
  assert (Hlen : length rs = (j + (if stopped then 1 else 0))%nat).
  { apply (f_equal (@length _)) in Hrec.
    unfold runs.result_recipients, runs.recipients in Hrec.
    rewrite !length_map, length_take in Hrec. destruct stopped; lia. }
  assert (Hcount : count_status "success" rs + count_status "failed" rs = Z.of_nat j).
  { rewrite <- (take_drop j rs), !count_status_app.
    pose proof (count_status_attempted _ Hatt) as A.
    pose proof (count_status_skipped _ Hskp) as [B1 B2].
    rewrite length_take in A. lia. }
  unfold runs.new_results. rewrite Hres, drop_app_length, Hlen.
  split_and!.
  - lia.
  - destruct stopped; lia.
  - destruct stopped; lia.
  - destruct stopped; lia.
  - intros Hno. destruct stopped; [lia |]. rewrite Hpr, Hj. reflexivity.
Qed.

(** Five recipients, an hourly limit of three. *)
Lemma processed_counts_the_attempts_witness :
  let out := _send_messages five capped_manager steady_env (mk_sys 0 [] ∅) in
  processed (progress out.1) - processed (progress capped_manager)
  = (sent (progress out.1) - sent (progress capped_manager))
    + (failed (progress out.1) - failed (progress capped_manager)) ∧
  0 ≤ skipped (progress out.1) - skipped (progress capped_manager) ≤ 1.
Proof.
  pose proof (processed_counts_the_attempts five capped_manager steady_env (mk_sys 0 [] ∅))
    as H.
  cbv zeta in H. destruct H as (H1 & H2 & _).
  - left. reflexivity.
  - cbv zeta. split; [exact H1 | exact H2].
Defined.

(** Whatever its passes do, the loop keeps the manager's mode, files and
    configuration and the three progress fields it never assigns. *)
Lemma send_loop_setup bs : ∀ n i cm e s,
  let out := send_loop n i bs cm e s in
  same_setup out.1 cm ∧
  total_businesses (progress out.1) = total_businesses (progress cm) ∧
  start_time (progress out.1) = start_time (progress cm) ∧
  end_time (progress out.1) = end_time (progress cm).
Proof.
  induction bs as [| b rest IH]; intros n i cm e s.
  - cbn. split; [apply same_setup_refl | done].
  - cbv zeta. rewrite send_loop_cons. cbv zeta.
    pose proof (send_iteration_setup n i b cm e s) as H. cbv zeta in H.
    destruct (send_iteration n i b cm e s) as [[go cm1] s1]. cbn [fst snd] in *.
    destruct H as (Hset & _ & T1 & T2 & T3).
    destruct go; [| done].
    specialize (IH n (i + 1) cm1 e s1). cbv zeta in IH.
    destruct IH as (Hset' & U1 & U2 & U3).
    split; [eapply same_setup_trans; eassumption |].
    split_and!; congruence.
Qed.

(** A run that has a progress file ends by writing it: the file then holds
    the final counters, index and start time, and a manager constructed on
    it loads exactly the persisted part of the final progress. *)
Theorem finished_run_is_on_disk (bs : list business.Business) (cm : CampaignManager)
    (path : string) (e : Env) (s : Sys) :
  progress_file cm = Some path →
  path ≠ "" →
  valid_datetime (clock e (tick s)) = true →
  let out := _send_messages bs cm e s in
  fs out.2 !! path = Some (JsonObject (progress_data (progress out.1))) ∧
  start_time (progress out.1) = Some (clock e (tick s)) ∧
  progress (_load_progress (fs out.2)
              (new_manager (delay_manager out.1) (Some path) (dry_run cm)))
  = persisted (progress out.1).
Proof.
  intros Hfile Hnamed Hclock. cbv zeta.
  rewrite send_messages_eq. cbv zeta. cbn [fst snd fs].
  set (cm0 := with_progress cm _).
  pose proof (send_loop_setup bs (Z.of_nat (length bs)) 0 cm0 e (next_tick s)) as H.
  cbv zeta in H.
  destruct (send_loop (Z.of_nat (length bs)) 0 bs cm0 e (next_tick s)) as [cm1 s1].
  cbn [fst snd] in *.
  destruct H as ((_ & Hpf & _) & _ & Hst & _).
  unfold cm0 in Hpf, Hst. cbn in Hpf, Hst.
  set (cm2 := with_progress cm1 _).
  assert (Hlook : save_progress_files cm2 (fs s1) !! path
                  = Some (JsonObject (progress_data (progress cm2)))).
  { unfold save_progress_files. unfold cm2 at 1. cbn [progress_file with_progress].
    rewrite Hpf, Hfile. apply write_json_lookup. }
  assert (Hstart : start_time (progress cm2) = Some (clock e (tick s))).
  { unfold cm2. cbn. exact Hst. }
  split; [exact Hlook |]. split; [exact Hstart |].
  unfold _load_progress, new_manager. cbn [progress_file].
  rewrite (path_of_named path Hnamed), Hlook. cbn [with_progress progress].
  assert (Hv : valid_time (start_time (progress cm2)) = true).
  { rewrite Hstart. exact Hclock. }
  rewrite (load_saved_progress _ _ Hv).
  unfold persisted. rewrite Hstart. reflexivity.
Qed.

(** A dry run over five recipients with a progress file. *)
Lemma finished_run_is_on_disk_witness :
  let cm := new_manager (new_delay_manager open_config None) (Some "progress.json") true in
  let out := _send_messages five cm steady_env (mk_sys 0 [] ∅) in
  fs out.2 !! "progress.json" = Some (JsonObject (progress_data (progress out.1))) ∧
  start_time (progress out.1) = Some noon.
Proof.
  pose proof (finished_run_is_on_disk five
                (new_manager (new_delay_manager open_config None) (Some "progress.json") true)
                "progress.json" steady_env (mk_sys 0 [] ∅) eq_refl) as H.
  cbv zeta in H. destruct H as (H1 & H2 & _).
  - discriminate.
  - vm_compute. reflexivity.
  - cbv zeta. split; [exact H1 | exact H2].
Defined.

(** A loop that skips nobody leaves the position of its last recipient in
    [last_processed_index]: positions are counted from the [i] the loop
    starts at. *)
Lemma send_loop_last_index bs : ∀ n i cm e s,
  waits_return (delay_manager.config (delay_manager cm)) →
  bs ≠ [] →
  let out := send_loop n i bs cm e s in
  skipped (progress out.1) = skipped (progress cm) →
  last_processed_index (progress out.1) = i + Z.of_nat (length bs) - 1.
Proof.
  induction bs as [| b rest IH]; intros n i cm e s Hw Hne; [done |].
  cbv zeta. rewrite send_loop_cons. cbv zeta.
  pose proof (send_iteration_effect n i b cm e s (or_intror Hw)) as H. cbv zeta in H.
  destruct (send_iteration n i b cm e s) as [[go cm1] s1]. cbn [fst snd] in *.
  destruct H as (Hset & Hgo & (r & _ & _ & _ & _ & Hcase) & _).
  rewrite <- Hgo in Hcase. destruct go.
  - destruct Hcase as (_ & _ & _ & Hsk & _ & Hidx).
    assert (Hw1 : waits_return (delay_manager.config (delay_manager cm1))).
    { destruct Hset as (_ & _ & -> & _). exact Hw. }
    destruct rest as [| b' rest'].
    + cbn. intros _. rewrite Hidx. lia.
    + specialize (IH n (i + 1) cm1 e s1 Hw1). cbv zeta in IH.
      intros Hno. rewrite IH; [cbn [length]; lia | done | congruence].
  - destruct Hcase as (_ & _ & _ & _ & Hsk & _). cbn. intros Hno. lia.
Qed.

(** In a resumed run the loop enumerates the remaining recipients from
    zero, so [last_processed_index] ends as a position in the remaining
    list, not in the original one: after resuming behind position [k] and
    processing everything that was left, the index is
    [len(all) - (k + 1) - 1], short of the last position of the original
    list by [k + 1], while [processed] is the length of the original
    list. *)
Theorem resumed_index_is_relative (all : list business.Business) (k : Z)
    (p0 : CampaignProgress) (dm : delay_manager.DelayManager) (file : string)
    (dry : bool) (e : Env) (s : Sys) :
  0 <= k → k + 1 < Z.of_nat (length all) →
  file ≠ "" →
  waits_return (delay_manager.config dm) →
  fs s !! file = Some (JsonObject (progress_data p0)) →
  last_processed_index p0 = k →
  processed p0 = k + 1 →
  let final := (runs.resumed_run all dm file dry e s).1 in
  skipped (progress final) = skipped p0 →
  last_processed_index (progress final) = Z.of_nat (length all) - (k + 1) - 1 ∧
  processed (progress final) = Z.of_nat (length all).
Proof.
  intros Hk0 Hk Hnamed Hwr Hfile Hidx Hproc. cbv zeta.
  unfold runs.resumed_run, runs.campaign, init.
  unfold mbind, mret, M_bind, M_ret, world.bind, world.ret, get_files. cbn [fst snd].
  unfold _load_progress. cbn [progress_file].
  rewrite (path_of_named file Hnamed), Hfile.
  pose proof (load_saved_counters p0 default_progress) as L. cbv zeta in L.
  cbn [progress with_progress].
  set (loaded := try_steps (load_progress_steps (progress_data p0)) default_progress) in *.
  destruct L as (L1 & L2 & L3 & L4 & L5 & L6 & _).
  unfold _load_businesses. cbn [progress with_progress]. rewrite L1, Hidx.
  rewrite (proj2 (Z.leb_le 0 k) Hk0).
  assert (Hlen : Z.of_nat (length (drop (Z.to_nat (k + 1)) all))
                 = Z.of_nat (length all) - (k + 1)).
  { rewrite length_drop. lia. }
  destruct (drop (Z.to_nat (k + 1)) all) as [| b rest] eqn:Hd.
  { cbn [length] in Hlen. lia. }
  unfold analytics_tracker.start_campaign, analytics_tracker.end_campaign.
  unfold mbind, mret, M_bind, M_ret, world.bind, world.ret, now. cbn [fst snd].
  match goal with
  | |- context [_send_messages (b :: rest) ?c e ?s1] =>
      set (c0 := c); set (s0 := s1)
  end.
  pose proof (send_messages_trace (b :: rest) c0 e s0 Hwr) as T. cbv zeta in T.
  rewrite send_messages_eq in T |- *. cbv zeta in T |- *. cbn [fst snd] in T |- *.
  set (c1 := with_progress c0 _) in *.
  pose proof (send_loop_last_index (b :: rest) (Z.of_nat (length (b :: rest))) 0 c1 e
                (next_tick s0) Hwr ltac:(done)) as I. cbv zeta in I.
  destruct (send_loop (Z.of_nat (length (b :: rest))) 0 (b :: rest) c1 e (next_tick s0))
    as [cm1 s2].
  cbn [fst snd progress with_progress with_tracker] in *.
  destruct T as (_ & j & stopped & rs & Hj & Hpr & Hsk & _).
  cbn [last_processed_index skipped processed set_end_time] in *.
  unfold c1, c0 in I, Hsk, Hpr.
  cbn [progress with_progress with_tracker skipped processed set_start_time
       set_total_businesses] in I, Hsk, Hpr.
  rewrite L5 in I, Hsk. rewrite L2, Hproc in Hpr.
  intros Hno. split.
  - rewrite (I Hno). lia.
  - destruct stopped; [lia |]. rewrite Hpr, Hj. lia.
Qed.

(** Five recipients, resumed behind position 1: the run ends with index 2
    where the last recipient has position 4. *)
Lemma resumed_index_is_relative_witness :
  let final := (runs.resumed_run five (new_delay_manager open_config None)
                  "progress.json" true steady_env
                  (mk_sys 0 [] {["progress.json" := JsonObject (progress_data saved_after_two)]})).1 in
  last_processed_index (progress final) = 2 ∧ processed (progress final) = 5.
Proof.
  pose proof (resumed_index_is_relative five 1 saved_after_two
                (new_delay_manager open_config None) "progress.json" true steady_env
                (mk_sys 0 [] {["progress.json" := JsonObject (progress_data saved_after_two)]}))
    as H.
  cbv zeta in H. cbv zeta. apply H.
  - lia.
  - cbn. lia.
  - discriminate.
  - left. reflexivity.
  - reflexivity.
  - reflexivity.
  - reflexivity.
  - vm_compute. reflexivity.
Defined.

Lemma tracker_follows_refl cm : tracker_follows cm cm.
Proof. unfold tracker_follows. tauto. Qed.

Lemma tracker_follows_trans a b c :
  tracker_follows a b → tracker_follows b c → tracker_follows a c.
Proof. unfold tracker_follows. intuition congruence. Qed.

(** [_record_result] moves the progress counter and the tracker's counter
    of the same outcome together. *)
Lemma record_result_tracker b st err msg cm e s :
  runs.valid_status st = true →
  tracker_follows cm (_record_result b st err msg cm e s).1.
Proof.
  intros Hst. unfold runs.valid_status in Hst.
  unfold tracker_follows, metrics, _record_result. munfold.
  unfold analytics_tracker.track_message_sent, analytics_tracker.track_message_failed,
    analytics_tracker.track_message_skipped. munfold.
  destruct (String.eqb st "success") eqn:E1.
  { cbn. split_and!; try done; lia. }
  destruct (String.eqb st "failed") eqn:E2.
  { cbn. split_and!; try done; lia. }
  destruct (String.eqb st "skipped") eqn:E3.
  { cbn. split_and!; try done; lia. }
  discriminate.
Qed.

Lemma send_iteration_tracker n i b cm e s :
  tracker_follows cm (send_iteration n i b cm e s).1.2.
Proof.
  destruct ((gate e s (delay_manager cm)).1.1) eqn:Hg.
  - rewrite (send_iteration_allowed _ _ _ _ _ _ Hg). cbv zeta.
    set (cm0 := with_delay_manager cm (gate e s (delay_manager cm)).2).
    assert (H0 : tracker_follows cm cm0) by exact (tracker_follows_refl cm).
    pose proof (send_single_effect b cm0 e (next_tick s)) as H1. cbv zeta in H1.
    destruct (_send_single_message b cm0 e (next_tick s)) as [[res cm1] s1].
    cbn [fst snd] in *.
    destruct H1 as (Hst & Hp & _ & _ & Ha & _).
    assert (H01 : tracker_follows cm cm1).
    { unfold tracker_follows, metrics in *. rewrite Ha, Hp. exact H0. }
    assert (Hv : runs.valid_status (r_status res) = true).
    { unfold runs.valid_status. destruct Hst as [-> | ->]; reflexivity. }
    pose proof (record_result_tracker b (r_status res) (r_error res) (r_message res)
                  cm1 e s1 Hv) as H2.
    destruct (_record_result b (r_status res) (r_error res) (r_message res) cm1 e s1)
      as [cm2 s2]. cbn [fst snd] in *.
    pose proof (tracker_follows_trans _ _ _ H01 H2) as H02.
    set (cm3 := with_progress cm2 _).
    assert (H03 : tracker_follows cm cm3) by exact H02.
    clearbody cm3.
    destruct ((i <? n - 1) && String.eqb (r_status res) "success"); [| exact H03].
    destruct (delay_manager.wait_between_messages false (delay_manager cm3) e _)
      as [[dm4 exn] s4]. cbn [fst snd].
    assert (H04 : tracker_follows cm (with_delay_manager cm3 dm4)) by exact H03.
    destruct exn as [msg |]; cbn [fst snd]; [| exact H04].
    eapply tracker_follows_trans; [exact H04 |].
    by apply record_result_tracker.
  - rewrite (send_iteration_blocked _ _ _ _ _ _ Hg). cbv zeta. cbn [fst snd].
    apply (tracker_follows_trans cm
             (with_delay_manager cm (gate e s (delay_manager cm)).2)).
    + exact (tracker_follows_refl cm).
    + apply (record_result_tracker b "skipped"). reflexivity.
Qed.

(** Over a whole [_send_messages] the analytics tracker counts what the
    progress counts: [messages_sent], [messages_failed] and
    [messages_skipped] grow as [sent], [failed] and [skipped] do.  Its
    [rate_limit_hits] and [batch_delays_triggered] do not move, even in a
    run that the rate limit stopped or that took batch delays: the
    campaign manager calls neither [track_rate_limit_hit] nor
    [track_batch_delay]. *)
Theorem tracker_moves_with_progress (bs : list business.Business) (cm : CampaignManager)
    (e : Env) (s : Sys) :
  tracker_follows cm (_send_messages bs cm e s).1.
Proof.
  rewrite send_messages_eq. cbv zeta. cbn [fst].
  set (cm0 := with_progress cm _).
  pose proof (send_loop_invariant (λ cm' _, tracker_follows cm cm')
                (Z.of_nat (length bs)) e) as Hinv.
  cbv beta in Hinv.
  specialize (Hinv (λ i b cm1 s1 H,
                tracker_follows_trans _ _ _ H (send_iteration_tracker _ i b cm1 e s1))
              bs 0 cm0 (next_tick s) (tracker_follows_refl cm)).
  exact Hinv.
Qed.

(** With both limits switched off (as [create_test_delay_manager] does)
    [can_send_message] never refuses, so a run whose waits return skips
    nobody: every recipient of the list gets exactly one result, in list
    order, and [processed] grows by the length of the list. *)
Theorem limits_disabled_nobody_skipped (bs : list business.Business)
    (cm : CampaignManager) (e : Env) (s : Sys) :
  delay_manager.enable_daily_limit (delay_manager.config (delay_manager cm)) = false →
  delay_manager.enable_hourly_limit (delay_manager.config (delay_manager cm)) = false →
  waits_return (delay_manager.config (delay_manager cm)) →
  let out := _send_messages bs cm e s in
  skipped (progress out.1) = skipped (progress cm) ∧
  runs.result_recipients (runs.new_results cm out.1) = runs.recipients bs ∧
  processed (progress out.1) = processed (progress cm) + Z.of_nat (length bs).
Proof.
  intros Hd Hh Hw. cbv zeta.
  assert (Hsk : skipped (progress (_send_messages bs cm e s).1) = skipped (progress cm)).
  { rewrite send_messages_eq. cbv zeta. cbn [fst progress with_progress skipped set_end_time].
    set (cm0 := with_progress cm _).
    pose proof (send_loop_invariant
      (λ cm' _, delay_manager.config (delay_manager cm')
                = delay_manager.config (delay_manager cm) ∧
                skipped (progress cm') = skipped (progress cm))
      (Z.of_nat (length bs)) e) as Hinv.
    cbv beta in Hinv.
    destruct (Hinv) with (bs := bs) (i := 0) (cm := cm0) (s := next_tick s) as (_ & H2).
    - intros i b cm1 s1 (Hc & Hk).
      assert (Hg : (gate e s1 (delay_manager cm1)).1.1 = true).
      { rewrite gate_open; [reflexivity | by rewrite Hc | by rewrite Hc]. }
      pose proof (send_iteration_effect (Z.of_nat (length bs)) i b cm1 e s1) as He.
      cbv zeta in He. destruct He as ((_ & _ & Hc' & _) & _ & (r & _ & _ & _ & _ & Hcase) & _).
      { right. by rewrite Hc. }
      rewrite Hg in Hcase. destruct Hcase as (_ & _ & _ & Hk' & _).
      split; congruence.
    - unfold cm0. cbn. done.
    - exact H2. }
  pose proof (send_messages_trace bs cm e s Hw) as H. cbv zeta in H.
  destruct H as (_ & j & stopped & rs & Hj & Hpr & Hsk' & _ & _ & Hres & Hrec & _).
  destruct stopped; [lia |].
  split; [exact Hsk |]. split.
  - unfold runs.new_results. rewrite Hres, drop_app_length, Hrec, Hj, Nat.add_0_r.
    by rewrite firstn_all.
  - rewrite Hpr, Hj. reflexivity.
Qed.

(** Five recipients, no limits. *)
Lemma limits_disabled_nobody_skipped_witness :
  let out := _send_messages five open_manager steady_env (mk_sys 0 [] ∅) in
  skipped (progress out.1) = 0 ∧
  runs.result_recipients (runs.new_results open_manager out.1) = runs.recipients five ∧
  processed (progress out.1) = 5.
Proof.
  apply (limits_disabled_nobody_skipped five open_manager steady_env (mk_sys 0 [] ∅));
    [reflexivity | reflexivity | left; reflexivity].
Defined.

Lemma write_json_other path p data files0 :
  p ≠ path → write_json p data files0 !! path = files0 !! path.
Proof.
  intros Hne. unfold write_json, write_steps, run_steps, open_w, json_dump. cbn [fold_left].
  by rewrite !lookup_insert_ne.
Qed.

Lemma save_stats_other dm path files0 :
  delay_manager.stats_file dm ≠ Some path →
  delay_manager._save_stats dm files0 !! path = files0 !! path.
Proof.
  intros Hne. unfold delay_manager._save_stats.
  destruct (delay_manager.stats_file dm) as [p |]; [| reflexivity].
  apply write_json_other. congruence.
Qed.

Lemma save_progress_other cm path files0 :
  progress_file cm ≠ Some path →
  save_progress_files cm files0 !! path = files0 !! path.
Proof.
  intros Hne. unfold save_progress_files.
  destruct (progress_file cm) as [p |]; [| reflexivity].
  apply write_json_other. congruence.
Qed.

Lemma send_single_other b cm e s path :
  delay_manager.stats_file (delay_manager cm) ≠ Some path →
  fs (_send_single_message b cm e s).2 !! path = fs s !! path.
Proof.
  intros Hne.
  destruct (compose_text e (tick s) b) as [m | msg] eqn:Hc.
  2: { by rewrite (send_single_compose_raises _ _ _ _ _ Hc). }
  destruct (dry_run cm) eqn:Hd.
  { by rewrite (send_single_dry_run _ _ _ _ _ Hc Hd). }
  destruct (transport e (S (tick s)) (business.phone b) m) as [ok err | msg] eqn:Ht.
  - rewrite (send_single_sent _ _ _ _ _ _ _ Hc Hd Ht). cbn [snd fs].
    by apply save_stats_other.
  - by rewrite (send_single_raises _ _ _ _ _ _ Hc Hd Ht).
Qed.

Lemma send_iteration_other n i b cm e s path :
  progress_file cm ≠ Some path →
  delay_manager.stats_file (delay_manager cm) ≠ Some path →
  fs (send_iteration n i b cm e s).2 !! path = fs s !! path.
Proof.
  intros Hp Hs.
  destruct ((gate e s (delay_manager cm)).1.1) eqn:Hg.
  - rewrite (send_iteration_allowed _ _ _ _ _ _ Hg). cbv zeta.
    set (cm0 := with_delay_manager cm (gate e s (delay_manager cm)).2).
    pose proof (send_single_other b cm0 e (next_tick s) path Hs) as F1.
    pose proof (send_single_effect b cm0 e (next_tick s)) as H1. cbv zeta in H1.
    destruct (_send_single_message b cm0 e (next_tick s)) as [[res cm1] s1].
    cbn [fst snd] in *.
    destruct H1 as (Hst & _ & _ & Hpf & _).
    assert (Hv : runs.valid_status (r_status res) = true).
    { unfold runs.valid_status. destruct Hst as [-> | ->]; reflexivity. }
    pose proof (record_result_effect b (r_status res) (r_error res) (r_message res)
                  cm1 e s1 Hv) as H2. cbv zeta in H2.
    destruct (_record_result b (r_status res) (r_error res) (r_message res) cm1 e s1)
      as [cm2 s2]. cbn [fst snd] in *.
    destruct H2 as (_ & _ & _ & _ & _ & _ & _ & _ & _ & _ & _ & R12 & _ & _ & R15).
    set (cm3 := with_progress cm2 _).
    assert (Hpf3 : progress_file cm3 ≠ Some path).
    { unfold cm3. cbn [progress_file with_progress]. rewrite R12, Hpf. exact Hp. }
    match goal with
    | |- context [if ?c then mk_sys ?a ?b ?d else s2] =>
        set (s3 := if c then mk_sys a b d else s2)
    end.
    assert (F3 : fs s3 !! path = fs s !! path).
    { unfold s3. destruct (_ =? 0); cbn [fs].
      - rewrite (save_progress_other cm3 path _ Hpf3), R15. exact F1.
      - rewrite R15. exact F1. }
    clearbody cm3 s3.
    destruct ((i <? n - 1) && String.eqb (r_status res) "success"); [| exact F3].
    pose proof (wait_effect false (delay_manager cm3) e s3) as H4. cbv zeta in H4.
    destruct (delay_manager.wait_between_messages false (delay_manager cm3) e s3)
      as [[dm4 exn] s4]. cbn [fst snd] in *.
    destruct H4 as (_ & _ & _ & _ & W5).
    destruct exn as [msg |]; cbn [fst snd]; [| rewrite W5; exact F3].
    pose proof (record_result_effect b "failed" (Some msg) None
                  (with_delay_manager cm3 dm4) e s4 eq_refl) as H5. cbv zeta in H5.
    destruct (_record_result b "failed" (Some msg) None (with_delay_manager cm3 dm4) e s4)
      as [cm5 s5]. cbn [fst snd] in *.
    destruct H5 as (_ & _ & _ & _ & _ & _ & _ & _ & _ & _ & _ & _ & _ & _ & Q15).
    rewrite Q15, W5. exact F3.
  - rewrite (send_iteration_blocked _ _ _ _ _ _ Hg). cbv zeta. cbn [snd].
    pose proof (record_result_effect b "skipped" (gate e s (delay_manager cm)).1.2 None
                  (with_delay_manager cm (gate e s (delay_manager cm)).2)
                  e (next_tick s) eq_refl) as H2. cbv zeta in H2.
    destruct (_record_result b "skipped" _ None _ e (next_tick s)) as [cm2 s2].
    cbn [fst snd] in *.
    destruct H2 as (_ & _ & _ & _ & _ & _ & _ & _ & _ & _ & _ & _ & _ & _ & R15).
    rewrite R15. reflexivity.
Qed.

(** A run of [_send_messages] writes to its progress file and to the
    statistics file of its delay manager and to nothing else: every other
    path of the file system holds after the run what it held before. *)
Theorem campaign_writes_only_its_files (bs : list business.Business)
    (cm : CampaignManager) (e : Env) (s : Sys) (path : string) :
  progress_file cm ≠ Some path →
  delay_manager.stats_file (delay_manager cm) ≠ Some path →
  fs (_send_messages bs cm e s).2 !! path = fs s !! path.
Proof.
  intros Hp Hs.
  rewrite send_messages_eq. cbv zeta. cbn [snd fs].
  set (cm0 := with_progress cm _).
  pose proof (send_loop_invariant
    (λ cm' s', same_setup cm' cm ∧ fs s' !! path = fs s !! path)
    (Z.of_nat (length bs)) e) as Hinv.
  cbv beta in Hinv.
  destruct (Hinv) with (bs := bs) (i := 0) (cm := cm0) (s := next_tick s)
    as ((_ & Hpf & _) & H2).
  - intros i b cm1 s1 (Hset & Hfs).
    pose proof (send_iteration_setup (Z.of_nat (length bs)) i b cm1 e s1) as He.
    cbv zeta in He. destruct He as (Hset' & _).
    split; [eapply same_setup_trans; eassumption |].
    destruct Hset as (_ & Hpf1 & _ & Hsf1).
    rewrite send_iteration_other; [exact Hfs | by rewrite Hpf1 | by rewrite Hsf1].
  - split; [exact (same_setup_refl cm) | reflexivity].
  - rewrite save_progress_other; [exact H2 |].
    cbn [progress_file with_progress]. by rewrite Hpf.
Qed.

(** A live run over five recipients leaves a report written earlier alone. *)
Lemma campaign_writes_only_its_files_witness :
  let cm := new_manager (new_delay_manager open_config (Some "stats.json"))
              (Some "progress.json") false in
  let before := mk_sys 0 [] {["report.json" := Unparsable]} in
  fs (_send_messages five cm steady_env before).2 !! "report.json" = Some Unparsable.
Proof.
  cbv zeta.
  rewrite (campaign_writes_only_its_files five
             (new_manager (new_delay_manager open_config (Some "stats.json"))
                (Some "progress.json") false)
             steady_env (mk_sys 0 [] {["report.json" := Unparsable]}) "report.json").
  - reflexivity.
  - discriminate.
  - discriminate.
Defined.

Lemma send_loop_tracker bs n i cm e s :
  tracker_follows cm (send_loop n i bs cm e s).1.
Proof.
  pose proof (send_loop_invariant (λ cm' _, tracker_follows cm cm') n e) as Hinv.
  cbv beta in Hinv.
  exact (Hinv (λ i b cm1 s1 H,
                 tracker_follows_trans _ _ _ H (send_iteration_tracker _ i b cm1 e s1))
              bs i cm s (tracker_follows_refl cm)).
Qed.

(** When no wait can raise, the loop's [processed] grows by the growth of
    [sent] and [failed] together. *)
Lemma send_loop_attempts bs n i cm e s :
  waits_return (delay_manager.config (delay_manager cm)) →
  let out := send_loop n i bs cm e s in
  processed (progress out.1) - processed (progress cm)
  = (sent (progress out.1) - sent (progress cm))
    + (failed (progress out.1) - failed (progress cm)).
Proof.
  intros Hw. cbv zeta.
  pose proof (send_loop_trace bs n i cm e s Hw) as H. cbv zeta in H.
  destruct H as (_ & j & stopped & rs & Hj & Hpr & Hsk & Hs & Hf & Hres & Hrec & Hatt & Hskp).
  assert (Hlen : length rs = (j + (if stopped then 1 else 0))%nat).
  { apply (f_equal (@length _)) in Hrec.
    unfold runs.result_recipients, runs.recipients in Hrec.
    rewrite !length_map, length_take in Hrec. destruct stopped; lia. }
  assert (Hcount : count_status "success" rs + count_status "failed" rs = Z.of_nat j).
  { rewrite <- (take_drop j rs), !count_status_app.
    pose proof (count_status_attempted _ Hatt) as A.
    pose proof (count_status_skipped _ Hskp) as [B1 B2].
    rewrite length_take in A. lia. }
  lia.
Qed.

(** In a campaign that starts without a progress file and whose waits
    return, the success rate printed by [_generate_report],
    [(sent / processed) * 100], and the one [end_campaign] stores,
    [(messages_sent / (messages_sent + messages_failed)) * 100], are the
    same number whenever something was processed. *)
Theorem report_rate_is_tracker_rate (all : list business.Business)
    (dm : delay_manager.DelayManager) (dry : bool) (e : Env) (s : Sys) :
  waits_return (delay_manager.config dm) →
  let final := (runs.campaign all dm None dry e s).1 in
  0 < processed (progress final) →
  report_success_rate (progress final)
  = Some (analytics_tracker.success_rate (metrics final)).
Proof.
  intros Hw. cbv zeta.
  unfold runs.campaign, init.
  unfold mbind, mret, M_bind, M_ret, world.bind, world.ret, get_files. cbn [fst snd].
  unfold _load_progress, path_of. cbn [opt_truthy progress_file].
  unfold _load_businesses. cbn [progress last_processed_index default_progress].
  change (0 <=? -1) with false. cbv iota. cbn [fst snd].
  destruct all as [| b rest].
  { cbn. intros H. lia. }
  unfold analytics_tracker.start_campaign, analytics_tracker.end_campaign.
  unfold mbind, mret, M_bind, M_ret, world.bind, world.ret, now. cbn [fst snd].
  match goal with
  | |- context [_send_messages (b :: rest) ?c e ?s1] =>
      set (c0 := c); set (s0 := s1)
  end.
  rewrite send_messages_eq. cbv zeta. cbn [fst snd].
  set (c1 := with_progress c0 _).
  pose proof (send_loop_tracker (b :: rest) (Z.of_nat (length (b :: rest))) 0 c1 e
                (next_tick s0)) as T.
  pose proof (send_loop_attempts (b :: rest) (Z.of_nat (length (b :: rest))) 0 c1 e
                (next_tick s0) Hw) as A. cbv zeta in A.
  destruct (send_loop (Z.of_nat (length (b :: rest))) 0 (b :: rest) c1 e (next_tick s0))
    as [cm1 s2].
  cbn [fst snd] in *.
  destruct T as (T1 & T2 & _).
  unfold metrics in T1, T2.
  unfold c1, c0 in T1, T2, A.
  cbn in T1, T2, A.
  unfold metrics. cbn [analytics_tracker with_tracker progress with_progress].
  cbn [analytics_tracker.current_campaign analytics_tracker.with_campaign
       analytics_tracker.success_rate analytics_tracker.messages_sent
       analytics_tracker.messages_failed].
  cbn [processed sent set_end_time].
  intros Hpos.
  unfold report_success_rate. cbn [processed sent set_end_time].
  rewrite (proj2 (Z.ltb_lt _ _) Hpos).
  assert (E1 : analytics_tracker.messages_sent
                 (analytics_tracker.current_campaign (analytics_tracker cm1))
               = sent (progress cm1)) by lia.
  assert (E2 : analytics_tracker.messages_failed
                 (analytics_tracker.current_campaign (analytics_tracker cm1))
               = failed (progress cm1)) by lia.
  assert (E3 : processed (progress cm1) = sent (progress cm1) + failed (progress cm1))
    by lia.
  rewrite E1, E2, <- E3, (proj2 (Z.ltb_lt _ _) Hpos). reflexivity.
Qed.

(** Five recipients, no progress file: both rates are 100. *)
Lemma report_rate_is_tracker_rate_witness :
  let final := (runs.campaign five (new_delay_manager open_config None) None true
                  steady_env (mk_sys 0 [] ∅)).1 in
  report_success_rate (progress final)
  = Some (analytics_tracker.success_rate (metrics final)).
Proof.
  apply (report_rate_is_tracker_rate five (new_delay_manager open_config None) true
           steady_env (mk_sys 0 [] ∅)).
  - left. reflexivity.
  - vm_compute. reflexivity.
Defined.

End facts_xc.

(* ===================================================================== *)
(** ** More on the analytics tracker *)
(* ===================================================================== *)

Section facts_xa.
Import analytics_tracker.

Lemma track_types (c : runs.TrackCall) (a : AnalyticsTracker) (e : Env) (s : Sys) :
  let a' := (runs.track c a e s).1 in
  creation_messages (current_campaign a')
    = creation_messages (current_campaign a) + (if runs.is_creation c then 1 else 0) ∧
  creation_messages (current_campaign a') + enhancement_messages (current_campaign a')
    = creation_messages (current_campaign a) + enhancement_messages (current_campaign a)
      + (if runs.is_sent c then 1 else 0).
Proof.
  destruct c as [name ph mtype web dur retries | name ph mtype web err dur retries
                 | name ph reason];
    unfold runs.track, track_message_sent, track_message_failed, track_message_skipped;
    munfold; cbn [fst snd current_campaign creation_messages enhancement_messages
                  runs.is_sent runs.is_creation];
    try (split; lia).
  destruct (String.eqb mtype "creation"); split; lia.
Qed.

Lemma track_all_types (calls : list runs.TrackCall) :
  ∀ (a : AnalyticsTracker) (e : Env) (s : Sys),
  let a' := (runs.track_all calls a e s).1 in
  creation_messages (current_campaign a')
    = creation_messages (current_campaign a) + runs.count_creation calls ∧
  creation_messages (current_campaign a') + enhancement_messages (current_campaign a')
    = creation_messages (current_campaign a) + enhancement_messages (current_campaign a)
      + runs.count_sent calls.
Proof.
  induction calls as [| c rest IH]; intros a e s; cbv zeta.
  - cbn. unfold runs.count_creation, runs.count_sent. cbn. split; lia.
  - cbn [runs.track_all]. unfold mbind, M_bind, world.bind.
    pose proof (track_types c a e s) as H. cbv zeta in H.
    destruct (runs.track c a e s) as [a1 s1]. cbn [fst snd] in H.
    destruct H as (H1 & H2).
    specialize (IH a1 e s1). cbv zeta in IH. destruct IH as (I1 & I2).
    unfold runs.count_creation, runs.count_sent in *. cbn [List.filter].
    destruct (runs.is_creation c), (runs.is_sent c); cbn [length]; split; lia.
Qed.

(** In a tracked campaign every sent message is counted under exactly one
    of the two message types: [creation_messages] counts the sent messages
    tracked with the type ['creation'], every other type string counts as
    an enhancement, and the two add up to [messages_sent]. *)
Theorem message_types_partition_the_sent (n : Z) (calls : list runs.TrackCall)
    (a : AnalyticsTracker) (e : Env) (s : Sys) :
  let c := current_campaign (runs.tracked_campaign n calls a e s).1 in
  creation_messages c = runs.count_creation calls ∧
  enhancement_messages c = runs.count_sent calls - runs.count_creation calls ∧
  creation_messages c + enhancement_messages c = messages_sent c.
Proof.
  cbv zeta. unfold runs.tracked_campaign, start_campaign. munfold. cbn [fst snd].
  pose proof (track_all_types calls (with_campaign a (new_metrics n (Some (clock e (tick s)))))
                e (next_tick s)) as H.
  pose proof (track_all_effect calls (with_campaign a (new_metrics n (Some (clock e (tick s)))))
                e (next_tick s)) as G.
  cbv zeta in H, G.
  destruct (runs.track_all calls _ e (next_tick s)) as [a1 s1]. cbn [fst snd] in H, G.
  cbn in H, G. destruct H as (H1 & H2). destruct G as (G1 & _).
  unfold end_campaign. munfold.
  cbn [fst snd current_campaign with_campaign creation_messages enhancement_messages
       messages_sent].
  split_and!; lia.
Qed.

Lemma total_errors_empty : runs.total_errors ∅ = 0.
Proof. unfold runs.total_errors. by rewrite map_fold_empty. Qed.

Lemma total_errors_insert_new (m : gmap string Z) k v :
  m !! k = None → runs.total_errors (<[k := v]> m) = v + runs.total_errors m.
Proof.
  intros H. unfold runs.total_errors.
  rewrite map_fold_insert_L; [reflexivity | | exact H].
  intros. lia.
Qed.

Lemma total_errors_bump (m : gmap string Z) k :
  runs.total_errors (bump_category k m) = runs.total_errors m + 1.
Proof.
  unfold bump_category.
  destruct (m !! k) as [v |] eqn:E.
  - cbn [default].
    rewrite <- (insert_delete_eq m k (v + 1)).
    rewrite total_errors_insert_new by apply lookup_delete_eq.
    unfold runs.total_errors at 2.
    rewrite (map_fold_delete_L _ _ k v m); [fold (runs.total_errors (delete k m)); lia | | exact E].
    intros. lia.
  - cbn [default]. rewrite total_errors_insert_new by exact E. lia.
Qed.

Lemma categorize_error_total err m :
  runs.total_errors (_categorize_error err m) = runs.total_errors m + 1.
Proof.
  unfold _categorize_error.
  repeat match goal with
         | |- context [if ?c then _ else _] => destruct c
         end; apply total_errors_bump.
Qed.

Lemma track_errors (c : runs.TrackCall) (a : AnalyticsTracker) (e : Env) (s : Sys) :
  runs.total_errors (error_categories (runs.track c a e s).1)
  = runs.total_errors (error_categories a) + (if runs.is_failed c then 1 else 0).
Proof.
  destruct c as [name ph mtype web dur retries | name ph mtype web err dur retries
                 | name ph reason];
    unfold runs.track, track_message_sent, track_message_failed, track_message_skipped;
    munfold; cbn [fst snd error_categories runs.is_failed]; try lia.
  rewrite categorize_error_total. lia.
Qed.

(** Every tracked failure is filed under exactly one error category: over
    any sequence of tracked attempts the total of [error_categories] grows
    by the number of failures, so that a new tracker's categories add up to
    [messages_failed]. *)
Theorem error_categories_count_the_failures (calls : list runs.TrackCall)
    (a : AnalyticsTracker) (e : Env) (s : Sys) :
  let a' := (runs.track_all calls a e s).1 in
  runs.total_errors (error_categories a')
  = runs.total_errors (error_categories a) + runs.count_failed calls ∧
  runs.total_errors (error_categories (runs.track_all calls init e s).1)
  = messages_failed (current_campaign (runs.track_all calls init e s).1).
Proof.
  assert (G : ∀ calls a s,
    runs.total_errors (error_categories (runs.track_all calls a e s).1)
    = runs.total_errors (error_categories a) + runs.count_failed calls).
  { clear. intros calls. induction calls as [| c rest IH]; intros a s.
    - cbn. unfold runs.count_failed. cbn. lia.
    - cbn [runs.track_all]. unfold mbind, M_bind, world.bind.
      pose proof (track_errors c a e s) as H.
      destruct (runs.track c a e s) as [a1 s1]. cbn [fst snd] in H.
      rewrite IH, H. unfold runs.count_failed. cbn [List.filter].
      destruct (runs.is_failed c); cbn [length]; lia. }
  cbv zeta. split; [apply G |].
  rewrite G.
  pose proof (track_all_effect calls init e s) as H. cbv zeta in H.
  destruct H as (_ & H2 & _). rewrite H2.
  cbn [init error_categories current_campaign messages_failed new_metrics].
  rewrite total_errors_empty. lia.
Qed.

End facts_xa.

(* ===================================================================== *)
(** ** Websites and previews *)
(* ===================================================================== *)

Section facts_xb.

Lemma truthy_cons c s : truthy (String c s) = true.
Proof. reflexivity. Qed.

Lemma truthy_chars s : truthy s = existsb (λ _, true) (list_ascii_of_string s).
Proof. by destruct s. Qed.

Lemma truthy_lstrip s : truthy (lstrip s) = has_visible_char s.
Proof.
  unfold has_visible_char. induction s as [| c s IH]; [reflexivity |].
  cbn [lstrip list_ascii_of_string existsb].
  destruct (is_space c); cbn [negb orb]; [exact IH | apply truthy_cons].
Qed.

Lemma visible_lstrip s : has_visible_char (lstrip s) = has_visible_char s.
Proof.
  unfold has_visible_char. induction s as [| c s IH]; [reflexivity |].
  cbn [lstrip]. destruct (is_space c) eqn:E.
  - cbn [list_ascii_of_string existsb]. rewrite E. exact IH.
  - reflexivity.
Qed.

Lemma existsb_str_rev (f : ascii → bool) s :
  existsb f (list_ascii_of_string (str_rev s)) = existsb f (list_ascii_of_string s).
Proof.
  unfold str_rev. rewrite list_ascii_of_string_of_list_ascii.
  apply eq_true_iff_eq. rewrite !existsb_exists.
  split; intros (x & Hin & Hx); exists x; (split; [| exact Hx]).
  - by apply in_rev.
  - by apply in_rev in Hin.
Qed.

(** What [strip] leaves is not empty exactly when the text has a character
    that is not white space. *)
Lemma truthy_strip w : truthy (strip w) = has_visible_char w.
Proof.
  unfold strip.
  rewrite truthy_chars, existsb_str_rev, <- truthy_chars, truthy_lstrip.
  unfold has_visible_char at 1. rewrite existsb_str_rev.
  apply visible_lstrip.
Qed.

(** A business has a website exactly when the [website] field holds a
    character that is not white space; a missing, empty or blank field
    counts as no website, and the message type is ['enhancement'] in the
    first case and ['creation'] in the second. *)
Theorem website_needs_a_visible_character (b : business.Business) :
  business.has_website b
  = match business.website b with
    | Some w => has_visible_char w
    | None => false
    end ∧
  business.detect_message_type b
  = if match business.website b with
       | Some w => has_visible_char w
       | None => false
       end
    then "enhancement" else "creation".
Proof.
  assert (H : business.has_website b
              = match business.website b with
                | Some w => has_visible_char w
                | None => false
                end).
  { unfold business.has_website. destruct (business.website b) as [w |]; [| reflexivity].
    rewrite truthy_strip. destruct w as [| c w]; [reflexivity |].
    by rewrite truthy_cons. }
  split; [exact H |]. unfold business.detect_message_type. by rewrite H.
Qed.

Lemma substring_length n : ∀ s, String.length (substring 0 n s) = Nat.min n (String.length s).
Proof.
  induction n as [| n IH]; intros s.
  - by destruct s.
  - destruct s as [| c s]; [reflexivity |]. cbn. by rewrite IH.
Qed.

Lemma substring_prefix n : ∀ s, String.prefix (substring 0 n s) s = true.
Proof.
  induction n as [| n IH]; intros s.
  - by destruct s.
  - destruct s as [| c s]; [reflexivity |]. cbn.
    destruct (ascii_dec c c); [apply IH | done].
Qed.

Import campaign_manager.

(** Whatever its arguments, [_record_result] appends exactly one result,
    and the preview that result carries is [None] for a missing or empty
    message and otherwise the first 80 characters of the message: a prefix
    of it, as long as the message when that is at most 80 characters and
    80 characters long otherwise. *)
Theorem preview_is_a_short_prefix (b : business.Business) (st : string)
    (err msg : option string) (cm : CampaignManager) (e : Env) (s : Sys) :
  ∃ r, results (progress (_record_result b st err msg cm e s).1)
       = (results (progress cm) ++ [r])%list ∧
       status r = st ∧
       match msg with
       | Some (String c m) =>
           ∃ p, message_preview r = Some p ∧
                String.length p = Nat.min 80 (String.length (String c m)) ∧
                String.prefix p (String c m) = true
       | _ => message_preview r = None
       end.
Proof.
  eexists. split; [| split].
  - unfold _record_result. munfold.
    unfold analytics_tracker.track_message_sent, analytics_tracker.track_message_failed,
      analytics_tracker.track_message_skipped. munfold.
    destruct (String.eqb st "success"); [reflexivity |].
    destruct (String.eqb st "failed"); [reflexivity |].
    destruct (String.eqb st "skipped"); reflexivity.
  - reflexivity.
  - cbn [message_preview]. unfold preview.
    destruct msg as [[| c m] |]; [reflexivity | | reflexivity].
    cbn [opt_truthy or_else]. rewrite truthy_cons.
    eexists. split; [reflexivity |]. unfold slice_to.
    split; [apply substring_length | apply substring_prefix].
Qed.

End facts_xb.
